(** * Usability Testing Tool (app.py): model and verified properties

    The Streamlit script is embedded function by function.  The session
    dictionary [st.session_state] is a finite map from keys to Python
    values, the [data/] folder is a finite map from paths to CSV tables,
    and every button handler is a function from the world before the click
    to the world after it, in an exception monad.  What a run reads from
    outside (the clock, the UTC time stamp, a fresh UUID) is an argument.

    Numbers: a Python [int] is a [Z]; a Python [float] is the rational
    number it denotes, kept in [Q] (the rounding error of binary floating
    point is outside the model).

    pandas: a file is the table of the fields [to_csv] wrote, and
    [read_csv] types each column from its fields, as pandas does with its
    defaults: integer literals make an integer column, numbers and missing
    values a float column, everything else text.  The reader of numbers
    covers plain decimal literals. *)

From Stdlib Require Import Ascii QArith Qround Lqa.
From stdpp Require Import gmap strings list sorting pretty.

(* ================================================================== *)
(** ** Python values *)
(* ================================================================== *)

Module Py.

Inductive value : Type :=
| VNone
| VBool (b : bool)
| VInt (z : Z)
| VFloat (q : Q)
| VStr (s : string)
| VNaN.

#[global] Instance Q_eq_dec : EqDecision Q.
Proof. solve_decision. Defined.

#[global] Instance value_eq_dec : EqDecision value.
Proof. solve_decision. Defined.

Inductive exn : Type :=
| KeyError (key : string)
| TypeError.

(** A computation that returns or raises. *)
Definition result (A : Type) : Type := sum A exn.

Definition ret {A} (a : A) : result A := inl a.
Definition raise {A} (e : exn) : result A := inr e.
Definition bind {A B} (c : result A) (k : A -> result B) : result B :=
  match c with
  | inl a => k a
  | inr e => inr e
  end.

(** [bool(v)]: the truth value Python's [if v] and [not v] test. *)
Definition truthy (v : value) : bool :=
  match v with
  | VNone => false
  | VBool b => b
  | VInt z => negb (z =? 0)%Z
  | VFloat q => negb (Qeq_bool q 0)
  | VStr s => negb (String.eqb s "")
  | VNaN => true
  end.

Definition Q_of_bool (b : bool) : Q := if b then 1%Q else 0%Q.

(** [a == b]: numbers compare by value across [bool], [int] and [float];
    a string equals only the same string; NaN equals nothing. *)
Definition eqb (a b : value) : bool :=
  match a, b with
  | VNone, VNone => true
  | VStr s, VStr t => String.eqb s t
  | VBool x, VBool y => Bool.eqb x y
  | VBool x, VInt z | VInt z, VBool x => Qeq_bool (Q_of_bool x) (inject_Z z)
  | VBool x, VFloat q | VFloat q, VBool x => Qeq_bool (Q_of_bool x) q
  | VInt y, VInt z => (y =? z)%Z
  | VInt z, VFloat q | VFloat q, VInt z => Qeq_bool (inject_Z z) q
  | VFloat p, VFloat q => Qeq_bool p q
  | _, _ => false
  end.

(** [x in set(xs)] for a probe [x] that is not NaN. *)
Definition in_set (x : value) (xs : list value) : bool :=
  existsb (eqb x) xs.

(** [a - b] on numbers. *)
Definition sub (a b : value) : result value :=
  match a, b with
  | VFloat p, VFloat q => ret (VFloat (p - q)%Q)
  | VFloat p, VInt z => ret (VFloat (p - inject_Z z)%Q)
  | VInt z, VFloat q => ret (VFloat (inject_Z z - q)%Q)
  | VInt y, VInt z => ret (VInt (y - z)%Z)
  | _, _ => raise TypeError
  end.

(** Nearest integer, ties to the even one. *)
Definition round_half_even (q : Q) : Z :=
  let n := Qfloor q in
  match ((q - inject_Z n) ?= (1 # 2))%Q with
  | Lt => n
  | Gt => (n + 1)%Z
  | Eq => if Z.even n then n else (n + 1)%Z
  end.

(** [round(x, ndigits)] of a float. *)
Definition round_float (q : Q) (ndigits : nat) : Q :=
  let scale := inject_Z (10 ^ Z.of_nat ndigits) in
  Qred (inject_Z (round_half_even (q * scale)%Q) / scale)%Q.

Definition round (v : value) (ndigits : nat) : result value :=
  match v with
  | VFloat q => ret (VFloat (round_float q ndigits))
  | VInt z => ret (VInt z)
  | VBool b => ret (VInt (if b then 1 else 0))
  | _ => raise TypeError
  end.

(** An insertion-ordered dictionary with string keys. *)
Definition dict (V : Type) : Type := list (string * V).

Definition keys {V} (d : dict V) : list string := map fst d.
Definition values {V} (d : dict V) : list V := map snd d.

Fixpoint get {V} (d : dict V) (key : string) : option V :=
  match d with
  | [] => None
  | (k, v) :: d' => if String.eqb k key then Some v else get d' key
  end.

(** [d[key]], which raises [KeyError] on a missing key. *)
Definition getitem {V} (d : dict V) (key : string) : result V :=
  match get d key with
  | Some v => ret v
  | None => raise (KeyError key)
  end.

(** [s.strip() != ""]: some character of [s] is not white space. *)
Definition is_space (c : Ascii.ascii) : bool :=
  let n := Ascii.nat_of_ascii c in
  ((n =? 32) || ((9 <=? n) && (n <=? 13)) || ((28 <=? n) && (n <=? 31)))%nat.

Fixpoint strip_nonempty (s : string) : bool :=
  match s with
  | EmptyString => false
  | String c s' => negb (is_space c) || strip_nonempty s'
  end.

End Py.

Notation "'do' x <- c ;; k" := (Py.bind c (fun x => k))
  (at level 10, x name, c at level 99, k at level 200).

(* ================================================================== *)
(** ** uuid.uuid4() and its text *)
(* ================================================================== *)

Module Uuid.

Definition hex_digit (n : N) : Ascii.ascii :=
  Ascii.ascii_of_N (if (n <? 10)%N then 48 + n else 87 + n)%N.

(** The [w] low hexadecimal digits of [n], most significant first. *)
Fixpoint hex_fixed (w : nat) (n : N) : string :=
  match w with
  | O => EmptyString
  | S w' => hex_fixed w' (n / 16)%N +:+ String (hex_digit (n mod 16)%N) EmptyString
  end.

(** [str(u)] of a UUID given by its 128-bit integer:
    8-4-4-4-12 hexadecimal digits. *)
Definition str (u : N) : string :=
  let h := hex_fixed 32 u in
  String.substring 0 8 h +:+ "-" +:+ String.substring 8 4 h +:+ "-" +:+
  String.substring 12 4 h +:+ "-" +:+ String.substring 16 4 h +:+ "-" +:+
  String.substring 20 12 h.

(** Lower-case hexadecimal digits only. *)
Definition is_hex (c : ascii) : bool :=
  let n := nat_of_ascii c in
  (((48 <=? n) && (n <=? 57)) || ((97 <=? n) && (n <=? 102)))%nat.

Fixpoint all_hex (s : string) : bool :=
  match s with
  | EmptyString => true
  | String c s' => is_hex c && all_hex s'
  end.

End Uuid.

(* ================================================================== *)
(** ** What one run of the script reads from outside *)
(* ================================================================== *)

Record env : Type := {
  time_time : Q;        (* time.time() *)
  now_iso : string;     (* datetime.utcnow().strftime("%Y-%m-%d %H:%M:%S") *)
  uuid4 : N;            (* uuid.uuid4() *)
}.

(** What the script shows.  The last one stands for
    [st.success(f"Timer stopped. Duration: {duration:.2f} seconds")]. *)
Inductive message : Type :=
| st_warning (text : string)
| st_success (text : string)
| st_success_timer_stopped (duration : Py.value).

(* ================================================================== *)
(** ** st.session_state *)
(* ================================================================== *)

Abbreviation session_state := (gmap string Py.value).

(** [ensure_participant()], lines 39-42. *)
Definition ensure_participant (e : env) (ss : session_state) : session_state :=
  match ss !! "participant_id" with
  | Some v =>
      if negb (Py.truthy v)
      then <["participant_id" := Py.VStr ("P-" +:+ String.substring 0 8 (Uuid.str (uuid4 e)))]> ss
      else ss
  | None =>
      <["participant_id" := Py.VStr ("P-" +:+ String.substring 0 8 (Uuid.str (uuid4 e)))]> ss
  end.

(** An id is set when the session holds a true value under the key
    (the negation of the test of line 41). *)
Definition participant_set (ss : session_state) : bool :=
  match ss !! "participant_id" with
  | Some v => Py.truthy v
  | None => false
  end.

(** [st.session_state[key]]. *)
Definition ss_getitem (ss : session_state) (key : string) : Py.result Py.value :=
  match ss !! key with
  | Some v => Py.ret v
  | None => Py.raise (Py.KeyError key)
  end.

(** [st.session_state.get(key, default)]. *)
Definition ss_get (ss : session_state) (key : string) (default : Py.value) : Py.value :=
  match ss !! key with
  | Some v => v
  | None => default
  end.

(* ================================================================== *)
(** ** CSV files as pandas writes and reads them *)
(* ================================================================== *)

Module Csv.

(** A file: the header line and the data lines, each a list of fields.
    Quoting and line endings are the csv writer's and reader's business
    and cancel out for the texts the widgets of the script send; a text
    with a carriage return of its own, which is written as it is and
    read as the end of a line, is not modelled. *)
Record table : Type := {
  header : list string;
  rows : list (list string);
}.

(** [repr] of a float with at most three decimals, which is all the
    script writes: [12.0], [0.5], [-3.142]. *)
Definition repr_float (q : Q) : string :=
  let m := Py.round_half_even (q * 1000)%Q in
  let a := Z.abs m in
  let f := (a mod 1000)%Z in
  let d1 := (f / 100)%Z in
  let d2 := ((f / 10) mod 10)%Z in
  let d3 := (f mod 10)%Z in
  (if (m <? 0)%Z then "-" else "") +:+ pretty (a / 1000)%Z +:+ "." +:+
  (if negb (d3 =? 0)%Z then pretty d1 +:+ pretty d2 +:+ pretty d3
   else if negb (d2 =? 0)%Z then pretty d1 +:+ pretty d2
   else pretty d1).

(** The text [DataFrame.to_csv] writes for one value. *)
Definition field (v : Py.value) : string :=
  match v with
  | Py.VNone => ""
  | Py.VBool b => if b then "True" else "False"
  | Py.VInt z => pretty z
  | Py.VFloat q => repr_float q
  | Py.VStr s => s
  | Py.VNaN => ""
  end.

(** The fields [read_csv] takes for missing values (pandas' defaults). *)
Definition na_values : list string :=
  [ ""; "#N/A"; "#N/A N/A"; "#NA"; "-1.#IND"; "-1.#QNAN"; "-NaN"; "-nan";
    "1.#IND"; "1.#QNAN"; "<NA>"; "N/A"; "NA"; "NULL"; "NaN"; "None";
    "n/a"; "nan"; "null" ].

Definition is_na (s : string) : bool := existsb (String.eqb s) na_values.

Definition digit_of (c : Ascii.ascii) : option Z :=
  let n := Ascii.nat_of_ascii c in
  if ((48 <=? n) && (n <=? 57))%nat then Some (Z.of_nat (n - 48)) else None.

(** The leading decimal digits of [s] and what follows them. *)
Fixpoint read_digits (s : string) : list Z * string :=
  match s with
  | EmptyString => ([], EmptyString)
  | String c s' =>
      match digit_of c with
      | Some d => let '(ds, rest) := read_digits s' in (d :: ds, rest)
      | None => ([], s)
      end
  end.

Definition digits_value (ds : list Z) : Z :=
  fold_left (fun acc d => (acc * 10 + d)%Z) ds 0%Z.

(** An optional sign: [true] for a minus. *)
Definition read_sign (s : string) : bool * string :=
  match s with
  | String "-"%char s' => (true, s')
  | String "+"%char s' => (false, s')
  | _ => (false, s)
  end.

Definition signed (neg : bool) (z : Z) : Z := if neg then (- z)%Z else z.

(** A decimal integer literal: sign, then digits only. *)
Definition parse_int (s : string) : option Z :=
  let '(neg, s1) := read_sign s in
  match read_digits s1 with
  | ((_ :: _) as ds, EmptyString) => Some (signed neg (digits_value ds))
  | _ => None
  end.

(** A decimal literal: sign, digits, and possibly a point and digits.
    Exponents, [inf] and surrounding blanks are not covered; such a
    field is read as text here. *)
Definition parse_float (s : string) : option Q :=
  let '(neg, s1) := read_sign s in
  let '(ip, r1) := read_digits s1 in
  match r1 with
  | EmptyString =>
      match ip with
      | [] => None
      | _ => Some (inject_Z (signed neg (digits_value ip)))
      end
  | String "."%char r2 =>
      let '(fp, r3) := read_digits r2 in
      match r3, (ip ++ fp) with
      | EmptyString, _ :: _ =>
          Some (Qred (inject_Z (signed neg (digits_value (ip ++ fp)))
                      / inject_Z (10 ^ Z.of_nat (length fp)))%Q)
      | _, _ => None
      end
  | _ => None
  end.

Definition parse_bool (s : string) : option bool :=
  if existsb (String.eqb s) ["True"; "TRUE"; "true"] then Some true
  else if existsb (String.eqb s) ["False"; "FALSE"; "false"] then Some false
  else None.

Definition is_some {A} (o : option A) : bool :=
  match o with Some _ => true | None => false end.

(** The type [read_csv] gives a column, from all of its fields:
    integers when every field is an integer literal; floats when every
    field that is not missing is a number; booleans likewise; text
    otherwise.  A missing field is NaN. *)
Definition infer_column (fields : list string) : list Py.value :=
  let present := filter (fun s => negb (is_na s)) fields in
  if forallb (fun s => is_some (parse_int s)) fields then
    map (fun s => match parse_int s with Some z => Py.VInt z | None => Py.VNaN end) fields
  else if forallb (fun s => is_some (parse_float s)) present then
    map (fun s => if is_na s then Py.VNaN else
                  match parse_float s with Some q => Py.VFloat q | None => Py.VNaN end) fields
  else if forallb (fun s => is_some (parse_bool s)) present then
    map (fun s => if is_na s then Py.VNaN else
                  match parse_bool s with Some b => Py.VBool b | None => Py.VNaN end) fields
  else
    map (fun s => if is_na s then Py.VNaN else Py.VStr s) fields.

(** Text that [infer_column] leaves as text wherever it stands: no
    missing value, no number, no boolean. *)
Definition plain_text (s : string) : bool :=
  negb (is_na s) && negb (is_some (parse_int s))
  && negb (is_some (parse_float s)) && negb (is_some (parse_bool s)).

End Csv.

(** A data frame: its columns in order, each with its name. *)
Abbreviation DataFrame := (list (string * list Py.value)).

(** [pd.DataFrame()]. *)
Definition empty_frame : DataFrame := [].

(** [df.empty]: no column, or no row. *)
Definition df_empty (df : DataFrame) : bool :=
  match df with
  | [] => true
  | (_, col) :: _ => (length col =? 0)%nat
  end.

(** [df.get(name, default)]. *)
Definition df_get (df : DataFrame) (name : string) (default : list Py.value)
  : list Py.value :=
  match Py.get df name with
  | Some col => col
  | None => default
  end.

(** [pd.read_csv]: column [i] is made of field [i] of every line (a line
    that is too short misses the field), typed as a whole. *)
Definition read_csv (t : Csv.table) : DataFrame :=
  imap (fun i name =>
          (name, Csv.infer_column (map (fun line => nth i line "") (Csv.rows t))))
       (Csv.header t).

(* ================================================================== *)
(** ** Data setup and helpers (lines 8-45) *)
(* ================================================================== *)

(** The [data/] folder: which files exist, and what they hold. *)
Abbreviation filesystem := (gmap string Csv.table).

Definition DATA_FOLDER : string := "data".
Definition path_join (folder file : string) : string := folder +:+ "/" +:+ file.

Definition CONSENT_CSV : string := path_join DATA_FOLDER "consent_data.csv".
Definition DEMOGRAPHIC_CSV : string := path_join DATA_FOLDER "demographic_data.csv".
Definition TASK_CSV : string := path_join DATA_FOLDER "task_data.csv".
Definition EXIT_CSV : string := path_join DATA_FOLDER "exit_data.csv".

(** [save_to_csv(data_dict, csv_file)]: a new file gets the header and
    the line; an existing file gets the line, whatever its header is. *)
Definition save_to_csv (data_dict : Py.dict Py.value) (csv_file : string)
    (fs : filesystem) : filesystem :=
  let line := map Csv.field (Py.values data_dict) in
  match fs !! csv_file with
  | None =>
      <[csv_file := {| Csv.header := Py.keys data_dict; Csv.rows := [line] |}]> fs
  | Some t =>
      <[csv_file := {| Csv.header := Csv.header t; Csv.rows := Csv.rows t ++ [line] |}]> fs
  end.

(** [load_from_csv(csv_file)]. *)
Definition load_from_csv (csv_file : string) (fs : filesystem) : DataFrame :=
  match fs !! csv_file with
  | Some t => read_csv t
  | None => empty_frame
  end.

(** The records of a dataset, oldest first, and their number. *)
Definition dataset_rows (csv_file : string) (fs : filesystem) : list (list string) :=
  match fs !! csv_file with
  | Some t => Csv.rows t
  | None => []
  end.

Definition row_count (csv_file : string) (fs : filesystem) : nat :=
  length (dataset_rows csv_file fs).

Definition require_consent_warning : message :=
  st_warning "Please complete and submit consent first. Data will only be recorded after consent is provided.".

Definition LIKERT_5 : Py.dict Z :=
  [ ("1 - Strongly Disagree", 1%Z);
    ("2 - Disagree", 2%Z);
    ("3 - Neutral", 3%Z);
    ("4 - Agree", 4%Z);
    ("5 - Strongly Agree", 5%Z) ].

Definition LIKERT_5_SIMPLE : Py.dict Z :=
  [ ("1 - Very Poor", 1%Z);
    ("2 - Poor", 2%Z);
    ("3 - Fair", 3%Z);
    ("4 - Good", 4%Z);
    ("5 - Excellent", 5%Z) ].

Definition TASK_SUCCESS_OPTIONS : list string :=
  [ "Success"; "Partial"; "Fail"; "Abandoned" ].

(** The names of [DEFAULT_TASKS] (the descriptions are only displayed). *)
Definition task_names : list string :=
  [ "Task 1: Find an item"; "Task 2: Create an account"; "Task 3: Change a setting" ].

(** The integer a label starts with. *)
Definition leading_integer (label : string) : option Z :=
  match label with
  | String c _ => Csv.digit_of c
  | EmptyString => None
  end.

(** A label-to-integer mapping is total on its labels, each going to the
    integer it starts with, and one-to-one onto 1..5. *)
Definition likert_bijection (d : Py.dict Z) : Prop :=
  length (Py.keys d) = 5
  /\ NoDup (Py.keys d)
  /\ (forall label, In label (Py.keys d) ->
        exists n, Py.getitem d label = inl n
                  /\ leading_integer label = Some n
                  /\ (1 <= n <= 5)%Z)
  /\ (forall l1 l2, In l1 (Py.keys d) -> In l2 (Py.keys d) ->
        Py.get d l1 = Py.get d l2 -> l1 = l2)
  /\ (forall n, (1 <= n <= 5)%Z ->
        exists label, In label (Py.keys d) /\ Py.get d label = Some n
                      /\ forall label', Py.get d label' = Some n -> label' = label).

(* ================================================================== *)
(** ** Widgets *)
(* ================================================================== *)

(** [st.selectbox(label, options)]: the option at the position the user
    chose; a widget never holds anything but one of its options, and
    shows the first one until the user chooses. *)
Definition selectbox (options : list string) (choice : nat) : string :=
  nth choice options (hd "" options).

(** [st.select_slider(label, options=..., value=...)]. *)
Definition select_slider (options : list string) (value : string) (choice : nat)
  : string :=
  nth choice options value.

(** The state the script works on: the session and the files. *)
Record world : Type := {
  session : session_state;
  files : filesystem;
}.

(** The test of lines 192, 266 and 319 on the loaded consent frame:
    [consent_df.empty or pid not in set(consent_df.get("participant_id", []))]. *)
Definition consent_missing (consent_df : DataFrame) (pid : Py.value) : bool :=
  df_empty consent_df
  || negb (Py.in_set pid (df_get consent_df "participant_id" [])).

(** The validator's contract, [has_consented(participant_id)]: load the
    consent dataset and negate the test above. *)
Definition has_consented (pid : Py.value) (fs : filesystem) : bool :=
  negb (consent_missing (load_from_csv CONSENT_CSV fs) pid).

(** The sidebar, run at the top of every run of the script (lines 88-92):
    [ensure_participant()], and the toggle that is on until touched. *)
Definition sidebar (e : env) (ss : session_state) : session_state :=
  let ss := ensure_participant e ss in
  match ss !! "observer_mode" with
  | Some _ => ss
  | None => <["observer_mode" := Py.VBool true]> ss
  end.

(* ================================================================== *)
(** ** Consent (lines 128-158) *)
(* ================================================================== *)

Module ConsentPage.

Record form : Type := {
  consent_given : bool;     (* the checkbox *)
  consent_name : string;    (* the optional display name *)
}.

Definition data_dict (e : env) (pid : Py.value) (f : form) : Py.dict Py.value :=
  [ ("timestamp", Py.VStr (now_iso e));
    ("participant_id", pid);
    ("consent_given", Py.VBool true);
    ("display_name", Py.VStr (consent_name f)) ].

(** The "Submit Consent" button. *)
Definition submit (e : env) (f : form) (w : world) : Py.result (world * list message) :=
  if negb (consent_given f) then
    Py.ret (w, [st_warning "You must agree to the consent terms before proceeding."])
  else
    let ss := ensure_participant e (session w) in
    do pid <- ss_getitem ss "participant_id" ;;
    Py.ret ({| session := ss;
               files := save_to_csv (data_dict e pid f) CONSENT_CSV (files w) |},
            [st_success "Consent recorded. You may proceed to the Demographics tab."]).

End ConsentPage.

(* ================================================================== *)
(** ** Demographics (lines 163-207) *)
(* ================================================================== *)

Module DemographicsPage.

Record form : Type := {
  name : string;
  age : Z;
  gender : nat;              (* position in the select box *)
  gender_self : string;      (* the self-description *)
  occupation : string;
  education : nat;           (* position in the select box *)
  country : string;
  familiarity : nat;         (* position on the slider *)
}.

Definition gender_options : list string :=
  [ "Prefer not to say"; "Female"; "Male"; "Non-binary"; "Self-describe" ].

Definition education_options : list string :=
  [ "Prefer not to say"; "High School"; "Associate"; "Bachelor"; "Master";
    "Doctorate"; "Other" ].

Definition gender_value (f : form) : string :=
  let g := selectbox gender_options (gender f) in
  if String.eqb g "Self-describe" then gender_self f else g.

Definition data_dict (e : env) (pid : Py.value) (f : form) (familiarity_1to5 : Z)
  : Py.dict Py.value :=
  [ ("timestamp", Py.VStr (now_iso e));
    ("participant_id", pid);
    ("name", Py.VStr (name f));
    ("age", Py.VInt (age f));
    ("gender", Py.VStr (gender_value f));
    ("occupation", Py.VStr (occupation f));
    ("education", Py.VStr (selectbox education_options (education f)));
    ("country", Py.VStr (country f));
    ("familiarity_1to5", Py.VInt familiarity_1to5) ].

(** The "Submit Demographics" button. *)
Definition submit (e : env) (f : form) (w : world) : Py.result (world * list message) :=
  let familiarity_label :=
    select_slider (Py.keys LIKERT_5_SIMPLE) "3 - Fair" (familiarity f) in
  do familiarity_1to5 <- Py.getitem LIKERT_5_SIMPLE familiarity_label ;;
  let consent_df := load_from_csv CONSENT_CSV (files w) in
  let ss := ensure_participant e (session w) in
  do pid <- ss_getitem ss "participant_id" ;;
  if consent_missing consent_df pid then
    Py.ret ({| session := ss; files := files w |}, [require_consent_warning])
  else
    Py.ret ({| session := ss;
               files := save_to_csv (data_dict e pid f familiarity_1to5)
                          DEMOGRAPHIC_CSV (files w) |},
            [st_success "Demographic data saved."]).

End DemographicsPage.

(* ================================================================== *)
(** ** Task (lines 212-289) *)
(* ================================================================== *)

Module TaskPage.

Record form : Type := {
  selected_task : nat;            (* position in the select box *)
  success : nat;                  (* position in the select box *)
  errors : Z;
  perceived_difficulty : nat;     (* position on the slider *)
  task_satisfaction : nat;        (* position on the slider *)
  notes : string;
}.

(** The "Start Task Timer" button. *)
Definition start (e : env) (w : world) : Py.result (world * list message) :=
  let ss := <["task_start_time" := Py.VFloat (time_time e)]> (session w) in
  let ss := <["task_duration" := Py.VNone]> ss in
  Py.ret ({| session := ss; files := files w |}, [st_success "Timer started."]).

(** The "Stop Task Timer" button. *)
Definition stop (e : env) (w : world) : Py.result (world * list message) :=
  match session w !! "task_start_time" with
  | Some t0 =>
      if Py.truthy t0 then
        do duration <- Py.sub (Py.VFloat (time_time e)) t0 ;;
        Py.ret ({| session := <["task_duration" := duration]> (session w);
                   files := files w |},
                [st_success_timer_stopped duration])
      else Py.ret (w, [st_warning "Timer was not started."])
  | None => Py.ret (w, [st_warning "Timer was not started."])
  end.

(** ["duration_seconds": round(duration_val, 3) if duration_val else ""]. *)
Definition duration_seconds (duration_val : Py.value) : Py.result Py.value :=
  if Py.truthy duration_val then Py.round duration_val 3 else Py.ret (Py.VStr "").

Definition data_dict (e : env) (pid : Py.value) (f : form)
    (duration : Py.value) (perceived_difficulty_1to5 task_satisfaction_1to5 : Z)
  : Py.dict Py.value :=
  [ ("timestamp", Py.VStr (now_iso e));
    ("participant_id", pid);
    ("task_name", Py.VStr (selectbox task_names (selected_task f)));
    ("success", Py.VStr (selectbox TASK_SUCCESS_OPTIONS (success f)));
    ("duration_seconds", duration);
    ("errors", Py.VInt (errors f));
    ("perceived_difficulty_1to5", Py.VInt perceived_difficulty_1to5);
    ("task_satisfaction_1to5", Py.VInt task_satisfaction_1to5);
    ("notes", Py.VStr (notes f)) ].

(** The "Save Task Results" button. *)
Definition save (e : env) (f : form) (w : world) : Py.result (world * list message) :=
  let perceived_difficulty_label :=
    select_slider (Py.keys LIKERT_5_SIMPLE) "3 - Fair" (perceived_difficulty f) in
  do perceived_difficulty_1to5 <- Py.getitem LIKERT_5_SIMPLE perceived_difficulty_label ;;
  let satisfaction_label :=
    select_slider (Py.keys LIKERT_5_SIMPLE) "4 - Good" (task_satisfaction f) in
  do task_satisfaction_1to5 <- Py.getitem LIKERT_5_SIMPLE satisfaction_label ;;
  let consent_df := load_from_csv CONSENT_CSV (files w) in
  let ss := ensure_participant e (session w) in
  do pid <- ss_getitem ss "participant_id" ;;
  if consent_missing consent_df pid then
    Py.ret ({| session := ss; files := files w |}, [require_consent_warning])
  else
    let duration_val := ss_get ss "task_duration" Py.VNone in
    do duration <- duration_seconds duration_val ;;
    let fs := save_to_csv
                (data_dict e pid f duration perceived_difficulty_1to5 task_satisfaction_1to5)
                TASK_CSV (files w) in
    let ss := delete "task_start_time" ss in
    let ss := delete "task_duration" ss in
    Py.ret ({| session := ss; files := fs |}, [st_success "Task results saved."]).

End TaskPage.

(* ================================================================== *)
(** ** Exit questionnaire (lines 294-336) *)
(* ================================================================== *)

Module ExitPage.

Record form : Type := {
  satisfaction : nat;          (* positions on the five sliders *)
  ease : nat;
  efficiency : nat;
  learnability : nat;
  error_prevention : nat;
  nps : Z;
  likes : string;
  dislikes : string;
  suggestions : string;
}.

Definition likert_label (value : string) (choice : nat) : string :=
  select_slider (Py.keys LIKERT_5) value choice.

(** The "Submit Exit Questionnaire" button. *)
Definition submit (e : env) (f : form) (w : world) : Py.result (world * list message) :=
  let consent_df := load_from_csv CONSENT_CSV (files w) in
  let ss := ensure_participant e (session w) in
  do pid <- ss_getitem ss "participant_id" ;;
  if consent_missing consent_df pid then
    Py.ret ({| session := ss; files := files w |}, [require_consent_warning])
  else
    do satisfaction_1to5 <- Py.getitem LIKERT_5 (likert_label "4 - Agree" (satisfaction f)) ;;
    do ease_of_use_1to5 <- Py.getitem LIKERT_5 (likert_label "4 - Agree" (ease f)) ;;
    do efficiency_1to5 <- Py.getitem LIKERT_5 (likert_label "4 - Agree" (efficiency f)) ;;
    do learnability_1to5 <- Py.getitem LIKERT_5 (likert_label "4 - Agree" (learnability f)) ;;
    do error_prevention_1to5 <-
      Py.getitem LIKERT_5 (likert_label "3 - Neutral" (error_prevention f)) ;;
    let data_dict :=
      [ ("timestamp", Py.VStr (now_iso e));
        ("participant_id", pid);
        ("satisfaction_1to5", Py.VInt satisfaction_1to5);
        ("ease_of_use_1to5", Py.VInt ease_of_use_1to5);
        ("efficiency_1to5", Py.VInt efficiency_1to5);
        ("learnability_1to5", Py.VInt learnability_1to5);
        ("error_prevention_1to5", Py.VInt error_prevention_1to5);
        ("nps_0to10", Py.VInt (nps f));
        ("likes", Py.VStr (likes f));
        ("dislikes", Py.VStr (dislikes f));
        ("suggestions", Py.VStr (suggestions f)) ] in
    Py.ret ({| session := ss; files := save_to_csv data_dict EXIT_CSV (files w) |},
            [st_success "Exit questionnaire data saved."]).

End ExitPage.

(* ================================================================== *)
(** ** One run of the script per user action *)
(* ================================================================== *)

Inductive action : Type :=
| EditParticipantId (text : string)     (* the sidebar's text input *)
| SetObserverMode (on : bool)           (* the sidebar's toggle *)
| SubmitConsent (f : ConsentPage.form)
| SubmitDemographics (f : DemographicsPage.form)
| StartTaskTimer
| StopTaskTimer
| SaveTaskResults (f : TaskPage.form)
| SubmitExit (f : ExitPage.form).

(** A keyed widget writes its new value into the session before the
    script runs. *)
Definition widget_update (a : action) (ss : session_state) : session_state :=
  match a with
  | EditParticipantId text => <["participant_id" := Py.VStr text]> ss
  | SetObserverMode on => <["observer_mode" := Py.VBool on]> ss
  | _ => ss
  end.

(** The world a handler finds: the widget's new value is in the session
    and the sidebar has run. *)
Definition arrive (e : env) (a : action) (w : world) : world :=
  {| session := sidebar e (widget_update a (session w)); files := files w |}.

(** The run the action triggers: the sidebar, then the pressed button. *)
Definition rerun (e : env) (a : action) (w : world) : Py.result (world * list message) :=
  let w := arrive e a w in
  match a with
  | EditParticipantId _ | SetObserverMode _ => Py.ret (w, [])
  | SubmitConsent f => ConsentPage.submit e f w
  | SubmitDemographics f => DemographicsPage.submit e f w
  | StartTaskTimer => TaskPage.start e w
  | StopTaskTimer => TaskPage.stop e w
  | SaveTaskResults f => TaskPage.save e f w
  | SubmitExit f => ExitPage.submit e f w
  end.

(** The world after the run.  A handler that raises has changed nothing
    yet beyond what the sidebar did. *)
Definition step (w : world) (ea : env * action) : world :=
  match rerun (fst ea) (snd ea) w with
  | inl (w', _) => w'
  | inr _ => arrive (fst ea) (snd ea) w
  end.

(** A whole session: the actions in order, each with what its run reads. *)
Definition run (w : world) (trace : list (env * action)) : world :=
  fold_left step trace w.

Definition initial_world : world := {| session := ∅; files := ∅ |}.

(** The line of the consent file a submitted consent form leaves. *)
Definition consent_line (line : list string) : Prop :=
  exists e pid f,
    ConsentPage.consent_given f = true
    /\ line = map Csv.field (Py.values (ConsentPage.data_dict e pid f)).

(** No measured duration in the session: the key is absent, or holds [None]. *)
Definition unmeasured (ss : session_state) : Prop :=
  ss_get ss "task_duration" Py.VNone = Py.VNone.

(** No action of the trace is a press on "Stop Task Timer". *)
Definition no_stop (trace : list (env * action)) : Prop :=
  Forall (fun ea => snd ea <> StopTaskTimer) trace.

(* ================================================================== *)
(** ** Report: task performance (lines 370-400) *)
(* ================================================================== *)

Module Report.

(** [df[name]]. *)
Definition df_getitem (df : DataFrame) (name : string) : Py.result (list Py.value) :=
  Py.getitem df name.

(** A series of floats indexed by task name; [None] is NaN. *)
Abbreviation Series := (list (string * option Q)).

Definition sum (xs : list Q) : Q := foldr Qplus 0%Q xs.

(** The arithmetic mean; of nothing, NaN. *)
Definition mean (xs : list Q) : option Q :=
  match xs with
  | [] => None
  | _ => Some (Qred (sum xs / inject_Z (Z.of_nat (length xs)))%Q)
  end.

(** [Series.mean()], which skips NaN. *)
Definition mean_skipna (xs : list (option Q)) : option Q :=
  mean (omap id xs).

(** The task name in a cell of the [task_name] column.  The script
    writes only the names of [DEFAULT_TASKS] there, so the column is
    text; [groupby] drops a row whose key is missing.  A key column of
    numbers or booleans (a file in which every task name reads as one)
    is not modelled: the aggregates are stated for text columns. *)
Definition text_key (v : Py.value) : option string :=
  match v with
  | Py.VStr s => Some s
  | _ => None
  end.

(** A key column of text: every cell is a string, or missing. *)
Definition text_or_missing (v : Py.value) : bool :=
  match v with
  | Py.VStr _ | Py.VNaN | Py.VNone => true
  | Py.VBool _ | Py.VInt _ | Py.VFloat _ => false
  end.

Definition text_column (names : list Py.value) : Prop :=
  Forall (fun v => text_or_missing v = true) names.

Definition key_is (k : string) (v : Py.value) : bool :=
  match v with
  | Py.VStr s => String.eqb s k
  | _ => false
  end.

(** The group keys of [groupby]: each key once, in sorted order. *)
Definition group_keys (names : list Py.value) : list string :=
  merge_sort String.le (remove_dups (omap text_key names)).

(** [df.groupby(key)[column]]: for every key, the column's values in the
    rows with that key, in row order. *)
Definition groupby {A} (names : list Py.value) (column : list A)
  : list (string * list A) :=
  map (fun k => (k, omap (fun r => if key_is k (fst r) then Some (snd r) else None)
                         (zip names column)))
      (group_keys names).

Definition groupby_mean (names : list Py.value) (column : list (option Q)) : Series :=
  map (fun g => (fst g, mean_skipna (snd g))) (groupby names column).

(** The order of [sort_values(ascending=False)]: larger first, NaN last. *)
Definition descendingb (a b : string * option Q) : bool :=
  match snd a, snd b with
  | _, None => true
  | None, Some _ => false
  | Some x, Some y => Qle_bool y x
  end.

Definition descending (a b : string * option Q) : Prop := descendingb a b.

#[global] Instance descending_dec : RelDecision descending.
Proof. intros a b. unfold descending. apply _. Defined.

Definition sort_values_descending (s : Series) : Series :=
  merge_sort descending s.

(** [s.dropna()]. *)
Definition dropna (s : Series) : list (string * Q) :=
  omap (fun kv => match snd kv with Some x => Some (fst kv, x) | None => None end) s.

Definition success_map : Py.dict Q :=
  [ ("Success", 1%Q); ("Partial", (1 # 2)%Q); ("Fail", 0%Q); ("Abandoned", 0%Q) ].

(** [Series.map(d)]: the dictionary's value at a key it holds, else NaN. *)
Definition series_map (d : Py.dict Q) (v : Py.value) : option Q :=
  match v with
  | Py.VStr s => Py.get d s
  | _ => None
  end.

(** [Series.fillna(x)]. *)
Definition fillna (x : Q) (o : option Q) : option Q :=
  match o with
  | Some y => Some y
  | None => Some x
  end.

(** Lines 378-381: the success rate by task. *)
Definition success_by_task (task_df : DataFrame) : Py.result Series :=
  do success <- df_getitem task_df "success" ;;
  let success_score := map (fun v => fillna 0%Q (series_map success_map v)) success in
  do task_name <- df_getitem task_df "task_name" ;;
  Py.ret (sort_values_descending (groupby_mean task_name success_score)).

Section Duration.

(** The number [pd.to_numeric] reads in a string, if it reads one. *)
Variable str_to_float : string -> option Q.

(** The filter of line 389:
    [isinstance(x, (int, float)) or (isinstance(x, str) and x.strip() != "")]. *)
Definition keep_duration (x : Py.value) : bool :=
  match x with
  | Py.VBool _ | Py.VInt _ | Py.VFloat _ | Py.VNaN => true
  | Py.VStr s => Py.strip_nonempty s
  | Py.VNone => false
  end.

(** [pd.to_numeric(..., errors="coerce")] on one value. *)
Definition to_numeric (x : Py.value) : option Q :=
  match x with
  | Py.VBool b => Some (Py.Q_of_bool b)
  | Py.VInt z => Some (inject_Z z)
  | Py.VFloat q => Some q
  | Py.VStr s => str_to_float s
  | Py.VNaN | Py.VNone => None
  end.

(** Lines 387-392: the average duration by task. *)
Definition average_duration_by_task (task_df : DataFrame)
  : Py.result (list (string * Q)) :=
  do duration_seconds <- df_getitem task_df "duration_seconds" ;;
  do task_name <- df_getitem task_df "task_name" ;;
  let dur := filter (fun r => keep_duration (snd r)) (zip task_name duration_seconds) in
  Py.ret (dropna (groupby_mean (map fst dur) (map (fun r => to_numeric (snd r)) dur))).

(** What the Task section of the report computes: nothing for an empty
    frame; else the success rates, and the average durations when the
    frame has the column. *)
Definition task_report (task_df : DataFrame)
  : Py.result (option (Series * option (list (string * Q)))) :=
  if negb (df_empty task_df) then
    do success <- success_by_task task_df ;;
    if existsb (String.eqb "duration_seconds") (Py.keys task_df) then
      do avg_dur <- average_duration_by_task task_df ;;
      Py.ret (Some (success, Some avg_dur))
    else Py.ret (Some (success, None))
  else Py.ret None.

End Duration.

(** *** The aggregates as the specification words them *)

(** "Success=1.0, Partial=0.5, Fail=0.0, Abandoned=0.0,
    unrecognized/missing outcome=0.0". *)
Definition spec_success_score (outcome : Py.value) : Q :=
  match outcome with
  | Py.VStr s =>
      if String.eqb s "Success" then 1%Q
      else if String.eqb s "Partial" then (1 # 2)%Q
      else if String.eqb s "Fail" then 0%Q
      else if String.eqb s "Abandoned" then 0%Q
      else 0%Q
  | _ => 0%Q
  end.

(** The rows of one task. *)
Definition rows_of_task {A} (task : string) (rows : list (Py.value * A)) : list A :=
  omap (fun r => if key_is task (fst r) then Some (snd r) else None) rows.

(** "per-task mean of a success score": the unweighted mean over all the
    rows of the task; no value when the task has no row. *)
Definition spec_success_rate (rows : list (Py.value * Py.value)) (task : string)
  : option Q :=
  mean (map spec_success_score (rows_of_task task rows)).


(** "Per-task mean duration, computed only over rows whose
    duration_seconds parses to a number": the mean over the numbers
    among the task's durations; no value when there is none. *)
Definition spec_mean_duration (number : Py.value -> option Q)
    (rows : list (Py.value * Py.value)) (task : string) : option Q :=
  mean (omap number (rows_of_task task rows)).

(** *** The two data sets of the specification's examples *)

(** Rows [("T1","Success"), ("T1","Fail"), ("T2","Partial")]. *)
Definition example_outcomes : DataFrame :=
  [ ("task_name", [Py.VStr "T1"; Py.VStr "T1"; Py.VStr "T2"]);
    ("success", [Py.VStr "Success"; Py.VStr "Fail"; Py.VStr "Partial"]) ].





End Report.

(* ================================================================== *)
(** ** Sample sessions *)
(* ================================================================== *)

Module Demo.

(** A run at 2023-11-14 22:13:20 UTC, and one five and a half seconds later. *)
Definition at_start : env :=
  {| time_time := 1700000000;
     now_iso := "2023-11-14 22:13:20";
     uuid4 := 0x1234567890abcdef1234567890abcdef%N |}.

Definition later : env :=
  {| time_time := (3400000011 # 2);
     now_iso := "2023-11-14 22:13:25";
     uuid4 := 0xfedcba0987654321fedcba0987654321%N |}.

Definition consent : ConsentPage.form :=
  {| ConsentPage.consent_given := true; ConsentPage.consent_name := "" |}.

Definition demographics : DemographicsPage.form :=
  {| DemographicsPage.name := "";
     DemographicsPage.age := 25;
     DemographicsPage.gender := 0;
     DemographicsPage.gender_self := "";
     DemographicsPage.occupation := "Student";
     DemographicsPage.education := 3;
     DemographicsPage.country := "";
     DemographicsPage.familiarity := 2 |}.

Definition task : TaskPage.form :=
  {| TaskPage.selected_task := 0;
     TaskPage.success := 0;
     TaskPage.errors := 0;
     TaskPage.perceived_difficulty := 2;
     TaskPage.task_satisfaction := 3;
     TaskPage.notes := "" |}.

Definition exit_answers : ExitPage.form :=
  {| ExitPage.satisfaction := 3;
     ExitPage.ease := 3;
     ExitPage.efficiency := 3;
     ExitPage.learnability := 3;
     ExitPage.error_prevention := 2;
     ExitPage.nps := 7;
     ExitPage.likes := "";
     ExitPage.dislikes := "";
     ExitPage.suggestions := "" |}.

(** A participant consents under the generated id and starts the timer. *)
Definition consented_and_started : world :=
  run initial_world [(at_start, SubmitConsent consent); (at_start, StartTaskTimer)].

(** The same participant after a full start/stop cycle of 5.5 seconds. *)
Definition measured : world :=
  run consented_and_started [(later, StopTaskTimer)].

(** P1 consents; then the id in the sidebar is changed to P2. *)
Definition p1_consented_p2_active : world :=
  run initial_world
    [ (at_start, EditParticipantId "P1");
      (at_start, SubmitConsent consent);
      (later, EditParticipantId "P2") ].

(** The participant types the id 123 and consents. *)
Definition numeric_id_consented : world :=
  run initial_world
    [ (at_start, EditParticipantId "123"); (at_start, SubmitConsent consent) ].

End Demo.

(* ================================================================== *)
(** ** Whole sessions: what is counted and what is kept *)
(* ================================================================== *)

(** The four datasets. *)
Definition datasets : list string :=
  [CONSENT_CSV; DEMOGRAPHIC_CSV; TASK_CSV; EXIT_CSV].

(** A file that has only been appended to: same header, the old lines
    first and in their order. *)
Definition extends (old new : Csv.table) : Prop :=
  Csv.header new = Csv.header old
  /\ exists more, Csv.rows new = Csv.rows old ++ more.

(** The presses on "Submit Consent" with the box checked. *)
Definition consent_given_in (a : action) : bool :=
  match a with
  | SubmitConsent f => ConsentPage.consent_given f
  | _ => false
  end.

Definition consents_given (trace : list (env * action)) : nat :=
  length (filter (fun ea => consent_given_in (snd ea)) trace).

(** The record of lines 322-334, with the five looked-up integers. *)
Definition exit_data_dict (e : env) (pid : Py.value) (f : ExitPage.form)
    (satisfaction ease efficiency learnability error_prevention : Z)
  : Py.dict Py.value :=
  [ ("timestamp", Py.VStr (now_iso e));
    ("participant_id", pid);
    ("satisfaction_1to5", Py.VInt satisfaction);
    ("ease_of_use_1to5", Py.VInt ease);
    ("efficiency_1to5", Py.VInt efficiency);
    ("learnability_1to5", Py.VInt learnability);
    ("error_prevention_1to5", Py.VInt error_prevention);
    ("nps_0to10", Py.VInt (ExitPage.nps f));
    ("likes", Py.VStr (ExitPage.likes f));
    ("dislikes", Py.VStr (ExitPage.dislikes f));
    ("suggestions", Py.VStr (ExitPage.suggestions f)) ].

(** The timer keys hold what the script puts there: a clock reading
    under [task_start_time]; [None] or a duration under [task_duration]. *)
Definition timer_typed (ss : session_state) : Prop :=
  match ss !! "task_start_time" with
  | None | Some (Py.VFloat _) => True
  | Some _ => False
  end
  /\ match ss !! "task_duration" with
     | None | Some Py.VNone | Some (Py.VFloat _) => True
     | Some _ => False
     end.

(** The participant id, when the session has one, is a string. *)
Definition id_typed (ss : session_state) : Prop :=
  match ss !! "participant_id" with
  | None | Some (Py.VStr _) => True
  | Some _ => False
  end.

(** The participant id of a line of any of the four datasets: its
    second field. *)
Definition participant_field (line : list string) : string := nth 1 line "".

(** The ids under which a consent is on file. *)
Definition consented_ids (fs : filesystem) : list string :=
  map participant_field (dataset_rows CONSENT_CSV fs).

(** The datasets behind the consent check. *)
Definition checked_datasets : list string := [DEMOGRAPHIC_CSV; TASK_CSV; EXIT_CSV].

(** The consent file, if there is one, has the header the script gives it. *)
Definition consent_header_made (fs : filesystem) : Prop :=
  match fs !! CONSENT_CSV with
  | None => True
  | Some t =>
      Csv.header t = ["timestamp"; "participant_id"; "consent_given"; "display_name"]
  end.

(** What holds of the files and the session all along a session that
    starts in an empty data folder. *)
Definition integrity (w : world) : Prop :=
  id_typed (session w)
  /\ consent_header_made (files w)
  /\ forall p line,
       In p checked_datasets -> In line (dataset_rows p (files w)) ->
       In (participant_field line) (consented_ids (files w)).

(* ================================================================== *)
(** ** More of pandas: frames and what the report prints *)
(* ================================================================== *)

(** [len(df)]: the number of rows. *)
Definition df_len (df : DataFrame) : nat :=
  match df with
  | [] => 0
  | (_, col) :: _ => length col
  end.




(** Several records saved one after the other. *)
Definition save_all (records : list (Py.dict Py.value)) (csv_file : string)
    (fs : filesystem) : filesystem :=
  fold_left (fun fs d => save_to_csv d csv_file fs) records fs.

(** The line [to_csv] writes for a record. *)
Definition csv_line (d : Py.dict Py.value) : list string :=
  map Csv.field (Py.values d).

(** What a task record holds under [duration_seconds] (line 275) for a
    measurement that is not zero, or for none; and what [read_csv] makes
    of the field. *)
Definition saved_duration (measured : option Q) : Py.value :=
  match measured with
  | Some d => Py.VFloat (Py.round_float d 3)
  | None => Py.VStr ""
  end.

Definition loaded_duration (measured : option Q) : Py.value :=
  match measured with
  | Some d => Py.VFloat (Py.round_float d 3)
  | None => Py.VNaN
  end.

(* ================================================================== *)
(** ** Report: consent, demographics, exit (lines 344-368, 402-418) *)
(* ================================================================== *)

Module Sections.

(** What a section puts on the page: [st.metric(label, f"{value:.Nf}")]
    with the number that is formatted and the number of decimals [N];
    [st.metric] or [st.write] of a count; [st.info(text)]. *)
Inductive shown : Type :=
| metric (label : string) (value : option Q) (decimals : nat)
| count (label : string) (n : nat)
| info (text : string).

(** The number in a cell, for [Series.mean()]: NaN is skipped, text is
    no number. *)
Definition number (v : Py.value) : Py.result (option Q) :=
  match v with
  | Py.VBool b => Py.ret (Some (Py.Q_of_bool b))
  | Py.VInt z => Py.ret (Some (inject_Z z))
  | Py.VFloat q => Py.ret (Some q)
  | Py.VNaN | Py.VNone => Py.ret None
  | Py.VStr _ => Py.raise Py.TypeError
  end.

Fixpoint numbers (column : list Py.value) : Py.result (list (option Q)) :=
  match column with
  | [] => Py.ret []
  | v :: column' =>
      do x <- number v ;;
      do xs <- numbers column' ;;
      Py.ret (x :: xs)
  end.

(** [df[name].mean()]: the mean of the numbers of the column (NaN when
    there is none); a column of text raises. *)
Definition column_mean (df : DataFrame) (name : string) : Py.result (option Q) :=
  do column <- Report.df_getitem df name ;;
  do xs <- numbers column ;;
  Py.ret (Report.mean_skipna xs).

(** [name in df.columns]. *)
Definition has_column (df : DataFrame) (name : string) : bool :=
  existsb (String.eqb name) (Py.keys df).

(** Lines 346-351. *)
Definition consent_section (consent_df : DataFrame) : list shown :=
  if negb (df_empty consent_df) then [count "Total Consents" (df_len consent_df)]
  else [info "No consent data available yet."].

(** Lines 355-368. *)
Definition demographic_section (demo_df : DataFrame) : Py.result (list shown) :=
  if negb (df_empty demo_df) then
    do col1 <-
      (if has_column demo_df "age" then
         do m <- column_mean demo_df "age" ;; Py.ret [metric "Average Age" m 1]
       else Py.ret []) ;;
    do col2 <-
      (if has_column demo_df "familiarity_1to5" then
         do m <- column_mean demo_df "familiarity_1to5" ;;
         Py.ret [metric "Avg Familiarity (1-5)" m 2]
       else Py.ret []) ;;
    Py.ret (col1 ++ col2 ++ [count "Responses" (df_len demo_df)])
  else Py.ret [info "No demographic data available yet."].

Definition is_lower (c : ascii) : bool :=
  let n := nat_of_ascii c in ((97 <=? n) && (n <=? 122))%nat.

Definition is_upper (c : ascii) : bool :=
  let n := nat_of_ascii c in ((65 <=? n) && (n <=? 90))%nat.

Definition to_upper (c : ascii) : ascii :=
  if is_lower c then ascii_of_nat (nat_of_ascii c - 32) else c.

Definition to_lower (c : ascii) : ascii :=
  if is_upper c then ascii_of_nat (nat_of_ascii c + 32) else c.

(** [s.replace("_", " ")]. *)
Fixpoint underscores_to_spaces (s : string) : string :=
  match s with
  | EmptyString => EmptyString
  | String c s' =>
      String (if Ascii.eqb c "_" then " "%char else c) (underscores_to_spaces s')
  end.

(** [s.title()]: a letter after a letter is made small, any other
    letter is made a capital. *)
Fixpoint title_from (after_letter : bool) (s : string) : string :=
  match s with
  | EmptyString => EmptyString
  | String c s' =>
      if is_lower c || is_upper c then
        String (if after_letter then to_lower c else to_upper c) (title_from true s')
      else String c (title_from false s')
  end.

Definition title (s : string) : string := title_from false s.

Definition metrics_cols : list string :=
  [ "satisfaction_1to5"; "ease_of_use_1to5"; "efficiency_1to5";
    "learnability_1to5"; "error_prevention_1to5" ].

(** The loop of lines 413-414 over the metrics that are present; there
    are at most five, so [cols_map[idx]] is always found. *)
Fixpoint metric_means (exit_df : DataFrame) (present : list string)
  : Py.result (list shown) :=
  match present with
  | [] => Py.ret []
  | c :: present' =>
      do m <- column_mean exit_df c ;;
      do rest <- metric_means exit_df present' ;;
      Py.ret (metric (title (underscores_to_spaces c)) m 2 :: rest)
  end.

(** Lines 404-418. *)
Definition exit_section (exit_df : DataFrame) : Py.result (list shown) :=
  if negb (df_empty exit_df) then
    let present := List.filter (has_column exit_df) metrics_cols in
    do means <- metric_means exit_df present ;;
    do nps <-
      (if has_column exit_df "nps_0to10" then
         do m <- column_mean exit_df "nps_0to10" ;; Py.ret [metric "Average NPS" m 1]
       else Py.ret []) ;;
    Py.ret (means ++ nps)
  else Py.ret [info "No exit questionnaire data available yet."].

End Sections.

(* ================================================================== *)
(** ** What the datasets are made of *)
(* ================================================================== *)

(** What a saved demographics form puts into its record (lines 195-205). *)
Record demographic_entry : Type := {
  demographic_env : env;
  demographic_pid : Py.value;
  demographic_form : DemographicsPage.form;
  demographic_familiarity : Z;
}.

Definition demographic_record (x : demographic_entry) : Py.dict Py.value :=
  DemographicsPage.data_dict (demographic_env x) (demographic_pid x)
    (demographic_form x) (demographic_familiarity x).

Definition demographic_ok (x : demographic_entry) : Prop :=
  (1 <= demographic_familiarity x <= 5)%Z.

(** What saved task results put into their record (lines 269-281), with
    the measurement the duration was made from, if there was one. *)
Record task_entry : Type := {
  task_env : env;
  task_pid : Py.value;
  task_form : TaskPage.form;
  task_measured : option Q;
  task_difficulty : Z;
  task_satisfaction : Z;
}.

Definition task_record (x : task_entry) : Py.dict Py.value :=
  TaskPage.data_dict (task_env x) (task_pid x) (task_form x)
    (saved_duration (task_measured x)) (task_difficulty x) (task_satisfaction x).

Definition task_ok (x : task_entry) : Prop :=
  (1 <= task_difficulty x <= 5)%Z /\ (1 <= task_satisfaction x <= 5)%Z.

(** The measurement a task record takes from the session (lines 269 and
    275): the number under [task_duration], unless there is none or it
    is zero. *)
Definition measured_in (ss : session_state) : option Q :=
  match ss !! "task_duration" with
  | Some (Py.VFloat d) => if Qeq_bool d 0 then None else Some d
  | _ => None
  end.

(** What a saved exit questionnaire puts into its record (lines 322-334). *)
Record exit_entry : Type := {
  exit_env : env;
  exit_pid : Py.value;
  exit_form : ExitPage.form;
  exit_likert : Z * Z * Z * Z * Z;
}.

Definition exit_record (x : exit_entry) : Py.dict Py.value :=
  let '(n1, n2, n3, n4, n5) := exit_likert x in
  exit_data_dict (exit_env x) (exit_pid x) (exit_form x) n1 n2 n3 n4 n5.

Definition exit_ok (x : exit_entry) : Prop :=
  let '(n1, n2, n3, n4, n5) := exit_likert x in
  Forall (fun n => (1 <= n <= 5)%Z) [n1; n2; n3; n4; n5].

(** The dataset at [csv_file] is what saving the records of [entries],
    one after the other, into an empty folder leaves there. *)
Definition dataset_of {X} (record : X -> Py.dict Py.value) (ok : X -> Prop)
    (csv_file : string) (fs : filesystem) : Prop :=
  exists entries : list X,
    Forall ok entries
    /\ fs !! csv_file = save_all (map record entries) csv_file ∅ !! csv_file.

(** The numbers the report averages. *)
Definition ages (entries : list demographic_entry) : list Q :=
  map (fun x => inject_Z (DemographicsPage.age (demographic_form x))) entries.

Definition familiarities (entries : list demographic_entry) : list Q :=
  map (fun x => inject_Z (demographic_familiarity x)) entries.

(** The task and the outcome of an entry, as the select boxes give them. *)
Definition task_of (x : task_entry) : string :=
  selectbox task_names (TaskPage.selected_task (task_form x)).

Definition outcome_of (x : task_entry) : string :=
  selectbox TASK_SUCCESS_OPTIONS (TaskPage.success (task_form x)).

(** The entries of one task. *)
Definition entries_of_task (task : string) (entries : list task_entry)
  : list task_entry :=
  List.filter (fun x => String.eqb (task_of x) task) entries.

(** The rounded measurements among entries. *)
Definition measurements (entries : list task_entry) : list Q :=
  omap (fun x => match task_measured x with
                 | Some d => Some (Py.round_float d 3)
                 | None => None
                 end) entries.

(** The scores of the outcomes of entries. *)
Definition scores (entries : list task_entry) : list Q :=
  map (fun x => Report.spec_success_score (Py.VStr (outcome_of x))) entries.

(** The three datasets behind the consent check hold records of their
    pages, and nothing else. *)
Definition records_kept (w : world) : Prop :=
  timer_typed (session w)
  /\ dataset_of demographic_record demographic_ok DEMOGRAPHIC_CSV (files w)
  /\ dataset_of task_record task_ok TASK_CSV (files w)
  /\ dataset_of exit_record exit_ok EXIT_CSV (files w).

(** The five Likert answers of an exit record, in the order of
    [metrics_cols], and the numbers the exit section averages. *)
Definition likert_answers (x : exit_entry) : list Z :=
  let '(n1, n2, n3, n4, n5) := exit_likert x in [n1; n2; n3; n4; n5].

Definition answers (question : nat) (entries : list exit_entry) : list Q :=
  map (fun x => inject_Z (nth question (likert_answers x) 0%Z)) entries.

Definition nps_scores (entries : list exit_entry) : list Q :=
  map (fun x => inject_Z (ExitPage.nps (exit_form x))) entries.

(* ================================================================== *)
(** ** Sample records *)
(* ================================================================== *)

Module Sample.

(** Two demographic records: aged 25 with familiarity 3, aged 40 with 5. *)
Definition younger : demographic_entry :=
  {| demographic_env := Demo.at_start;
     demographic_pid := Py.VStr "P-12345678";
     demographic_form := Demo.demographics;
     demographic_familiarity := 3 |}.

Definition older : demographic_entry :=
  {| demographic_env := Demo.later;
     demographic_pid := Py.VStr "P-fedcba09";
     demographic_form :=
       {| DemographicsPage.name := "";
          DemographicsPage.age := 40;
          DemographicsPage.gender := 1;
          DemographicsPage.gender_self := "";
          DemographicsPage.occupation := "Designer";
          DemographicsPage.education := 4;
          DemographicsPage.country := "";
          DemographicsPage.familiarity := 4 |};
     demographic_familiarity := 5 |}.

(** Three task records: task 1 done in 5.5 seconds; task 1 again,
    partly done and not timed; task 2 failed and not timed. *)
Definition timed : task_entry :=
  {| task_env := Demo.later;
     task_pid := Py.VStr "P-12345678";
     task_form := Demo.task;
     task_measured := Some (11 # 2)%Q;
     task_difficulty := 3;
     task_satisfaction := 4 |}.

Definition untimed : task_entry :=
  {| task_env := Demo.later;
     task_pid := Py.VStr "P-12345678";
     task_form :=
       {| TaskPage.selected_task := 0;
          TaskPage.success := 1;
          TaskPage.errors := 2;
          TaskPage.perceived_difficulty := 3;
          TaskPage.task_satisfaction := 1;
          TaskPage.notes := "" |};
     task_measured := None;
     task_difficulty := 4;
     task_satisfaction := 2 |}.

Definition failed : task_entry :=
  {| task_env := Demo.later;
     task_pid := Py.VStr "P-fedcba09";
     task_form :=
       {| TaskPage.selected_task := 1;
          TaskPage.success := 2;
          TaskPage.errors := 5;
          TaskPage.perceived_difficulty := 4;
          TaskPage.task_satisfaction := 0;
          TaskPage.notes := "" |};
     task_measured := None;
     task_difficulty := 5;
     task_satisfaction := 1 |}.

(** Two exit records. *)
Definition pleased : exit_entry :=
  {| exit_env := Demo.later;
     exit_pid := Py.VStr "P-12345678";
     exit_form := Demo.exit_answers;
     exit_likert := (4, 4, 4, 4, 3)%Z |}.

Definition displeased : exit_entry :=
  {| exit_env := Demo.later;
     exit_pid := Py.VStr "P-fedcba09";
     exit_form :=
       {| ExitPage.satisfaction := 1;
          ExitPage.ease := 0;
          ExitPage.efficiency := 1;
          ExitPage.learnability := 2;
          ExitPage.error_prevention := 0;
          ExitPage.nps := 2;
          ExitPage.likes := "";
          ExitPage.dislikes := "";
          ExitPage.suggestions := "" |};
     exit_likert := (2, 1, 2, 3, 1)%Z |}.

(** A consent and a demographic form under the generated id. *)
Definition consent_then_demographics : list (env * action) :=
  [ (Demo.at_start, SubmitConsent Demo.consent);
    (Demo.later, SubmitDemographics Demo.demographics) ].

End Sample.
(* ================================================================== *)
(** * Properties *)
(* ================================================================== *)

(** ** Strings *)

Lemma length_append (s t : string) :
  String.length (s +:+ t) = String.length s + String.length t.
Proof. induction s as [|c s IH]; simpl; [reflexivity | now rewrite IH]. Qed.

Lemma length_substring_0 (n : nat) (s : string) :
  n <= String.length s -> String.length (String.substring 0 n s) = n.
Proof.
  revert s. induction n as [|n IH]; intros s Hn.
  - now destruct s.
  - destruct s as [|c s]; simpl in *; [lia|]. rewrite IH; lia.
Qed.

Lemma substring_0_append (s t : string) :
  String.substring 0 (String.length s) (s +:+ t) = s.
Proof.
  induction s as [|c s IH]; simpl.
  - now destruct t.
  - now rewrite IH.
Qed.

Lemma all_hex_append (s t : string) :
  Uuid.all_hex (s +:+ t) = Uuid.all_hex s && Uuid.all_hex t.
Proof.
  induction s as [|c s IH]; simpl; [reflexivity|].
  now rewrite IH, andb_assoc.
Qed.

Lemma all_hex_substring_0 (n : nat) (s : string) :
  Uuid.all_hex s = true -> Uuid.all_hex (String.substring 0 n s) = true.
Proof.
  revert s. induction n as [|n IH]; intros s Hs.
  - now destruct s.
  - destruct s as [|c s]; simpl in *; [reflexivity|].
    apply andb_true_iff in Hs as [Hc Hs]. now rewrite Hc, IH.
Qed.

Lemma is_hex_hex_digit (n : N) : (n < 16)%N -> Uuid.is_hex (Uuid.hex_digit n) = true.
Proof.
  intros Hn.
  assert (Hcases : In n [0; 1; 2; 3; 4; 5; 6; 7; 8; 9; 10; 11; 12; 13; 14; 15]%N).
  { simpl. lia. }
  simpl in Hcases.
  repeat (destruct Hcases as [<- | Hcases]; [reflexivity|]). contradiction.
Qed.

Lemma length_hex_fixed (w : nat) (n : N) : String.length (Uuid.hex_fixed w n) = w.
Proof.
  revert n. induction w as [|w IH]; intros n; simpl; [reflexivity|].
  rewrite length_append, IH. simpl. lia.
Qed.

Lemma all_hex_hex_fixed (w : nat) (n : N) : Uuid.all_hex (Uuid.hex_fixed w n) = true.
Proof.
  revert n. induction w as [|w IH]; intros n; simpl; [reflexivity|].
  rewrite all_hex_append, IH. simpl.
  rewrite is_hex_hex_digit; [reflexivity|]. apply N.mod_lt. discriminate.
Qed.

(** The token [str(uuid.uuid4())[:8]]: the first eight hexadecimal digits. *)
Lemma uuid_token (u : N) :
  String.substring 0 8 (Uuid.str u) = String.substring 0 8 (Uuid.hex_fixed 32 u).
Proof.
  unfold Uuid.str.
  set (h := Uuid.hex_fixed 32 u).
  assert (Hlen : String.length (String.substring 0 8 h) = 8).
  { apply length_substring_0. unfold h. rewrite length_hex_fixed. lia. }
  rewrite <- Hlen at 1. apply substring_0_append.
Qed.

Lemma uuid_token_shape (u : N) :
  String.length (String.substring 0 8 (Uuid.str u)) = 8
  /\ Uuid.all_hex (String.substring 0 8 (Uuid.str u)) = true.
Proof.
  rewrite uuid_token. split.
  - apply length_substring_0. rewrite length_hex_fixed. lia.
  - apply all_hex_substring_0, all_hex_hex_fixed.
Qed.

(** ** Session state *)

Lemma truthy_generated_id (tok : string) : Py.truthy (Py.VStr ("P-" +:+ tok)) = true.
Proof. reflexivity. Qed.

Lemma ensure_participant_set (e : env) (ss : session_state) :
  participant_set ss = true -> ensure_participant e ss = ss.
Proof.
  unfold participant_set, ensure_participant.
  destruct (ss !! "participant_id") as [v|]; [|discriminate].
  intros ->. reflexivity.
Qed.

Lemma ensure_participant_unset (e : env) (ss : session_state) :
  participant_set ss = false ->
  ensure_participant e ss =
    <["participant_id" := Py.VStr ("P-" +:+ String.substring 0 8 (Uuid.str (uuid4 e)))]> ss.
Proof.
  unfold participant_set, ensure_participant.
  destruct (ss !! "participant_id") as [v|]; [|reflexivity].
  intros ->. reflexivity.
Qed.

Lemma participant_set_ensure (e : env) (ss : session_state) :
  participant_set (ensure_participant e ss) = true.
Proof.
  destruct (participant_set ss) eqn:Hset.
  - now rewrite ensure_participant_set.
  - rewrite ensure_participant_unset by assumption.
    unfold participant_set. now rewrite lookup_insert_eq.
Qed.

(** After [ensure_participant()] the session holds an id, so
    [st.session_state["participant_id"]] does not raise. *)
Lemma ensure_participant_getitem (e : env) (ss : session_state) :
  exists pid, ensure_participant e ss !! "participant_id" = Some pid
              /\ Py.truthy pid = true
              /\ ss_getitem (ensure_participant e ss) "participant_id" = inl pid.
Proof.
  pose proof (participant_set_ensure e ss) as H.
  unfold participant_set, ss_getitem in *.
  destruct (ensure_participant e ss !! "participant_id") as [v|]; [|discriminate].
  exists v. auto.
Qed.

(** C6. [ensure_participant()] is idempotent.  A session without an id
    (no value under the key, or a false one such as the empty string)
    gets ["P-"] followed by a token of eight characters, hexadecimal
    digits all; a session with an id is returned as it is; and a second
    call, whatever UUID it would draw, changes nothing. *)
Theorem ensure_participant_idempotent (e e' : env) (ss : session_state) :
  (if participant_set ss
   then ensure_participant e ss = ss
   else exists token,
       String.length token = 8
       /\ Uuid.all_hex token = true
       /\ ensure_participant e ss = <["participant_id" := Py.VStr ("P-" +:+ token)]> ss)
  /\ ensure_participant e' (ensure_participant e ss) = ensure_participant e ss
  /\ ensure_participant e' (ensure_participant e ss) !! "participant_id"
     = ensure_participant e ss !! "participant_id".
Proof.
  split; [|split].
  - destruct (participant_set ss) eqn:Hset.
    + now apply ensure_participant_set.
    + exists (String.substring 0 8 (Uuid.str (uuid4 e))).
      destruct (uuid_token_shape (uuid4 e)) as [Hlen Hhex].
      repeat split; try assumption.
      now apply ensure_participant_unset.
  - apply ensure_participant_set, participant_set_ensure.
  - f_equal. apply ensure_participant_set, participant_set_ensure.
Qed.

(** ** Likert scales *)

Lemma get_Some_In {V} (d : Py.dict V) (k : string) (v : V) :
  Py.get d k = Some v -> In (k, v) d.
Proof.
  induction d as [|[k' v'] d IH]; simpl; [discriminate|].
  destruct (String.eqb_spec k' k) as [->|Hne].
  - intros [= ->]. now left.
  - intros H. right. auto.
Qed.

(** The five cases of a membership in a list of five. *)
Ltac five_cases H :=
  simpl in H; destruct H as [H|[H|[H|[H|[H|[]]]]]].

Ltac likert_bijection_by_cases :=
  split; [reflexivity|];
  split; [apply (bool_decide_unpack _); vm_compute; exact I|];
  split; [|split];
  [ intros label Hin; five_cases Hin; subst label;
    eexists; (split; [reflexivity|]); (split; [reflexivity|lia])
  | intros l1 l2 H1 H2; five_cases H1; five_cases H2; subst l1 l2;
    first [reflexivity | vm_compute; discriminate]
  | intros n Hn;
    assert (Hcases : In n [1; 2; 3; 4; 5]%Z) by (simpl; lia);
    five_cases Hcases; subst n;
    match goal with
    | |- exists label, In label (Py.keys ?d) /\ Py.get ?d label = Some ?n /\ _ =>
        exists (nth (Z.to_nat (n - 1)) (Py.keys d) "")
    end;
    (split;
     [ simpl; auto 6
     | split;
       [ reflexivity
       | intros label' Hget; apply get_Some_In in Hget;
         five_cases Hget; inversion Hget; reflexivity ] ]) ].

Lemma likert_bijection_intro (d : Py.dict Z) :
  (d = LIKERT_5 \/ d = LIKERT_5_SIMPLE) -> likert_bijection d.
Proof. intros [-> | ->]; likert_bijection_by_cases. Qed.

(** C7. Each of the two Likert mappings is total over its five labels,
    sends a label to the integer it starts with, is one-to-one, and
    reaches every integer of 1..5 from exactly one label. *)
Theorem likert_mappings_bijective :
  likert_bijection LIKERT_5 /\ likert_bijection LIKERT_5_SIMPLE.
Proof. split; apply likert_bijection_intro; auto. Qed.

(** ** The task timer *)

Lemma start_result (e : env) (w : world) :
  TaskPage.start e w =
    inl ({| session := <["task_duration" := Py.VNone]>
                         (<["task_start_time" := Py.VFloat (time_time e)]> (session w));
            files := files w |},
         [st_success "Timer started."]).
Proof. reflexivity. Qed.

Lemma truthy_float (q : Q) : ~ (q == 0)%Q -> Py.truthy (Py.VFloat q) = true.
Proof.
  intros Hq. simpl. destruct (Qeq_bool q 0) eqn:Heq; [|reflexivity].
  now apply Qeq_bool_eq in Heq.
Qed.

Lemma stop_not_started (e : env) (w : world) :
  session w !! "task_start_time" = None ->
  TaskPage.stop e w = inl (w, [st_warning "Timer was not started."]).
Proof. unfold TaskPage.stop. now intros ->. Qed.

Lemma stop_started (e : env) (w : world) (t0 : Q) :
  session w !! "task_start_time" = Some (Py.VFloat t0) ->
  ~ (t0 == 0)%Q ->
  TaskPage.stop e w =
    inl ({| session := <["task_duration" := Py.VFloat (time_time e - t0)]> (session w);
            files := files w |},
         [st_success_timer_stopped (Py.VFloat (time_time e - t0))]).
Proof.
  intros Hstart Ht0. unfold TaskPage.stop.
  rewrite Hstart, truthy_float by assumption. reflexivity.
Qed.

(** C8. Stop without a start is a no-op with a warning: the world comes
    back as it was, no duration computed or stored.  After a start at
    clock reading [t0] (a Unix time, hence not zero), stop stores
    [now - t0] as the measured duration and touches nothing else. *)
Theorem stop_timer (e : env) (w : world) :
  (session w !! "task_start_time" = None ->
   TaskPage.stop e w = inl (w, [st_warning "Timer was not started."]))
  /\ (forall (e0 : env) (w0 w1 : world) (shown : list message),
        TaskPage.start e0 w0 = inl (w1, shown) ->
        ~ (time_time e0 == 0)%Q ->
        TaskPage.stop e w1 =
          inl ({| session :=
                    <["task_duration" := Py.VFloat (time_time e - time_time e0)]> (session w1);
                  files := files w0 |},
               [st_success_timer_stopped (Py.VFloat (time_time e - time_time e0))])).
Proof.
  split.
  - apply stop_not_started.
  - intros e0 w0 w1 shown Hstart Hclock.
    rewrite start_result in Hstart. injection Hstart as <- _.
    rewrite (stop_started e _ (time_time e0)); [reflexivity| |assumption].
    simpl. rewrite lookup_insert_ne by discriminate. apply lookup_insert_eq.
Qed.

(** ** The duration a task record gets *)

Lemma duration_seconds_unmeasured :
  TaskPage.duration_seconds Py.VNone = inl (Py.VStr "").
Proof. reflexivity. Qed.

Lemma duration_seconds_measured (d : Q) :
  ~ (d == 0)%Q ->
  TaskPage.duration_seconds (Py.VFloat d) = inl (Py.VFloat (Py.round_float d 3)).
Proof.
  intros Hd. unfold TaskPage.duration_seconds.
  now rewrite truthy_float by assumption.
Qed.

(** The marker and a stored zero are different fields of the file. *)
Lemma unknown_marker_is_not_zero :
  Csv.field (Py.VStr "") = "" /\ Csv.field (Py.VFloat 0) = "0.0".
Proof. split; reflexivity. Qed.

(** ** What each submission does *)

(** A slider only holds one of its labels, so the lookup of its label in
    the scale does not raise. *)
Ltac slider_positions choice :=
  do 5 (destruct choice as [|choice];
        [eexists; split; [reflexivity|lia]|]);
  destruct choice; eexists; (split; [reflexivity|lia]).

Lemma slider_fair (choice : nat) :
  exists n, Py.getitem LIKERT_5_SIMPLE
              (select_slider (Py.keys LIKERT_5_SIMPLE) "3 - Fair" choice) = inl n
            /\ (1 <= n <= 5)%Z.
Proof. slider_positions choice. Qed.

Lemma slider_good (choice : nat) :
  exists n, Py.getitem LIKERT_5_SIMPLE
              (select_slider (Py.keys LIKERT_5_SIMPLE) "4 - Good" choice) = inl n
            /\ (1 <= n <= 5)%Z.
Proof. slider_positions choice. Qed.

Lemma slider_agree (choice : nat) :
  exists n, Py.getitem LIKERT_5 (ExitPage.likert_label "4 - Agree" choice) = inl n
            /\ (1 <= n <= 5)%Z.
Proof. slider_positions choice. Qed.

Lemma slider_neutral (choice : nat) :
  exists n, Py.getitem LIKERT_5 (ExitPage.likert_label "3 - Neutral" choice) = inl n
            /\ (1 <= n <= 5)%Z.
Proof. slider_positions choice. Qed.

Lemma consent_submit_spec (e : env) (f : ConsentPage.form) (w : world) :
  exists pid,
    ensure_participant e (session w) !! "participant_id" = Some pid
    /\ ConsentPage.submit e f w =
       if ConsentPage.consent_given f then
         inl ({| session := ensure_participant e (session w);
                 files := save_to_csv (ConsentPage.data_dict e pid f) CONSENT_CSV (files w) |},
              [st_success "Consent recorded. You may proceed to the Demographics tab."])
       else
         inl (w, [st_warning "You must agree to the consent terms before proceeding."]).
Proof.
  destruct (ensure_participant_getitem e (session w)) as (pid & Hpid & _ & Hget).
  exists pid. split; [assumption|].
  unfold ConsentPage.submit. destruct (ConsentPage.consent_given f); [|reflexivity].
  cbv zeta. cbn [negb]. now rewrite Hget.
Qed.

Lemma demographics_submit_spec (e : env) (f : DemographicsPage.form) (w : world) :
  exists pid familiarity,
    ensure_participant e (session w) !! "participant_id" = Some pid
    /\ DemographicsPage.submit e f w =
       if consent_missing (load_from_csv CONSENT_CSV (files w)) pid then
         inl ({| session := ensure_participant e (session w); files := files w |},
              [require_consent_warning])
       else
         inl ({| session := ensure_participant e (session w);
                 files := save_to_csv (DemographicsPage.data_dict e pid f familiarity)
                            DEMOGRAPHIC_CSV (files w) |},
              [st_success "Demographic data saved."]).
Proof.
  destruct (ensure_participant_getitem e (session w)) as (pid & Hpid & _ & Hget).
  destruct (slider_fair (DemographicsPage.familiarity f)) as (n & Hn & _).
  exists pid, n. split; [assumption|].
  unfold DemographicsPage.submit. cbv zeta.
  rewrite Hn. cbn [Py.bind]. rewrite Hget. reflexivity.
Qed.

Lemma task_save_spec (e : env) (f : TaskPage.form) (w : world) :
  exists pid difficulty satisfaction,
    ensure_participant e (session w) !! "participant_id" = Some pid
    /\ TaskPage.save e f w =
       if consent_missing (load_from_csv CONSENT_CSV (files w)) pid then
         inl ({| session := ensure_participant e (session w); files := files w |},
              [require_consent_warning])
       else
         match TaskPage.duration_seconds
                 (ss_get (ensure_participant e (session w)) "task_duration" Py.VNone) with
         | inl duration =>
             inl ({| session := delete "task_duration"
                                  (delete "task_start_time" (ensure_participant e (session w)));
                     files := save_to_csv
                                (TaskPage.data_dict e pid f duration difficulty satisfaction)
                                TASK_CSV (files w) |},
                  [st_success "Task results saved."])
         | inr raised => inr raised
         end.
Proof.
  destruct (ensure_participant_getitem e (session w)) as (pid & Hpid & _ & Hget).
  destruct (slider_fair (TaskPage.perceived_difficulty f)) as (d & Hd & _).
  destruct (slider_good (TaskPage.task_satisfaction f)) as (s & Hs & _).
  exists pid, d, s. split; [assumption|].
  unfold TaskPage.save. cbv zeta.
  rewrite Hd. cbn [Py.bind]. rewrite Hs. cbn [Py.bind]. rewrite Hget. cbn [Py.bind].
  destruct (consent_missing _ _); [reflexivity|].
  destruct (TaskPage.duration_seconds _); reflexivity.
Qed.

Lemma exit_submit_spec (e : env) (f : ExitPage.form) (w : world) :
  exists pid data_dict,
    ensure_participant e (session w) !! "participant_id" = Some pid
    /\ ExitPage.submit e f w =
       if consent_missing (load_from_csv CONSENT_CSV (files w)) pid then
         inl ({| session := ensure_participant e (session w); files := files w |},
              [require_consent_warning])
       else
         inl ({| session := ensure_participant e (session w);
                 files := save_to_csv data_dict EXIT_CSV (files w) |},
              [st_success "Exit questionnaire data saved."]).
Proof.
  destruct (ensure_participant_getitem e (session w)) as (pid & Hpid & _ & Hget).
  destruct (slider_agree (ExitPage.satisfaction f)) as (n1 & H1 & _).
  destruct (slider_agree (ExitPage.ease f)) as (n2 & H2 & _).
  destruct (slider_agree (ExitPage.efficiency f)) as (n3 & H3 & _).
  destruct (slider_agree (ExitPage.learnability f)) as (n4 & H4 & _).
  destruct (slider_neutral (ExitPage.error_prevention f)) as (n5 & H5 & _).
  eexists pid, _. split; [assumption|].
  unfold ExitPage.submit. cbv zeta. rewrite Hget. cbn [Py.bind].
  destruct (consent_missing _ _); [reflexivity|].
  rewrite H1. cbn [Py.bind]. rewrite H2. cbn [Py.bind]. rewrite H3. cbn [Py.bind].
  rewrite H4. cbn [Py.bind]. rewrite H5. cbn [Py.bind]. reflexivity.
Qed.

(** ** The consent check *)

Lemma in_set_false (x : Py.value) (xs : list Py.value) :
  (forall v, In v xs -> Py.eqb x v = false) -> Py.in_set x xs = false.
Proof.
  intros Hall. unfold Py.in_set.
  induction xs as [|v xs IH]; simpl; [reflexivity|].
  rewrite (Hall v) by now left. apply IH. intros v' Hv'. apply Hall. now right.
Qed.

Lemma in_set_true (x : Py.value) (xs : list Py.value) :
  Py.in_set x xs = true <-> exists v, In v xs /\ Py.eqb x v = true.
Proof. unfold Py.in_set. apply existsb_exists. Qed.

Lemma consent_missing_no_row (consent_df : DataFrame) (pid : Py.value) :
  (forall v, In v (df_get consent_df "participant_id" []) -> Py.eqb pid v = false) ->
  consent_missing consent_df pid = true.
Proof.
  intros Hall. unfold consent_missing.
  rewrite in_set_false by assumption. apply orb_true_r.
Qed.

(** C1. While the consent dataset holds no row whose participant_id
    equals the session's participant id, a demographic, a task and an
    exit submission are each rejected: the one thing shown is the
    consent warning, and the files (all four datasets) are what they
    were, so no record is appended and no row count moves. *)
Theorem submission_without_consent_rejected (e : env) (w : world) (pid : Py.value) :
  ensure_participant e (session w) !! "participant_id" = Some pid ->
  (forall v, In v (df_get (load_from_csv CONSENT_CSV (files w)) "participant_id" []) ->
             Py.eqb pid v = false) ->
  forall rejected,
    rejected = {| session := ensure_participant e (session w); files := files w |} ->
    (forall f, DemographicsPage.submit e f w = inl (rejected, [require_consent_warning]))
    /\ (forall f, TaskPage.save e f w = inl (rejected, [require_consent_warning]))
    /\ (forall f, ExitPage.submit e f w = inl (rejected, [require_consent_warning]))
    /\ (forall csv_file, row_count csv_file (files rejected) = row_count csv_file (files w)).
Proof.
  intros Hpid Hnone rejected ->.
  pose proof (consent_missing_no_row _ _ Hnone) as Hmissing.
  repeat split.
  - intros f. destruct (demographics_submit_spec e f w) as (pid' & n & Hpid' & ->).
    rewrite Hpid in Hpid'. injection Hpid' as <-. now rewrite Hmissing.
  - intros f. destruct (task_save_spec e f w) as (pid' & d & s & Hpid' & ->).
    rewrite Hpid in Hpid'. injection Hpid' as <-. now rewrite Hmissing.
  - intros f. destruct (exit_submit_spec e f w) as (pid' & dd & Hpid' & ->).
    rewrite Hpid in Hpid'. injection Hpid' as <-. now rewrite Hmissing.
Qed.

(** The validator's contract on the loaded frame: true exactly when the
    frame is not empty and some row's participant_id equals the id. *)
Lemma has_consented_iff (pid : Py.value) (fs : filesystem) :
  has_consented pid fs = true <->
  df_empty (load_from_csv CONSENT_CSV fs) = false
  /\ exists v, In v (df_get (load_from_csv CONSENT_CSV fs) "participant_id" [])
               /\ Py.eqb pid v = true.
Proof.
  unfold has_consented, consent_missing.
  rewrite negb_true_iff, orb_false_iff, negb_false_iff, in_set_true. reflexivity.
Qed.

(** ** Files: what a run appends *)

Lemma save_to_csv_lookup_ne (d : Py.dict Py.value) (p q : string) (fs : filesystem) :
  p <> q -> save_to_csv d p fs !! q = fs !! q.
Proof.
  intros Hne. unfold save_to_csv.
  destruct (fs !! p); now rewrite lookup_insert_ne.
Qed.

Lemma dataset_rows_save_ne (d : Py.dict Py.value) (p q : string) (fs : filesystem) :
  p <> q -> dataset_rows q (save_to_csv d p fs) = dataset_rows q fs.
Proof. intros Hne. unfold dataset_rows. now rewrite save_to_csv_lookup_ne. Qed.

Lemma dataset_rows_save (d : Py.dict Py.value) (p : string) (fs : filesystem) :
  dataset_rows p (save_to_csv d p fs)
  = dataset_rows p fs ++ [map Csv.field (Py.values d)].
Proof.
  unfold dataset_rows, save_to_csv.
  destruct (fs !! p) as [t|]; now rewrite lookup_insert_eq.
Qed.

Lemma files_arrive (e : env) (a : action) (w : world) : files (arrive e a w) = files w.
Proof. reflexivity. Qed.

(** One run leaves the consent file alone, or saves into it the record
    of a consent form that was submitted with its box checked. *)
Lemma step_consent_file (w : world) (ea : env * action) :
  files (step w ea) !! CONSENT_CSV = files w !! CONSENT_CSV
  \/ exists e pid f,
       ConsentPage.consent_given f = true
       /\ files (step w ea) !! CONSENT_CSV
          = save_to_csv (ConsentPage.data_dict e pid f) CONSENT_CSV (files w) !! CONSENT_CSV.
Proof.
  destruct ea as [e a]. unfold step, rerun. cbn [fst snd].
  set (w0 := arrive e a w).
  assert (Hfiles : files w0 = files w) by reflexivity.
  assert (Hother : forall d p, p <> CONSENT_CSV ->
            save_to_csv d p (files w0) !! CONSENT_CSV = files w !! CONSENT_CSV).
  { intros d p Hp. now rewrite save_to_csv_lookup_ne, Hfiles. }
  destruct a as [text|on|f|f| | |f|f]; cbn [Py.ret].
  - now left.
  - now left.
  - destruct (consent_submit_spec e f w0) as (pid & _ & ->).
    destruct (ConsentPage.consent_given f) eqn:Hgiven; [|now left].
    right. exists e, pid, f. now rewrite <- Hfiles.
  - destruct (demographics_submit_spec e f w0) as (pid & n & _ & ->).
    destruct (consent_missing _ _); [now left|].
    left. apply Hother. discriminate.
  - rewrite start_result. now left.
  - unfold TaskPage.stop.
    destruct (session w0 !! "task_start_time") as [t0|]; [|now left].
    destruct (Py.truthy t0); [|now left].
    destruct (Py.sub _ t0); cbn [Py.bind]; now left.
  - destruct (task_save_spec e f w0) as (pid & d & s & _ & ->).
    destruct (consent_missing _ _); [now left|].
    destruct (TaskPage.duration_seconds _); [|now left].
    left. apply Hother. discriminate.
  - destruct (exit_submit_spec e f w0) as (pid & dd & _ & ->).
    destruct (consent_missing _ _); [now left|].
    left. apply Hother. discriminate.
Qed.

Lemma step_consent_rows (w : world) (ea : env * action) :
  exists appended,
    dataset_rows CONSENT_CSV (files (step w ea))
    = dataset_rows CONSENT_CSV (files w) ++ appended
    /\ Forall consent_line appended.
Proof.
  destruct (step_consent_file w ea) as [Hsame | (e & pid & f & Hgiven & Hsaved)].
  - exists []. unfold dataset_rows. rewrite Hsame.
    split; [now rewrite app_nil_r | constructor].
  - eexists. split.
    + unfold dataset_rows at 1. rewrite Hsaved.
      apply (dataset_rows_save (ConsentPage.data_dict e pid f) CONSENT_CSV (files w)).
    + repeat constructor. now exists e, pid, f.
Qed.

Lemma run_consent_rows (trace : list (env * action)) (w : world) :
  exists appended,
    dataset_rows CONSENT_CSV (files (run w trace))
    = dataset_rows CONSENT_CSV (files w) ++ appended
    /\ Forall consent_line appended.
Proof.
  revert w. induction trace as [|ea trace IH]; intros w.
  - exists []. split; [now rewrite app_nil_r | constructor].
  - destruct (step_consent_rows w ea) as (first & Hfirst & Hok1).
    destruct (IH (step w ea)) as (rest & Hrest & Hok2).
    exists (first ++ rest). split.
    + simpl. rewrite Hrest, Hfirst. now rewrite app_assoc.
    + now apply Forall_app.
Qed.

Lemma consent_line_true (line : list string) :
  consent_line line -> length line = 4 /\ nth 2 line "" = "True".
Proof. intros (e & pid & f & _ & ->). split; reflexivity. Qed.

(** The consent file as the script makes it: absent, or with the header
    of the consent record and lines of submitted consent forms only. *)
Lemma consent_file_made (trace : list (env * action)) :
  match files (run initial_world trace) !! CONSENT_CSV with
  | None => True
  | Some t =>
      Csv.header t = ["timestamp"; "participant_id"; "consent_given"; "display_name"]
      /\ Forall consent_line (Csv.rows t)
  end.
Proof.
  assert (Hgen : forall w,
    match files w !! CONSENT_CSV with
    | None => True
    | Some t =>
        Csv.header t = ["timestamp"; "participant_id"; "consent_given"; "display_name"]
        /\ Forall consent_line (Csv.rows t)
    end ->
    match files (run w trace) !! CONSENT_CSV with
    | None => True
    | Some t =>
        Csv.header t = ["timestamp"; "participant_id"; "consent_given"; "display_name"]
        /\ Forall consent_line (Csv.rows t)
    end).
  { induction trace as [|ea trace IH]; intros w Hw; [exact Hw|].
    simpl. apply IH.
    destruct (step_consent_file w ea) as [-> | (e & pid & f & Hgiven & ->)];
      [exact Hw|].
    unfold save_to_csv.
    destruct (files w !! CONSENT_CSV) as [t|]; rewrite lookup_insert_eq; simpl.
    - destruct Hw as [Hheader Hrows]. split; [assumption|].
      apply Forall_app. split; [assumption|].
      repeat constructor. now exists e, pid, f.
    - split; [reflexivity|]. repeat constructor. now exists e, pid, f. }
  apply Hgen. reflexivity.
Qed.

Lemma infer_column_all_True (n : nat) :
  Csv.infer_column (repeat "True" n) = repeat (Py.VBool true) n.
Proof.
  destruct n as [|n]; [reflexivity|].
  assert (Hpresent : forall m, filter (fun s => negb (Csv.is_na s)) (repeat "True" m)
                               = repeat "True" m).
  { induction m as [|m IH]; [reflexivity|]. simpl repeat.
    rewrite filter_cons_True by (vm_compute; exact I). now rewrite IH. }
  assert (Hint : forallb (fun s => Csv.is_some (Csv.parse_int s)) (repeat "True" (S n))
                 = false) by reflexivity.
  assert (Hfloat : forallb (fun s => Csv.is_some (Csv.parse_float s)) (repeat "True" (S n))
                   = false) by reflexivity.
  assert (Hbool : forall m, forallb (fun s => Csv.is_some (Csv.parse_bool s))
                              (repeat "True" m) = true).
  { induction m as [|m IH]; [reflexivity|]. simpl repeat. simpl forallb.
    rewrite IH. reflexivity. }
  unfold Csv.infer_column. cbv zeta.
  rewrite Hpresent, Hint, Hfloat, Hbool.
  generalize (S n). intros m. induction m as [|m IH]; [reflexivity|].
  simpl repeat. simpl map. now rewrite IH.
Qed.

Lemma consent_lines_column (lines : list (list string)) :
  Forall consent_line lines ->
  map (fun line => nth 2 line "") lines = repeat "True" (length lines).
Proof.
  induction 1 as [|line lines Hline _ IH]; [reflexivity|].
  simpl. rewrite IH. now destruct (consent_line_true line Hline) as [_ ->].
Qed.

(** The consent file changes in one way only: a press on "Submit
    Consent" with the box checked appends the record of that form. *)
Lemma step_consent_file_checked (w : world) (ea : env * action) :
  files (step w ea) !! CONSENT_CSV = files w !! CONSENT_CSV
  \/ exists pid f,
       snd ea = SubmitConsent f
       /\ ConsentPage.consent_given f = true
       /\ files (step w ea) !! CONSENT_CSV
          = save_to_csv (ConsentPage.data_dict (fst ea) pid f) CONSENT_CSV (files w)
            !! CONSENT_CSV.
Proof.
  destruct ea as [e a]. unfold step, rerun. cbn [fst snd].
  set (w0 := arrive e a w).
  assert (Hfiles : files w0 = files w) by reflexivity.
  assert (Hother : forall d p, p <> CONSENT_CSV ->
            save_to_csv d p (files w0) !! CONSENT_CSV = files w !! CONSENT_CSV).
  { intros d p Hp. now rewrite save_to_csv_lookup_ne, Hfiles. }
  destruct a as [text|on|f|f| | |f|f]; cbn [Py.ret].
  - now left.
  - now left.
  - destruct (consent_submit_spec e f w0) as (pid & _ & ->).
    destruct (ConsentPage.consent_given f) eqn:Hgiven; [|now left].
    right. exists pid, f. now rewrite <- Hfiles.
  - destruct (demographics_submit_spec e f w0) as (pid & n & _ & ->).
    destruct (consent_missing _ _); [now left|].
    left. apply Hother. discriminate.
  - rewrite start_result. now left.
  - unfold TaskPage.stop.
    destruct (session w0 !! "task_start_time") as [t0|]; [|now left].
    destruct (Py.truthy t0); [|now left].
    destruct (Py.sub _ t0); cbn [Py.bind]; now left.
  - destruct (task_save_spec e f w0) as (pid & d & s & _ & ->).
    destruct (consent_missing _ _); [now left|].
    destruct (TaskPage.duration_seconds _); [|now left].
    left. apply Hother. discriminate.
  - destruct (exit_submit_spec e f w0) as (pid & dd & _ & ->).
    destruct (consent_missing _ _); [now left|].
    left. apply Hother. discriminate.
Qed.

(** A press on "Submit Consent" with the box not checked warns and
    writes nothing. *)
Lemma refused_consent_writes_nothing (e : env) (f : ConsentPage.form) (w : world) :
  ConsentPage.consent_given f = false ->
  ConsentPage.submit e f w
  = inl (w, [st_warning "You must agree to the consent terms before proceeding."])
  /\ files (step w (e, SubmitConsent f)) = files w.
Proof.
  intros Hrefused. split.
  - destruct (consent_submit_spec e f w) as (pid & _ & ->). now rewrite Hrefused.
  - unfold step, rerun. cbn [fst snd].
    destruct (consent_submit_spec e f (arrive e (SubmitConsent f) w)) as (pid & _ & ->).
    now rewrite Hrefused.
Qed.

(** C10. Every record the script ever appends to the consent dataset has
    consent_given true: the record is built with the constant [True];
    a press on "Submit Consent" with the box not checked warns and
    leaves the files as they are; the consent dataset changes only by a
    press with the box checked, which appends the record of that form;
    the field of every appended record reads [True]; and so, in a
    dataset the script made, the whole column loads as true: a record of
    a refused consent is in it nowhere. *)
Theorem consent_records_all_given (w : world) (trace : list (env * action)) :
  (forall e pid f,
     Py.get (ConsentPage.data_dict e pid f) "consent_given" = Some (Py.VBool true))
  /\ (forall e f w',
        ConsentPage.consent_given f = false ->
        ConsentPage.submit e f w'
        = inl (w', [st_warning "You must agree to the consent terms before proceeding."])
        /\ files (step w' (e, SubmitConsent f)) = files w')
  /\ (forall w' ea,
        dataset_rows CONSENT_CSV (files (step w' ea))
        <> dataset_rows CONSENT_CSV (files w') ->
        exists pid f,
          snd ea = SubmitConsent f
          /\ ConsentPage.consent_given f = true
          /\ dataset_rows CONSENT_CSV (files (step w' ea))
             = dataset_rows CONSENT_CSV (files w')
               ++ [map Csv.field (Py.values (ConsentPage.data_dict (fst ea) pid f))])
  /\ (exists appended,
        dataset_rows CONSENT_CSV (files (run w trace))
        = dataset_rows CONSENT_CSV (files w) ++ appended
        /\ Forall (fun line => consent_line line /\ nth 2 line "" = "True") appended)
  /\ df_get (load_from_csv CONSENT_CSV (files (run initial_world trace))) "consent_given" []
     = repeat (Py.VBool true) (row_count CONSENT_CSV (files (run initial_world trace))).
Proof.
  split; [reflexivity|]. split; [|split; [|split]].
  - intros e f w' Hrefused. now apply refused_consent_writes_nothing.
  - intros w' ea Hchanged.
    destruct (step_consent_file_checked w' ea) as [Hsame | (pid & f & Hea & Hgiven & Hsaved)].
    + exfalso. apply Hchanged. unfold dataset_rows. now rewrite Hsame.
    + exists pid, f. split; [assumption|]. split; [assumption|].
      unfold dataset_rows at 1. rewrite Hsaved.
      apply (dataset_rows_save (ConsentPage.data_dict (fst ea) pid f) CONSENT_CSV
               (files w')).
  - destruct (run_consent_rows trace w) as (appended & Hrows & Hok).
    exists appended. split; [assumption|].
    eapply Forall_impl; [exact Hok|]. intros line Hline. split; [assumption|].
    now apply consent_line_true.
  - pose proof (consent_file_made trace) as Hmade.
    unfold load_from_csv, row_count, dataset_rows.
    destruct (files (run initial_world trace) !! CONSENT_CSV) as [t|]; [|reflexivity].
    destruct Hmade as [Hheader Hrows].
    unfold read_csv. rewrite Hheader.
    change (df_get _ "consent_given" [])
      with (Csv.infer_column (map (fun line => nth 2 line "") (Csv.rows t))).
    rewrite (consent_lines_column _ Hrows). apply infer_column_all_True.
Qed.

(** ** Session: what a run leaves of the timer *)

Lemma ensure_participant_lookup_ne (e : env) (ss : session_state) (k : string) :
  k <> "participant_id" -> ensure_participant e ss !! k = ss !! k.
Proof.
  intros Hk. unfold ensure_participant.
  destruct (ss !! "participant_id") as [v|]; [destruct (negb (Py.truthy v))|];
    try reflexivity; now rewrite lookup_insert_ne.
Qed.

Lemma sidebar_lookup_ne (e : env) (ss : session_state) (k : string) :
  k <> "participant_id" -> k <> "observer_mode" -> sidebar e ss !! k = ss !! k.
Proof.
  intros Hpid Hobs. unfold sidebar.
  destruct (ensure_participant e ss !! "observer_mode");
    [|rewrite lookup_insert_ne by congruence];
    now apply ensure_participant_lookup_ne.
Qed.

Lemma arrive_lookup_ne (e : env) (a : action) (w : world) (k : string) :
  k <> "participant_id" -> k <> "observer_mode" ->
  session (arrive e a w) !! k = session w !! k.
Proof.
  intros Hpid Hobs. unfold arrive. cbn [session].
  rewrite sidebar_lookup_ne by assumption.
  destruct a; cbn [widget_update]; try reflexivity;
    now rewrite lookup_insert_ne by congruence.
Qed.

Lemma unmeasured_lookup (ss ss' : session_state) :
  ss' !! "task_duration" = ss !! "task_duration" -> unmeasured ss -> unmeasured ss'.
Proof. unfold unmeasured, ss_get. now intros ->. Qed.

Lemma unmeasured_arrive (e : env) (a : action) (w : world) :
  unmeasured (session w) -> unmeasured (session (arrive e a w)).
Proof. apply unmeasured_lookup, arrive_lookup_ne; discriminate. Qed.

Lemma unmeasured_ensure (e : env) (ss : session_state) :
  unmeasured ss -> unmeasured (ensure_participant e ss).
Proof. apply unmeasured_lookup, ensure_participant_lookup_ne; discriminate. Qed.

(** Only the stop button puts a duration into the session. *)
Lemma step_unmeasured (w : world) (e : env) (a : action) :
  a <> StopTaskTimer ->
  unmeasured (session w) -> unmeasured (session (step w (e, a))).
Proof.
  intros Hnot Hw. apply (unmeasured_arrive e a) in Hw.
  unfold step, rerun. cbn [fst snd].
  set (w0 := arrive e a w) in *.
  destruct a as [text|on|f|f| | |f|f]; cbn [Py.ret]; try assumption.
  - destruct (consent_submit_spec e f w0) as (pid & _ & ->).
    destruct (ConsentPage.consent_given f); [|assumption].
    now apply unmeasured_ensure.
  - destruct (demographics_submit_spec e f w0) as (pid & n & _ & ->).
    destruct (consent_missing _ _); now apply unmeasured_ensure.
  - rewrite start_result. unfold unmeasured, ss_get. cbn [session].
    now rewrite lookup_insert_eq.
  - contradiction.
  - destruct (task_save_spec e f w0) as (pid & d & s & _ & ->).
    destruct (consent_missing _ _); [now apply unmeasured_ensure|].
    destruct (TaskPage.duration_seconds _); [|assumption].
    unfold unmeasured, ss_get. cbn [session]. now rewrite lookup_delete_eq.
  - destruct (exit_submit_spec e f w0) as (pid & dd & _ & ->).
    destruct (consent_missing _ _); now apply unmeasured_ensure.
Qed.

Lemma run_unmeasured (trace : list (env * action)) (w : world) :
  no_stop trace -> unmeasured (session w) -> unmeasured (session (run w trace)).
Proof.
  intros Hno. revert w. induction Hno as [|[e a] trace Ha _ IH]; intros w Hw.
  - exact Hw.
  - simpl. apply IH. now apply step_unmeasured.
Qed.

(** C9. Starting the timer clears the last measured duration, whatever
    an earlier start/stop cycle had left: the session then holds [None]
    for it.  And as long as stop is not pressed again, whatever else the
    user does, a task record saved afterwards carries the empty marker
    for its duration; the earlier measurement cannot reach it. *)
Theorem start_clears_duration (e : env) (w : world) (trace : list (env * action))
    (e2 : env) (f : TaskPage.form) :
  no_stop trace ->
  forall started later,
    started = step w (e, StartTaskTimer) ->
    later = run started trace ->
    session started !! "task_duration" = Some Py.VNone
    /\ ss_get (session later) "task_duration" Py.VNone = Py.VNone
    /\ exists saved shown,
         rerun e2 (SaveTaskResults f) later = inl (saved, shown)
         /\ (files saved = files later
             \/ exists pid difficulty satisfaction,
                  files saved =
                    save_to_csv
                      (TaskPage.data_dict e2 pid f (Py.VStr "") difficulty satisfaction)
                      TASK_CSV (files later)).
Proof.
  intros Hno started later -> ->.
  assert (Hstart : session (step w (e, StartTaskTimer)) !! "task_duration" = Some Py.VNone).
  { unfold step, rerun. cbn [fst snd]. rewrite start_result. cbn [session].
    apply lookup_insert_eq. }
  assert (Hlater : unmeasured (session (run (step w (e, StartTaskTimer)) trace))).
  { apply run_unmeasured; [assumption|]. unfold unmeasured, ss_get. now rewrite Hstart. }
  split; [assumption|]. split; [exact Hlater|].
  set (later := run (step w (e, StartTaskTimer)) trace) in *.
  unfold rerun.
  destruct (task_save_spec e2 f (arrive e2 (SaveTaskResults f) later))
    as (pid & d & s & _ & ->).
  destruct (consent_missing _ _).
  - eexists _, _. split; [reflexivity|]. now left.
  - apply (unmeasured_arrive e2 (SaveTaskResults f)), (unmeasured_ensure e2) in Hlater.
    rewrite Hlater, duration_seconds_unmeasured.
    eexists _, _. split; [reflexivity|]. right. now exists pid, d, s.
Qed.

(** ** Report: grouping *)

Lemma get_map_key {V} (g : string -> V) (ks : list string) (t : string) :
  Py.get (map (fun k => (k, g k)) ks) t = if decide (t ∈ ks) then Some (g t) else None.
Proof.
  induction ks as [|k ks IH].
  - destruct (decide (t ∈ [])) as [Hin|_]; [|reflexivity].
    now apply elem_of_nil in Hin.
  - cbn [map Py.get]. rewrite IH.
    destruct (String.eqb_spec k t) as [->|Hne].
    + destruct (decide (t ∈ t :: ks)) as [_|Hout]; [reflexivity|].
      exfalso. apply Hout, list_elem_of_here.
    + destruct (decide (t ∈ ks)) as [Hin|Hout];
        destruct (decide (t ∈ k :: ks)) as [Hin'|Hout']; try reflexivity.
      * exfalso. apply Hout'. now apply list_elem_of_further.
      * exfalso. apply elem_of_cons in Hin' as [?|?]; congruence.
Qed.

Lemma keys_map_key {V} (g : string -> V) (ks : list string) :
  Py.keys (map (fun k => (k, g k)) ks) = ks.
Proof. unfold Py.keys. rewrite map_map. simpl. apply map_id. Qed.

Lemma elem_of_group_keys (names : list Py.value) (t : string) :
  t ∈ Report.group_keys names <-> Py.VStr t ∈ names.
Proof.
  unfold Report.group_keys.
  rewrite merge_sort_Permutation, elem_of_remove_dups, list_elem_of_omap.
  split.
  - intros (v & Hv & Hkey). destruct v; try discriminate.
    injection Hkey as ->. exact Hv.
  - intros Hin. now exists (Py.VStr t).
Qed.

Lemma NoDup_group_keys (names : list Py.value) : NoDup (Report.group_keys names).
Proof.
  unfold Report.group_keys. rewrite merge_sort_Permutation. apply NoDup_remove_dups.
Qed.

Lemma groupby_mean_eq (names : list Py.value) (column : list (option Q)) :
  Report.groupby_mean names column
  = map (fun k => (k, Report.mean_skipna (Report.rows_of_task k (zip names column))))
        (Report.group_keys names).
Proof. unfold Report.groupby_mean, Report.groupby. now rewrite map_map. Qed.

Lemma rows_of_task_nil {A} (t : string) (rows : list (Py.value * A)) :
  Py.VStr t ∉ map fst rows -> Report.rows_of_task t rows = [].
Proof.
  induction rows as [|[k x] rows IH]; simpl; [reflexivity|].
  intros Hout. rewrite not_elem_of_cons in Hout. destruct Hout as [Hne Hout].
  unfold Report.rows_of_task in *. simpl.
  destruct (Report.key_is t k) eqn:Hkey.
  - destruct k; try discriminate. simpl in Hkey.
    apply String.eqb_eq in Hkey. congruence.
  - now apply IH.
Qed.

Lemma rows_of_task_cons {A} (t : string) (rows : list (Py.value * A)) :
  Py.VStr t ∈ map fst rows -> Report.rows_of_task t rows <> [].
Proof.
  induction rows as [|[k x] rows IH]; simpl.
  - intros Hin. now apply elem_of_nil in Hin.
  - intros Hin. unfold Report.rows_of_task in *. simpl.
    destruct (Report.key_is t k) eqn:Hkey; [discriminate|].
    apply IH. apply elem_of_cons in Hin as [<-|Hin]; [|assumption].
    simpl in Hkey. now rewrite String.eqb_refl in Hkey.
Qed.

Lemma rows_of_task_map {A B} (g : A -> B) (t : string) (rows : list (Py.value * A)) :
  Report.rows_of_task t (map (fun r => (fst r, g (snd r))) rows)
  = map g (Report.rows_of_task t rows).
Proof.
  unfold Report.rows_of_task.
  induction rows as [|[k x] rows IH]; simpl; [reflexivity|].
  destruct (Report.key_is t k); simpl; [f_equal|]; exact IH.
Qed.

Lemma zip_map_r {A B C} (g : B -> C) (xs : list A) (ys : list B) :
  zip xs (map g ys) = map (fun r => (fst r, g (snd r))) (zip xs ys).
Proof.
  revert ys. induction xs as [|x xs IH]; intros [|y ys]; simpl; try reflexivity.
  now rewrite IH.
Qed.

Lemma zip_fst_snd {A B} (rows : list (A * B)) :
  zip (map fst rows) (map snd rows) = rows.
Proof. induction rows as [|[a b] rows IH]; simpl; [reflexivity|now rewrite IH]. Qed.

Lemma map_fst_zip {A B} (xs : list A) (ys : list B) :
  length xs = length ys -> map fst (zip xs ys) = xs.
Proof.
  revert ys. induction xs as [|x xs IH]; intros [|y ys]; simpl; try discriminate;
    [reflexivity|]. intros [= Hlen]. now rewrite IH.
Qed.

Lemma omap_id_map_Some {A B} (g : A -> B) (xs : list A) :
  omap id (map (fun x => Some (g x)) xs) = map g xs.
Proof. induction xs as [|x xs IH]; simpl; [reflexivity|f_equal; exact IH]. Qed.

Lemma omap_id_map {A B} (g : A -> option B) (xs : list A) :
  omap id (map g xs) = omap g xs.
Proof.
  induction xs as [|x xs IH]; simpl; [reflexivity|].
  destruct (g x); simpl; [f_equal|]; exact IH.
Qed.

(** The value the grouped mean has for a task: the mean over the task's
    rows, and no entry for a name that is no key. *)
Lemma get_groupby_mean (names : list Py.value) (column : list (option Q)) (t : string) :
  Py.get (Report.groupby_mean names column) t
  = if decide (Py.VStr t ∈ names)
    then Some (Report.mean_skipna (Report.rows_of_task t (zip names column)))
    else None.
Proof.
  rewrite groupby_mean_eq, get_map_key.
  destruct (decide (t ∈ Report.group_keys names)) as [Hin|Hout].
  - rewrite decide_True; [reflexivity|]. now apply elem_of_group_keys.
  - rewrite decide_False; [reflexivity|]. now rewrite <- elem_of_group_keys.
Qed.

Lemma keys_groupby_mean (names : list Py.value) (column : list (option Q)) :
  Py.keys (Report.groupby_mean names column) = Report.group_keys names.
Proof. rewrite groupby_mean_eq. apply keys_map_key. Qed.

(** ** Report: lookups, [dropna] and [sort_values] *)

Lemma get_None {V} (d : Py.dict V) (t : string) :
  Py.get d t = None <-> t ∉ Py.keys d.
Proof.
  induction d as [|[k v] d IH]; cbn [Py.get Py.keys map fst].
  - split; [intros _; apply not_elem_of_nil | reflexivity].
  - rewrite not_elem_of_cons. destruct (String.eqb_spec k t) as [->|Hne].
    + split; [discriminate | now intros [? _]].
    + rewrite IH. unfold Py.keys.
      split; [intros ?; split; [congruence|assumption] | now intros [_ ?]].
Qed.

Lemma get_Some {V} (d : Py.dict V) (t : string) (v : V) :
  NoDup (Py.keys d) -> Py.get d t = Some v <-> (t, v) ∈ d.
Proof.
  induction d as [|[k x] d IH]; cbn [Py.get Py.keys map fst]; intros Hnd.
  - split; [discriminate | intros Hin; now apply elem_of_nil in Hin].
  - apply NoDup_cons in Hnd as [Hk Hnd]. rewrite elem_of_cons.
    destruct (String.eqb_spec k t) as [->|Hne].
    + split.
      * intros [= ->]. now left.
      * intros [[= ->] | Hin]; [reflexivity|].
        exfalso. apply Hk. apply list_elem_of_fmap. now exists (t, v).
    + rewrite (IH Hnd). split; [now right | intros [[= -> ->] | ?]; [now destruct Hne | assumption]].
Qed.

Lemma get_Permutation {V} (d d' : Py.dict V) (t : string) :
  NoDup (Py.keys d) -> d ≡ₚ d' -> Py.get d t = Py.get d' t.
Proof.
  intros Hnd Hperm.
  assert (Hnd' : NoDup (Py.keys d')) by (unfold Py.keys; now rewrite <- Hperm).
  destruct (Py.get d t) as [v|] eqn:Hget; symmetry.
  - apply get_Some; [assumption|]. rewrite <- Hperm. now apply get_Some.
  - apply get_None. unfold Py.keys. rewrite <- Hperm. now apply get_None.
Qed.

Lemma elem_of_dropna (s : Report.Series) (k : string) (x : Q) :
  (k, x) ∈ Report.dropna s <-> (k, Some x) ∈ s.
Proof.
  unfold Report.dropna. rewrite list_elem_of_omap. split.
  - intros ([k' [y|]] & Hin & Heq); simpl in Heq; [|discriminate].
    now injection Heq as -> ->.
  - intros Hin. now exists (k, Some x).
Qed.

Lemma keys_dropna (s : Report.Series) (k : string) :
  k ∈ Py.keys (Report.dropna s) -> k ∈ Py.keys s.
Proof.
  unfold Py.keys. rewrite !list_elem_of_fmap.
  intros ([k' x] & -> & Hin). apply elem_of_dropna in Hin.
  now exists (k', Some x).
Qed.

Lemma NoDup_keys_dropna (s : Report.Series) :
  NoDup (Py.keys s) -> NoDup (Py.keys (Report.dropna s)).
Proof.
  induction s as [|[k [x|]] s IH]; cbn; intros Hnd; [constructor| |].
  - apply NoDup_cons in Hnd as [Hk Hnd]. apply NoDup_cons. split; [|now apply IH].
    intros Hin. apply Hk. now apply keys_dropna.
  - apply NoDup_cons in Hnd as [_ Hnd]. now apply IH.
Qed.

Lemma get_dropna (s : Report.Series) (t : string) :
  NoDup (Py.keys s) ->
  Py.get (Report.dropna s) t
  = match Py.get s t with
    | Some (Some x) => Some x
    | _ => None
    end.
Proof.
  intros Hnd.
  pose proof (NoDup_keys_dropna s Hnd) as Hnd'.
  destruct (Py.get s t) as [[x|]|] eqn:Hget.
  - apply get_Some; [assumption|]. apply elem_of_dropna. now apply get_Some.
  - apply get_None. intros Hin.
    unfold Py.keys in Hin. apply list_elem_of_fmap in Hin as ([k x] & Hk & Hin).
    simpl in Hk. subst k.
    apply elem_of_dropna, get_Some in Hin; [|assumption]. congruence.
  - apply get_None. intros Hin. apply keys_dropna in Hin. now apply get_None in Hget.
Qed.

#[global] Instance descending_total : Total Report.descending.
Proof.
  intros [? [x|]] [? [y|]]; unfold Report.descending, Report.descendingb; simpl;
    auto.
  destruct (Qle_bool y x) eqn:Hyx; [now left|right].
  apply Is_true_true, Qle_bool_iff.
  destruct (Qlt_le_dec x y) as [Hlt|Hle]; [now apply Qlt_le_weak|].
  apply Qle_bool_iff in Hle. congruence.
Qed.

#[global] Instance descending_trans : Transitive Report.descending.
Proof.
  intros [? [x|]] [? [y|]] [? [z|]]; unfold Report.descending, Report.descendingb;
    simpl; auto; try contradiction.
  rewrite !Is_true_true, !Qle_bool_iff. intros Hyx Hzy. now apply Qle_trans with y.
Qed.

(** A series without NaN, as the list of its entries. *)
Lemma dropna_all_Some (s : Report.Series) :
  Forall (fun kv => is_Some (snd kv)) s ->
  map (fun kv => (fst kv, Some (snd kv))) (Report.dropna s) = s.
Proof.
  induction s as [|[k ox] s IH]; intros Hall; [reflexivity|].
  apply Forall_cons in Hall as [[x Hx] Hall]. simpl in Hx. subst ox.
  cbn. f_equal. now apply IH.
Qed.

Lemma dropna_sorted (s : Report.Series) :
  StronglySorted Report.descending s ->
  StronglySorted (fun a b => (snd b <= snd a)%Q) (Report.dropna s).
Proof.
  induction 1 as [|[k [x|]] s Hs IH Hall]; cbn; [constructor| |exact IH].
  constructor; [exact IH|].
  apply Forall_forall. intros [k' y] Hin. apply elem_of_dropna in Hin.
  rewrite Forall_forall in Hall. specialize (Hall _ Hin).
  unfold Report.descending, Report.descendingb in Hall. simpl in *.
  now apply Is_true_true, Qle_bool_iff in Hall.
Qed.

(** ** Report: the success rate by task *)

Lemma fillna_success_score (v : Py.value) :
  Report.fillna 0 (Report.series_map Report.success_map v)
  = Some (Report.spec_success_score v).
Proof.
  destruct v as [| | | |s|]; try reflexivity.
  unfold Report.series_map, Report.success_map, Report.spec_success_score.
  cbn [Py.get].
  rewrite (String.eqb_sym "Success" s), (String.eqb_sym "Partial" s),
    (String.eqb_sym "Fail" s), (String.eqb_sym "Abandoned" s).
  repeat (destruct (String.eqb s _); [reflexivity|]). reflexivity.
Qed.

Lemma mean_skipna_map_Some {A} (g : A -> Q) (xs : list A) :
  Report.mean_skipna (map (fun x => Some (g x)) xs) = Report.mean (map g xs).
Proof. unfold Report.mean_skipna. now rewrite omap_id_map_Some. Qed.

Lemma mean_is_Some (xs : list Q) : xs <> [] -> is_Some (Report.mean xs).
Proof. destruct xs; [congruence|]. intros _. eexists. reflexivity. Qed.

Lemma mean_None (xs : list Q) : Report.mean xs = None <-> xs = [].
Proof. destruct xs; split; intros H; try reflexivity; discriminate. Qed.

Lemma success_scores_column (outcomes : list Py.value) :
  map (fun v => Report.fillna 0 (Report.series_map Report.success_map v)) outcomes
  = map (fun v => Some (Report.spec_success_score v)) outcomes.
Proof. apply map_ext. intros v. apply fillna_success_score. Qed.

(** The grouped mean of the scores is the specification's rate, task by task. *)
Lemma groupby_mean_scores (names outcomes : list Py.value) (t : string) :
  Report.mean_skipna
    (Report.rows_of_task t
       (zip names (map (fun v => Some (Report.spec_success_score v)) outcomes)))
  = Report.spec_success_rate (zip names outcomes) t.
Proof.
  rewrite (zip_map_r (fun v => Some (Report.spec_success_score v))).
  rewrite (rows_of_task_map (fun v => Some (Report.spec_success_score v))).
  apply mean_skipna_map_Some.
Qed.

Lemma success_rates_no_nan (names outcomes : list Py.value) :
  length names = length outcomes ->
  Forall (fun kv => is_Some (snd kv))
    (Report.groupby_mean names
       (map (fun v => Some (Report.spec_success_score v)) outcomes)).
Proof.
  intros Hlen. rewrite groupby_mean_eq. apply Forall_forall.
  intros [k m] Hin. apply list_elem_of_fmap in Hin as (k' & [= -> ->] & Hin).
  simpl. rewrite groupby_mean_scores. apply mean_is_Some.
  unfold Report.spec_success_rate.
  intros Hnil. apply fmap_nil_inv in Hnil. revert Hnil.
  apply rows_of_task_cons. rewrite map_fst_zip by assumption.
  now apply elem_of_group_keys.
Qed.

(** C3. For every loaded task frame whose task names are text (every
    frame of a file the script wrote is one), the success aggregate
    holds, for each task name, the unweighted mean of the row scores Success=1,
    Partial=1/2, Fail=0, Abandoned=0 and 0 for anything else or missing;
    it has one entry per task that has a row, and its entries are in
    descending order of score.  The three rows of the specification's
    example give 1/2 for T1 and 1/2 for T2. *)
Theorem success_rate_by_task :
  (forall (task_df : DataFrame) (names outcomes : list Py.value),
      Py.get task_df "task_name" = Some names ->
      Py.get task_df "success" = Some outcomes ->
      length names = length outcomes ->
      Report.text_column names ->
      exists rates : list (string * Q),
        Report.success_by_task task_df
        = inl (map (fun kv => (fst kv, Some (snd kv))) rates)
        /\ (forall task,
              Py.get rates task = Report.spec_success_rate (zip names outcomes) task)
        /\ NoDup (Py.keys rates)
        /\ StronglySorted (fun a b => (snd b <= snd a)%Q) rates)
  /\ Report.success_by_task Report.example_outcomes
     = inl [("T1", Some (1 # 2)%Q); ("T2", Some (1 # 2)%Q)].
Proof.
  split; [|reflexivity].
  intros task_df names outcomes Hnames Houtcomes Hlen _.
  unfold Report.success_by_task, Report.df_getitem, Py.getitem.
  rewrite Houtcomes, Hnames. cbn [Py.bind Py.ret].
  rewrite success_scores_column.
  set (scores := map (fun v => Some (Report.spec_success_score v)) outcomes).
  set (s := Report.groupby_mean names scores).
  assert (Hperm : Report.sort_values_descending s ≡ₚ s)
    by apply merge_sort_Permutation.
  assert (Hnd : NoDup (Py.keys s)).
  { unfold s. rewrite keys_groupby_mean. apply NoDup_group_keys. }
  assert (Hnd' : NoDup (Py.keys (Report.sort_values_descending s))).
  { unfold Py.keys. now rewrite Hperm. }
  assert (Hsome : Forall (fun kv => is_Some (snd kv)) (Report.sort_values_descending s)).
  { rewrite Hperm. now apply success_rates_no_nan. }
  exists (Report.dropna (Report.sort_values_descending s)).
  split; [|split; [|split]].
  - now rewrite dropna_all_Some.
  - intros task. rewrite get_dropna by assumption.
    rewrite (get_Permutation _ s) by assumption.
    unfold s. rewrite get_groupby_mean.
    destruct (decide (Py.VStr task ∈ names)) as [Hin|Hout].
    + unfold scores. rewrite groupby_mean_scores.
      now destruct (Report.spec_success_rate (zip names outcomes) task).
    + symmetry. unfold Report.spec_success_rate.
      rewrite rows_of_task_nil; [reflexivity|].
      now rewrite map_fst_zip.
  - now apply NoDup_keys_dropna.
  - apply dropna_sorted. apply StronglySorted_merge_sort; apply _.
Qed.

(** ** Report: the average duration by task *)

Lemma zip_fst_map {A B C} (g : B -> C) (rows : list (A * B)) :
  zip (map fst rows) (map (fun r => g (snd r)) rows)
  = map (fun r => (fst r, g (snd r))) rows.
Proof. induction rows as [|[a b] rows IH]; simpl; [reflexivity|now rewrite IH]. Qed.

Section DurationFacts.

Variable str_to_float : string -> option Q.

(** A blank string is no number. *)
Hypothesis blank_is_no_number :
  forall s, Py.strip_nonempty s = false -> str_to_float s = None.

Lemma to_numeric_kept (x : Py.value) :
  Report.keep_duration x = false -> Report.to_numeric str_to_float x = None.
Proof. destruct x; simpl; try discriminate; auto. Qed.

(** The filter of line 389 removes no row that has a number. *)
Lemma numbers_survive_filter (t : string) (rows : list (Py.value * Py.value)) :
  omap (Report.to_numeric str_to_float)
    (Report.rows_of_task t (filter (fun r => Report.keep_duration (snd r)) rows))
  = omap (Report.to_numeric str_to_float) (Report.rows_of_task t rows).
Proof.
  unfold Report.rows_of_task.
  induction rows as [|[k x] rows IH]; [reflexivity|].
  destruct (Report.keep_duration x) eqn:Hkeep.
  - rewrite filter_cons_True by (simpl; now rewrite Hkeep).
    cbn. destruct (Report.key_is t k); cbn; [|exact IH].
    destruct (Report.to_numeric str_to_float x); [f_equal|]; exact IH.
  - rewrite filter_cons_False by (simpl; now rewrite Hkeep).
    rewrite IH. cbn. destruct (Report.key_is t k); cbn; [|reflexivity].
    now rewrite to_numeric_kept.
Qed.

Lemma average_duration_spec (task_df : DataFrame) (names durations : list Py.value) :
  Py.get task_df "task_name" = Some names ->
  Py.get task_df "duration_seconds" = Some durations ->
  exists avg_dur,
    Report.average_duration_by_task str_to_float task_df = inl avg_dur
    /\ (forall task,
          Py.get avg_dur task
          = Report.spec_mean_duration (Report.to_numeric str_to_float)
              (zip names durations) task)
    /\ NoDup (Py.keys avg_dur).
Proof.
  intros Hnames Hdurations.
  unfold Report.average_duration_by_task, Report.df_getitem, Py.getitem.
  rewrite Hdurations, Hnames. cbn [Py.bind Py.ret].
  set (dur := filter (fun r => Report.keep_duration (snd r)) (zip names durations)).
  set (s := Report.groupby_mean (map fst dur)
              (map (fun r => Report.to_numeric str_to_float (snd r)) dur)).
  assert (Hnd : NoDup (Py.keys s)).
  { unfold s. rewrite keys_groupby_mean. apply NoDup_group_keys. }
  exists (Report.dropna s). split; [reflexivity|]. split; [|now apply NoDup_keys_dropna].
  intros task. rewrite get_dropna by assumption.
  unfold Report.spec_mean_duration.
  rewrite <- numbers_survive_filter. fold dur.
  unfold s. rewrite get_groupby_mean.
  destruct (decide (Py.VStr task ∈ map fst dur)) as [Hin|Hout].
  - rewrite zip_fst_map, (rows_of_task_map (Report.to_numeric str_to_float)).
    unfold Report.mean_skipna. rewrite omap_id_map.
    now destruct (Report.mean _).
  - rewrite rows_of_task_nil by assumption. reflexivity.
Qed.

End DurationFacts.

(** The decimal reader of the examples takes no blank string for a number. *)
Lemma parse_float_blank (s : string) :
  Py.strip_nonempty s = false -> Csv.parse_float s = None.
Proof.
  destruct s as [|c s]; [reflexivity|].
  simpl. intros Hblank. apply orb_false_iff in Hblank as [Hspace _].
  apply negb_false_iff in Hspace.
  destruct c as [[] [] [] [] [] [] [] []]; try discriminate Hspace; reflexivity.
Qed.




(** ** Where a consent is seen again *)

Lemma forallb_false_In {A} (p : A -> bool) (x : A) (xs : list A) :
  In x xs -> p x = false -> forallb p xs = false.
Proof.
  intros Hin Hx. destruct (forallb p xs) eqn:Hall; [|reflexivity].
  rewrite forallb_forall in Hall. rewrite (Hall x Hin) in Hx. discriminate.
Qed.

Lemma length_infer_column (fields : list string) :
  length (Csv.infer_column fields) = length fields.
Proof.
  unfold Csv.infer_column. cbv zeta.
  repeat (match goal with |- context [if ?b then _ else _] => destruct b end);
    apply length_map.
Qed.

(** A field of plain text makes its whole column text, and is read back
    as the string it is. *)
Lemma infer_column_plain (fields : list string) (p : string) :
  Csv.plain_text p = true -> In p fields -> In (Py.VStr p) (Csv.infer_column fields).
Proof.
  unfold Csv.plain_text. rewrite !andb_true_iff, !negb_true_iff.
  intros [[[Hna Hint] Hfloat] Hbool] Hin.
  assert (Hpresent : In p (filter (fun s => negb (Csv.is_na s)) fields)).
  { apply list_elem_of_In, list_elem_of_filter. split.
    - rewrite Hna. exact I.
    - now apply list_elem_of_In. }
  unfold Csv.infer_column. cbv zeta.
  rewrite (forallb_false_In _ p fields Hin Hint).
  rewrite (forallb_false_In _ p _ Hpresent Hfloat).
  rewrite (forallb_false_In _ p _ Hpresent Hbool).
  apply in_map_iff. exists p. now rewrite Hna.
Qed.

Lemma generated_id_plain (token : string) : Csv.plain_text ("P-" +:+ token) = true.
Proof. reflexivity. Qed.

(** In a data folder the script has made, a consent submitted under a
    generated id is seen at once: [has_consented] is true for that id
    after the submission. *)
Lemma consent_seen_for_generated_id (trace : list (env * action)) (e : env)
    (f : ConsentPage.form) (token : string) :
  ConsentPage.consent_given f = true ->
  session (arrive e (SubmitConsent f) (run initial_world trace)) !! "participant_id"
  = Some (Py.VStr ("P-" +:+ token)) ->
  has_consented (Py.VStr ("P-" +:+ token))
    (files (step (run initial_world trace) (e, SubmitConsent f))) = true.
Proof.
  intros Hgiven Hpid.
  pose proof (generated_id_plain token) as Hplain.
  set (p := "P-" +:+ token) in *.
  pose proof (consent_file_made trace) as Hmade.
  set (w := run initial_world trace) in *.
  unfold step, rerun. cbn [fst snd].
  set (w0 := arrive e (SubmitConsent f) w) in *.
  assert (Hset : participant_set (session w0) = true).
  { unfold participant_set. now rewrite Hpid. }
  destruct (consent_submit_spec e f w0) as (pid & Hpid' & ->).
  rewrite Hgiven. cbn [files].
  rewrite ensure_participant_set in Hpid' by assumption.
  rewrite Hpid in Hpid'. injection Hpid' as <-.
  change (files w0) with (files w).
  apply has_consented_iff.
  unfold load_from_csv, save_to_csv.
  destruct (files w !! CONSENT_CSV) as [t|]; rewrite lookup_insert_eq.
  - destruct Hmade as [Hheader _]. unfold read_csv. cbn [Csv.header Csv.rows].
    rewrite Hheader. cbn [imap].
    split.
    + cbn [df_empty]. rewrite length_infer_column, length_map, length_app. simpl.
      apply Nat.eqb_neq. lia.
    + exists (Py.VStr p). split; [|simpl; apply String.eqb_refl].
      change (df_get _ "participant_id" [])
        with (Csv.infer_column
                (map (fun line => nth 1 line "")
                     (Csv.rows t
                      ++ [map Csv.field (Py.values (ConsentPage.data_dict e (Py.VStr p) f))]))).
      apply infer_column_plain; [assumption|].
      rewrite map_app. apply in_or_app. right. now left.
  - unfold read_csv. cbn [Csv.header Csv.rows].
    change (Py.keys (ConsentPage.data_dict e (Py.VStr p) f))
      with ["timestamp"; "participant_id"; "consent_given"; "display_name"].
    cbn [imap].
    split.
    + cbn [df_empty]. now rewrite length_infer_column.
    + exists (Py.VStr p). split; [|simpl; apply String.eqb_refl].
      change (In (Py.VStr p) (Csv.infer_column [p])).
      apply infer_column_plain; [assumption | now left].
Qed.

(** ** The specification's statements at sample sessions *)

(** C4, where the script departs from it.  The timer is stopped at the
    very clock reading it was started at: the measured duration is zero.
    The record then saved does not carry that zero: it carries the empty
    marker, and is field for field the record of a timer that was never
    stopped.  (A duration that is not zero is stored rounded, and an
    unmeasured one as the marker: [duration_seconds_measured],
    [duration_seconds_unmeasured].) *)
Theorem zero_duration_saved_as_unknown :
  session (run Demo.consented_and_started [(Demo.at_start, StopTaskTimer)])
    !! "task_duration" = Some (Py.VFloat 0)
  /\ TaskPage.duration_seconds (Py.VFloat 0) = inl (Py.VStr "")
  /\ dataset_rows TASK_CSV
       (files (run Demo.consented_and_started
                 [(Demo.at_start, StopTaskTimer);
                  (Demo.later, SaveTaskResults Demo.task)]))
     = [ [ "2023-11-14 22:13:25"; "P-12345678"; "Task 1: Find an item"; "Success";
           ""; "0"; "3"; "4"; "" ] ]
  /\ dataset_rows TASK_CSV
       (files (run Demo.consented_and_started
                 [(Demo.later, SaveTaskResults Demo.task)]))
     = [ [ "2023-11-14 22:13:25"; "P-12345678"; "Task 1: Find an item"; "Success";
           ""; "0"; "3"; "4"; "" ] ].
Proof. repeat split; vm_compute; reflexivity. Qed.

(** A measured duration that is not zero does reach the record. *)
Example measured_duration_saved :
  dataset_rows TASK_CSV
    (files (run Demo.measured [(Demo.later, SaveTaskResults Demo.task)]))
  = [ [ "2023-11-14 22:13:25"; "P-12345678"; "Task 1: Find an item"; "Success";
        "5.5"; "0"; "3"; "4"; "" ] ].
Proof. vm_compute. reflexivity. Qed.

(** C5, where the script departs from it.  A participant whose id is
    [123] consents; the record is in the file; yet [has_consented] is
    false for that id right after, because the file's only id reads back
    as the integer 123 and the session's id is the string, so the
    demographic form is turned away.  When a second participant then
    consents under a generated id, the column reads back as text and
    [has_consented] for [123] becomes true: a value for another id has
    changed.  (On the loaded frame the contract itself holds,
    [has_consented_iff], and a consent under a generated id is seen,
    [consent_seen_for_generated_id].) *)
Theorem consent_under_numeric_id_not_seen :
  dataset_rows CONSENT_CSV (files Demo.numeric_id_consented)
  = [ [ "2023-11-14 22:13:20"; "123"; "True"; "" ] ]
  /\ session Demo.numeric_id_consented !! "participant_id" = Some (Py.VStr "123")
  /\ df_get (load_from_csv CONSENT_CSV (files Demo.numeric_id_consented))
       "participant_id" [] = [Py.VInt 123]
  /\ has_consented (Py.VStr "123") (files Demo.numeric_id_consented) = false
  /\ rerun Demo.later (SubmitDemographics Demo.demographics) Demo.numeric_id_consented
     = inl (Demo.numeric_id_consented, [require_consent_warning])
  /\ has_consented (Py.VStr "123")
       (files (run Demo.numeric_id_consented
                 [ (Demo.later, EditParticipantId "");
                   (Demo.later, SubmitConsent Demo.consent) ]))
     = true.
Proof. repeat split; vm_compute; reflexivity. Qed.

(** The specification's end-to-end scenario: a participant consents and
    submits the demographic form, which is recorded; a task submission
    under another id, P2, which has not consented, leaves the task
    dataset as it was. *)
Example end_to_end_scenario :
  let recorded :=
    run initial_world
      [ (Demo.at_start, EditParticipantId "P1");
        (Demo.at_start, SubmitConsent Demo.consent);
        (Demo.later, SubmitDemographics Demo.demographics) ] in
  let refused :=
    run recorded
      [ (Demo.later, EditParticipantId "P2");
        (Demo.later, SaveTaskResults Demo.task) ] in
  dataset_rows DEMOGRAPHIC_CSV (files recorded)
  = [ [ "2023-11-14 22:13:25"; "P1"; ""; "25"; "Prefer not to say"; "Student";
        "Bachelor"; ""; "3" ] ]
  /\ has_consented (Py.VStr "P1") (files recorded) = true
  /\ has_consented (Py.VStr "P2") (files recorded) = false
  /\ row_count TASK_CSV (files refused) = row_count TASK_CSV (files recorded)
  /\ files refused = files recorded.
Proof. repeat split; vm_compute; reflexivity. Qed.

(** ** Instances *)

(** P1 has consented and P2 has not: each of the three submissions of P2
    is rejected, and the files stay as they were. *)
Lemma submission_without_consent_rejected_witness :
  (forall f, DemographicsPage.submit Demo.later f Demo.p1_consented_p2_active
             = inl (Demo.p1_consented_p2_active, [require_consent_warning]))
  /\ (forall f, TaskPage.save Demo.later f Demo.p1_consented_p2_active
                = inl (Demo.p1_consented_p2_active, [require_consent_warning]))
  /\ (forall f, ExitPage.submit Demo.later f Demo.p1_consented_p2_active
                = inl (Demo.p1_consented_p2_active, [require_consent_warning]))
  /\ (forall csv_file,
        row_count csv_file (files Demo.p1_consented_p2_active)
        = row_count csv_file (files Demo.p1_consented_p2_active)).
Proof.
  apply (submission_without_consent_rejected
           Demo.later Demo.p1_consented_p2_active (Py.VStr "P2")).
  - vm_compute. reflexivity.
  - intros v Hin. vm_compute in Hin. destruct Hin as [<-|[]]. reflexivity.
  - vm_compute. reflexivity.
Defined.


(** The specification's three outcomes. *)
Lemma success_rate_by_task_witness :
  exists rates,
    Report.success_by_task Report.example_outcomes
    = inl (map (fun kv => (fst kv, Some (snd kv))) rates)
    /\ Py.get rates "T1" = Some (1 # 2)%Q
    /\ Py.get rates "T2" = Some (1 # 2)%Q.
Proof.
  destruct (proj1 success_rate_by_task Report.example_outcomes
              [Py.VStr "T1"; Py.VStr "T1"; Py.VStr "T2"]
              [Py.VStr "Success"; Py.VStr "Fail"; Py.VStr "Partial"]
              eq_refl eq_refl eq_refl ltac:(repeat constructor))
    as (rates & Hrun & Hget & _).
  exists rates. split; [exact Hrun|].
  split; rewrite Hget; vm_compute; reflexivity.
Defined.

(** Stop in a fresh session; and stop 5.5 seconds after a start. *)
Lemma stop_timer_witness :
  TaskPage.stop Demo.later initial_world
  = inl (initial_world, [st_warning "Timer was not started."])
  /\ TaskPage.stop Demo.later Demo.consented_and_started
     = inl ({| session := <["task_duration" := Py.VFloat (time_time Demo.later - 1700000000)]>
                            (session Demo.consented_and_started);
               files := files Demo.consented_and_started |},
            [st_success_timer_stopped (Py.VFloat (time_time Demo.later - 1700000000))]).
Proof.
  split.
  - apply (proj1 (stop_timer Demo.later initial_world)). reflexivity.
  - apply (proj2 (stop_timer Demo.later Demo.consented_and_started)
             Demo.at_start
             (run initial_world [(Demo.at_start, SubmitConsent Demo.consent)])
             Demo.consented_and_started [st_success "Timer started."]).
    + vm_compute. reflexivity.
    + intros Hzero. vm_compute in Hzero. discriminate Hzero.
Defined.

(** After a measured cycle of 5.5 seconds the timer is started again,
    the observer toggle is switched, and the task is saved without a
    stop: the record has the empty marker, not 5.5. *)
Lemma start_clears_duration_witness :
  session Demo.measured !! "task_duration" = Some (Py.VFloat (11 # 2))
  /\ session (step Demo.measured (Demo.later, StartTaskTimer)) !! "task_duration"
     = Some Py.VNone
  /\ exists saved shown,
       rerun Demo.later (SaveTaskResults Demo.task)
         (run (step Demo.measured (Demo.later, StartTaskTimer))
              [(Demo.later, SetObserverMode false)])
       = inl (saved, shown)
       /\ dataset_rows TASK_CSV (files saved)
          = [ [ "2023-11-14 22:13:25"; "P-12345678"; "Task 1: Find an item";
                "Success"; ""; "0"; "3"; "4"; "" ] ].
Proof.
  split; [vm_compute; reflexivity|].
  destruct (start_clears_duration Demo.later Demo.measured
              [(Demo.later, SetObserverMode false)] Demo.later Demo.task
              ltac:(repeat constructor; discriminate)
              _ _ eq_refl eq_refl)
    as (Hcleared & _ & saved & shown & Hrun & _).
  split; [exact Hcleared|].
  exists saved, shown. split; [exact Hrun|].
  vm_compute in Hrun. injection Hrun as <- _. vm_compute. reflexivity.
Defined.

(* ================================================================== *)
(** * Further properties *)
(* ================================================================== *)

(** ** One run, action by action *)

Lemma ensure_after_sidebar (e : env) (ss : session_state) :
  ensure_participant e (sidebar e ss) = sidebar e ss.
Proof.
  apply ensure_participant_set. unfold sidebar.
  pose proof (participant_set_ensure e ss) as Hset.
  destruct (ensure_participant e ss !! "observer_mode"); [assumption|].
  unfold participant_set in *. now rewrite lookup_insert_ne by discriminate.
Qed.

Lemma ensure_after_arrive (e : env) (a : action) (w : world) :
  ensure_participant e (session (arrive e a w)) = session (arrive e a w).
Proof. apply ensure_after_sidebar. Qed.

Lemma world_eta (w : world) : {| session := session w; files := files w |} = w.
Proof. now destruct w. Qed.

Lemma step_edit (w : world) (e : env) (a : action) :
  (forall f, a <> SubmitConsent f) -> (forall f, a <> SubmitDemographics f) ->
  a <> StartTaskTimer -> a <> StopTaskTimer ->
  (forall f, a <> SaveTaskResults f) -> (forall f, a <> SubmitExit f) ->
  step w (e, a) = arrive e a w.
Proof. destruct a; intros; try congruence; reflexivity. Qed.

Lemma step_consent (w : world) (e : env) (f : ConsentPage.form) :
  exists pid,
    session (arrive e (SubmitConsent f) w) !! "participant_id" = Some pid
    /\ step w (e, SubmitConsent f) =
       if ConsentPage.consent_given f then
         {| session := session (arrive e (SubmitConsent f) w);
            files := save_to_csv (ConsentPage.data_dict e pid f) CONSENT_CSV (files w) |}
       else arrive e (SubmitConsent f) w.
Proof.
  unfold step, rerun. cbn [fst snd].
  destruct (consent_submit_spec e f (arrive e (SubmitConsent f) w)) as (pid & Hpid & ->).
  rewrite ensure_after_arrive in *.
  exists pid. split; [assumption|]. now destruct (ConsentPage.consent_given f).
Qed.

Lemma step_demographics (w : world) (e : env) (f : DemographicsPage.form) :
  exists pid familiarity,
    session (arrive e (SubmitDemographics f) w) !! "participant_id" = Some pid
    /\ (1 <= familiarity <= 5)%Z
    /\ step w (e, SubmitDemographics f) =
       if consent_missing (load_from_csv CONSENT_CSV (files w)) pid then
         arrive e (SubmitDemographics f) w
       else
         {| session := session (arrive e (SubmitDemographics f) w);
            files := save_to_csv (DemographicsPage.data_dict e pid f familiarity)
                       DEMOGRAPHIC_CSV (files w) |}.
Proof.
  unfold step, rerun. cbn [fst snd].
  set (w0 := arrive e (SubmitDemographics f) w).
  assert (Hens : ensure_participant e (session w0) = session w0)
    by apply ensure_after_arrive.
  destruct (ensure_participant_getitem e (session w0)) as (pid & Hpid & _ & Hget).
  destruct (slider_fair (DemographicsPage.familiarity f)) as (n & Hn & Hbound).
  rewrite Hens in Hpid, Hget.
  exists pid, n. split; [assumption|]. split; [assumption|].
  unfold DemographicsPage.submit. cbv zeta. rewrite Hn. cbn [Py.bind].
  rewrite Hens, Hget. cbn [Py.bind].
  change (files w0) with (files w).
  destruct (consent_missing _ _); cbn [Py.ret]; [|reflexivity].
  reflexivity.
Qed.

Lemma step_start (w : world) (e : env) :
  step w (e, StartTaskTimer) =
    {| session := <["task_duration" := Py.VNone]>
                    (<["task_start_time" := Py.VFloat (time_time e)]>
                       (session (arrive e StartTaskTimer w)));
       files := files w |}.
Proof. reflexivity. Qed.

Lemma step_stop (w : world) (e : env) :
  step w (e, StopTaskTimer) =
    match session (arrive e StopTaskTimer w) !! "task_start_time" with
    | Some t0 =>
        if Py.truthy t0 then
          match Py.sub (Py.VFloat (time_time e)) t0 with
          | inl duration =>
              {| session := <["task_duration" := duration]>
                              (session (arrive e StopTaskTimer w));
                 files := files w |}
          | inr _ => arrive e StopTaskTimer w
          end
        else arrive e StopTaskTimer w
    | None => arrive e StopTaskTimer w
    end.
Proof.
  unfold step, rerun. cbn [fst snd]. unfold TaskPage.stop.
  destruct (session (arrive e StopTaskTimer w) !! "task_start_time") as [t0|];
    [|reflexivity].
  destruct (Py.truthy t0); [|reflexivity].
  destruct (Py.sub _ t0); reflexivity.
Qed.

Lemma step_save (w : world) (e : env) (f : TaskPage.form) :
  exists pid difficulty satisfaction,
    session (arrive e (SaveTaskResults f) w) !! "participant_id" = Some pid
    /\ (1 <= difficulty <= 5)%Z /\ (1 <= satisfaction <= 5)%Z
    /\ step w (e, SaveTaskResults f) =
       if consent_missing (load_from_csv CONSENT_CSV (files w)) pid then
         arrive e (SaveTaskResults f) w
       else
         match TaskPage.duration_seconds
                 (ss_get (session (arrive e (SaveTaskResults f) w))
                    "task_duration" Py.VNone) with
         | inl duration =>
             {| session := delete "task_duration"
                             (delete "task_start_time"
                                (session (arrive e (SaveTaskResults f) w)));
                files := save_to_csv
                           (TaskPage.data_dict e pid f duration difficulty satisfaction)
                           TASK_CSV (files w) |}
         | inr _ => arrive e (SaveTaskResults f) w
         end.
Proof.
  unfold step, rerun. cbn [fst snd].
  set (w0 := arrive e (SaveTaskResults f) w).
  assert (Hens : ensure_participant e (session w0) = session w0)
    by apply ensure_after_arrive.
  destruct (ensure_participant_getitem e (session w0)) as (pid & Hpid & _ & Hget).
  destruct (slider_fair (TaskPage.perceived_difficulty f)) as (d & Hd & Hdb).
  destruct (slider_good (TaskPage.task_satisfaction f)) as (s & Hs & Hsb).
  rewrite Hens in Hpid, Hget.
  exists pid, d, s. repeat (split; [assumption|]).
  unfold TaskPage.save. cbv zeta. rewrite Hd. cbn [Py.bind]. rewrite Hs. cbn [Py.bind].
  rewrite Hens, Hget. cbn [Py.bind].
  change (files w0) with (files w).
  destruct (consent_missing _ _); cbn [Py.ret]; [reflexivity|].
  destruct (TaskPage.duration_seconds _); reflexivity.
Qed.

Lemma step_exit (w : world) (e : env) (f : ExitPage.form) :
  exists pid n1 n2 n3 n4 n5,
    session (arrive e (SubmitExit f) w) !! "participant_id" = Some pid
    /\ Forall (fun n => (1 <= n <= 5)%Z) [n1; n2; n3; n4; n5]
    /\ step w (e, SubmitExit f) =
       if consent_missing (load_from_csv CONSENT_CSV (files w)) pid then
         arrive e (SubmitExit f) w
       else
         {| session := session (arrive e (SubmitExit f) w);
            files := save_to_csv (exit_data_dict e pid f n1 n2 n3 n4 n5)
                       EXIT_CSV (files w) |}.
Proof.
  unfold step, rerun. cbn [fst snd].
  set (w0 := arrive e (SubmitExit f) w).
  assert (Hens : ensure_participant e (session w0) = session w0)
    by apply ensure_after_arrive.
  destruct (ensure_participant_getitem e (session w0)) as (pid & Hpid & _ & Hget).
  destruct (slider_agree (ExitPage.satisfaction f)) as (n1 & H1 & B1).
  destruct (slider_agree (ExitPage.ease f)) as (n2 & H2 & B2).
  destruct (slider_agree (ExitPage.efficiency f)) as (n3 & H3 & B3).
  destruct (slider_agree (ExitPage.learnability f)) as (n4 & H4 & B4).
  destruct (slider_neutral (ExitPage.error_prevention f)) as (n5 & H5 & B5).
  rewrite Hens in Hpid, Hget.
  exists pid, n1, n2, n3, n4, n5. split; [assumption|].
  split; [repeat (constructor; [assumption|]); constructor|].
  unfold ExitPage.submit. cbv zeta. rewrite Hens, Hget. cbn [Py.bind].
  change (files w0) with (files w).
  destruct (consent_missing _ _); cbn [Py.ret]; [reflexivity|].
  rewrite H1. cbn [Py.bind]. rewrite H2. cbn [Py.bind]. rewrite H3. cbn [Py.bind].
  rewrite H4. cbn [Py.bind]. rewrite H5. cbn [Py.bind]. reflexivity.
Qed.

(** What one run does to the files: nothing, or one [save_to_csv] into
    one of the four datasets. *)
Lemma step_files (w : world) (ea : env * action) :
  files (step w ea) = files w
  \/ exists d p, In p datasets /\ d <> [] /\ files (step w ea) = save_to_csv d p (files w).
Proof.
  destruct ea as [e a]. destruct a as [text|on|f|f| | |f|f].
  - now left.
  - now left.
  - destruct (step_consent w e f) as (pid & _ & ->).
    destruct (ConsentPage.consent_given f); [|now left].
    right. eexists _, CONSENT_CSV. split; [simpl; auto|]. split; [|reflexivity].
    discriminate.
  - destruct (step_demographics w e f) as (pid & n & _ & _ & ->).
    destruct (consent_missing _ _); [now left|].
    right. eexists _, DEMOGRAPHIC_CSV. split; [simpl; auto|]. split; [|reflexivity].
    discriminate.
  - now left.
  - rewrite step_stop.
    destruct (session _ !! "task_start_time") as [t0|]; [|now left].
    destruct (Py.truthy t0); [|now left].
    destruct (Py.sub _ t0); now left.
  - destruct (step_save w e f) as (pid & d & s & _ & _ & _ & ->).
    destruct (consent_missing _ _); [now left|].
    destruct (TaskPage.duration_seconds _); [|now left].
    right. eexists _, TASK_CSV. split; [simpl; auto|]. split; [|reflexivity].
    discriminate.
  - destruct (step_exit w e f) as (pid & n1 & n2 & n3 & n4 & n5 & _ & _ & ->).
    destruct (consent_missing _ _); [now left|].
    right. eexists _, EXIT_CSV. split; [simpl; auto 6|]. split; [|reflexivity].
    discriminate.
Qed.

(** ** Files are only appended to *)

Lemma extends_refl (t : Csv.table) : extends t t.
Proof. split; [reflexivity|]. exists []. now rewrite app_nil_r. Qed.

Lemma extends_trans (t1 t2 t3 : Csv.table) :
  extends t1 t2 -> extends t2 t3 -> extends t1 t3.
Proof.
  intros [Hh1 [m1 Hr1]] [Hh2 [m2 Hr2]]. split; [congruence|].
  exists (m1 ++ m2). now rewrite Hr2, Hr1, app_assoc.
Qed.

Lemma save_to_csv_extends (d : Py.dict Py.value) (p q : string) (fs : filesystem)
    (t : Csv.table) :
  fs !! q = Some t ->
  exists t', save_to_csv d p fs !! q = Some t' /\ extends t t'.
Proof.
  intros Hq. destruct (decide (p = q)) as [->|Hne].
  - unfold save_to_csv. rewrite Hq, lookup_insert_eq.
    eexists. split; [reflexivity|]. split; [reflexivity|]. now eexists.
  - rewrite save_to_csv_lookup_ne by assumption.
    exists t. split; [assumption | apply extends_refl].
Qed.

Lemma step_extends (w : world) (ea : env * action) (p : string) (t : Csv.table) :
  files w !! p = Some t ->
  exists t', files (step w ea) !! p = Some t' /\ extends t t'.
Proof.
  intros Hp. destruct (step_files w ea) as [-> | (d & q & _ & _ & ->)].
  - exists t. split; [assumption | apply extends_refl].
  - now apply save_to_csv_extends.
Qed.

Lemma step_other_files (w : world) (ea : env * action) (p : string) :
  ~ In p datasets -> files (step w ea) !! p = files w !! p.
Proof.
  intros Hp. destruct (step_files w ea) as [-> | (d & q & Hq & _ & ->)];
    [reflexivity|].
  apply save_to_csv_lookup_ne. intros ->. contradiction.
Qed.

(** X1. Over any sequence of user actions every file that exists stays,
    with its header and with its earlier lines first and in order: no
    record is ever changed, moved or removed.  And no file but the four
    datasets is ever created or touched. *)
Theorem datasets_append_only (w : world) (trace : list (env * action)) :
  (forall p t, files w !! p = Some t ->
     exists t', files (run w trace) !! p = Some t' /\ extends t t')
  /\ (forall p, ~ In p datasets -> files (run w trace) !! p = files w !! p).
Proof.
  revert w. induction trace as [|ea trace IH]; intros w.
  - split; [|reflexivity]. intros p t Hp. exists t. split; [assumption|apply extends_refl].
  - destruct (IH (step w ea)) as [IHold IHother]. split.
    + intros p t Hp.
      destruct (step_extends w ea p t Hp) as (t1 & Hp1 & Hext1).
      destruct (IHold p t1 Hp1) as (t2 & Hp2 & Hext2).
      exists t2. split; [exact Hp2 | now apply extends_trans with t1].
    + intros p Hp. simpl. rewrite IHother by assumption. now apply step_other_files.
Qed.

(** ** Consent rows are counted, not deduplicated *)

Lemma row_count_save (d : Py.dict Py.value) (p : string) (fs : filesystem) :
  row_count p (save_to_csv d p fs) = S (row_count p fs).
Proof. unfold row_count. rewrite dataset_rows_save, length_app. simpl. lia. Qed.

Lemma row_count_save_ne (d : Py.dict Py.value) (p q : string) (fs : filesystem) :
  p <> q -> row_count q (save_to_csv d p fs) = row_count q fs.
Proof. intros Hne. unfold row_count. now rewrite dataset_rows_save_ne. Qed.

Lemma step_consent_count (w : world) (ea : env * action) :
  row_count CONSENT_CSV (files (step w ea))
  = row_count CONSENT_CSV (files w) + (if consent_given_in (snd ea) then 1 else 0).
Proof.
  destruct ea as [e a]. cbn [snd].
  destruct a as [text|on|f|f| | |f|f]; cbn [consent_given_in].
  - cbn. lia.
  - cbn. lia.
  - destruct (step_consent w e f) as (pid & _ & ->).
    destruct (ConsentPage.consent_given f); cbn [files].
    + rewrite row_count_save. lia.
    + cbn. lia.
  - destruct (step_demographics w e f) as (pid & n & _ & _ & ->).
    destruct (consent_missing _ _); cbn [files]; [cbn; lia|].
    rewrite row_count_save_ne by discriminate. lia.
  - cbn. lia.
  - rewrite step_stop.
    destruct (session _ !! "task_start_time") as [t0|]; [|cbn; lia].
    destruct (Py.truthy t0); [|cbn; lia].
    destruct (Py.sub _ t0); cbn; lia.
  - destruct (step_save w e f) as (pid & d & s & _ & _ & _ & ->).
    destruct (consent_missing _ _); [cbn; lia|].
    destruct (TaskPage.duration_seconds _); [|cbn; lia].
    cbn [files]. rewrite row_count_save_ne by discriminate. lia.
  - destruct (step_exit w e f) as (pid & n1 & n2 & n3 & n4 & n5 & _ & _ & ->).
    destruct (consent_missing _ _); cbn [files]; [cbn; lia|].
    rewrite row_count_save_ne by discriminate. lia.
Qed.

Lemma run_consent_count (w : world) (trace : list (env * action)) :
  row_count CONSENT_CSV (files (run w trace))
  = row_count CONSENT_CSV (files w) + consents_given trace.
Proof.
  revert w. induction trace as [|ea trace IH]; intros w.
  - cbn. lia.
  - simpl. rewrite IH, step_consent_count. unfold consents_given.
    rewrite filter_cons. destruct (decide _) as [Hin|Hout].
    + apply Is_true_true in Hin. rewrite Hin. simpl. lia.
    + apply Is_true_false in Hout. rewrite Hout. lia.
Qed.

(** X2. The consent dataset grows by exactly one row for every press
    on "Submit Consent" with the box checked, whoever presses and however
    often (a second consent of the same participant is a second row), and
    by nothing else. *)
Theorem consent_rows_counted (w : world) (trace : list (env * action)) :
  row_count CONSENT_CSV (files (run w trace))
  = row_count CONSENT_CSV (files w) + consents_given trace.
Proof. apply run_consent_count. Qed.

(** ** The session stays well typed, and no handler raises *)

Lemma timer_typed_lookup (ss ss' : session_state) :
  ss' !! "task_start_time" = ss !! "task_start_time" ->
  ss' !! "task_duration" = ss !! "task_duration" ->
  timer_typed ss -> timer_typed ss'.
Proof. unfold timer_typed. now intros -> ->. Qed.

Lemma timer_typed_arrive (e : env) (a : action) (w : world) :
  timer_typed (session w) -> timer_typed (session (arrive e a w)).
Proof. apply timer_typed_lookup; apply arrive_lookup_ne; discriminate. Qed.

Lemma timer_typed_ensure (e : env) (ss : session_state) :
  timer_typed ss -> timer_typed (ensure_participant e ss).
Proof. apply timer_typed_lookup; apply ensure_participant_lookup_ne; discriminate. Qed.

(** With a typed timer the duration of a record is computed without error. *)
Lemma duration_seconds_typed (ss : session_state) :
  timer_typed ss ->
  exists duration,
    TaskPage.duration_seconds (ss_get ss "task_duration" Py.VNone) = inl duration.
Proof.
  intros [_ Hduration]. unfold ss_get.
  destruct (ss !! "task_duration") as [[| | |d| |]|]; try contradiction;
    try (now eexists).
  unfold TaskPage.duration_seconds. destruct (Py.truthy (Py.VFloat d)); now eexists.
Qed.

Lemma step_timer_typed (w : world) (ea : env * action) :
  timer_typed (session w) -> timer_typed (session (step w ea)).
Proof.
  destruct ea as [e a]. intros Hw. apply (timer_typed_arrive e a) in Hw.
  destruct a as [text|on|f|f| | |f|f].
  - exact Hw.
  - exact Hw.
  - destruct (step_consent w e f) as (pid & _ & ->).
    now destruct (ConsentPage.consent_given f).
  - destruct (step_demographics w e f) as (pid & n & _ & _ & ->).
    now destruct (consent_missing _ _).
  - rewrite step_start. split; cbn [session].
    + rewrite lookup_insert_ne by discriminate. now rewrite lookup_insert_eq.
    + now rewrite lookup_insert_eq.
  - rewrite step_stop. pose proof Hw as [Hstart Hduration].
    destruct (session _ !! "task_start_time") as [t0|] eqn:Ht0; [|exact Hw].
    destruct t0; try contradiction.
    destruct (Py.truthy _); [|exact Hw].
    cbn [Py.sub Py.ret]. split; cbn [session].
    + rewrite lookup_insert_ne by discriminate. now rewrite Ht0.
    + now rewrite lookup_insert_eq.
  - destruct (step_save w e f) as (pid & d & s & _ & _ & _ & ->).
    destruct (consent_missing _ _); [exact Hw|].
    destruct (TaskPage.duration_seconds _); [|exact Hw].
    split; cbn [session].
    + rewrite lookup_delete_ne by discriminate. now rewrite lookup_delete_eq.
    + now rewrite lookup_delete_eq.
  - destruct (step_exit w e f) as (pid & n1 & n2 & n3 & n4 & n5 & _ & _ & ->).
    now destruct (consent_missing _ _).
Qed.

Lemma run_timer_typed (trace : list (env * action)) (w : world) :
  timer_typed (session w) -> timer_typed (session (run w trace)).
Proof.
  revert w. induction trace as [|ea trace IH]; intros w Hw; [exact Hw|].
  simpl. apply IH. now apply step_timer_typed.
Qed.

Lemma rerun_returns (e : env) (a : action) (w : world) :
  timer_typed (session w) -> exists w' shown, rerun e a w = inl (w', shown).
Proof.
  intros Hw. apply (timer_typed_arrive e a) in Hw. unfold rerun.
  set (w0 := arrive e a w) in *.
  destruct a as [text|on|f|f| | |f|f].
  - now eexists _, _.
  - now eexists _, _.
  - destruct (consent_submit_spec e f w0) as (pid & _ & ->).
    destruct (ConsentPage.consent_given f); now eexists _, _.
  - destruct (demographics_submit_spec e f w0) as (pid & n & _ & ->).
    destruct (consent_missing _ _); now eexists _, _.
  - now eexists _, _.
  - unfold TaskPage.stop. destruct Hw as [Hstart _].
    destruct (session w0 !! "task_start_time") as [t0|]; [|now eexists _, _].
    destruct t0; try contradiction.
    destruct (Py.truthy _); now eexists _, _.
  - destruct (task_save_spec e f w0) as (pid & d & s & _ & ->).
    destruct (consent_missing _ _); [now eexists _, _|].
    destruct (duration_seconds_typed _ (timer_typed_ensure e _ Hw)) as (duration & ->).
    now eexists _, _.
  - destruct (exit_submit_spec e f w0) as (pid & dd & _ & ->).
    destruct (consent_missing _ _); now eexists _, _.
Qed.

(** X3. In a session that starts in an empty data folder, no sequence
    of user actions ends in a run that raises: every handler returns,
    whatever the widgets hold and in whatever order the buttons are
    pressed (stop before start, save before stop, submissions without
    consent). *)
Theorem no_action_raises (trace : list (env * action)) (e : env) (a : action) :
  exists w' shown, rerun e a (run initial_world trace) = inl (w', shown).
Proof. apply rerun_returns, run_timer_typed. split; exact I. Qed.

(** ** Saving a task and the timer *)

Lemma stop_warns_without_start (e : env) (w : world) :
  session w !! "task_start_time" = None ->
  rerun e StopTaskTimer w
  = inl (arrive e StopTaskTimer w, [st_warning "Timer was not started."]).
Proof.
  intros Hnone. unfold rerun. apply stop_not_started.
  now rewrite arrive_lookup_ne by discriminate.
Qed.

(** X4. A rejected save leaves the timer as it is, so the measurement
    is still there when the participant has consented and saves again.
    An accepted save appends one task row and resets the timer: both
    keys are gone from the session, and a press on stop right after it
    only warns that the timer was not started. *)
Theorem save_resets_timer_when_accepted (w : world) (e : env) (f : TaskPage.form) :
  timer_typed (session w) ->
  forall w', w' = step w (e, SaveTaskResults f) ->
  exists pid,
    session (arrive e (SaveTaskResults f) w) !! "participant_id" = Some pid
    /\ if consent_missing (load_from_csv CONSENT_CSV (files w)) pid then
         files w' = files w
         /\ session w' !! "task_start_time" = session w !! "task_start_time"
         /\ session w' !! "task_duration" = session w !! "task_duration"
       else
         row_count TASK_CSV (files w') = S (row_count TASK_CSV (files w))
         /\ session w' !! "task_start_time" = None
         /\ session w' !! "task_duration" = None
         /\ forall e', rerun e' StopTaskTimer w'
                       = inl (arrive e' StopTaskTimer w',
                              [st_warning "Timer was not started."]).
Proof.
  intros Hw w' ->.
  destruct (step_save w e f) as (pid & d & s & Hpid & _ & _ & ->).
  exists pid. split; [assumption|].
  destruct (consent_missing _ _).
  - split; [reflexivity|]. split; apply arrive_lookup_ne; discriminate.
  - destruct (duration_seconds_typed _ (timer_typed_arrive e (SaveTaskResults f) w Hw))
      as (duration & ->).
    cbn [files session].
    assert (Hstart : delete "task_duration"
                       (delete "task_start_time"
                          (session (arrive e (SaveTaskResults f) w)))
                     !! "task_start_time" = None).
    { rewrite lookup_delete_ne by discriminate. apply lookup_delete_eq. }
    split; [apply row_count_save|]. split; [exact Hstart|].
    split; [apply lookup_delete_eq|].
    intros e'. now apply stop_warns_without_start.
Qed.

(** ** Stop does not consume the start *)

(** X5. Stop keeps the start time.  So a second stop measures again
    from the same start and overwrites the duration: after a start at
    [t0], a stop and another stop at [t2], the duration is [t2 - t0]. *)
Theorem stop_again_measures_from_same_start (w : world) (e1 e2 : env) (t0 : Q) :
  session w !! "task_start_time" = Some (Py.VFloat t0) ->
  ~ (t0 == 0)%Q ->
  session (step w (e1, StopTaskTimer)) !! "task_start_time" = Some (Py.VFloat t0)
  /\ session (step w (e1, StopTaskTimer)) !! "task_duration"
     = Some (Py.VFloat (time_time e1 - t0))
  /\ session (run w [(e1, StopTaskTimer); (e2, StopTaskTimer)]) !! "task_duration"
     = Some (Py.VFloat (time_time e2 - t0)).
Proof.
  intros Hstart Ht0.
  assert (Hone : forall w1 e, session w1 !! "task_start_time" = Some (Py.VFloat t0) ->
            session (step w1 (e, StopTaskTimer)) !! "task_start_time"
            = Some (Py.VFloat t0)
            /\ session (step w1 (e, StopTaskTimer)) !! "task_duration"
               = Some (Py.VFloat (time_time e - t0))).
  { intros w1 e H1. rewrite step_stop.
    rewrite (arrive_lookup_ne e StopTaskTimer w1 "task_start_time") by discriminate.
    rewrite H1, truthy_float by assumption. cbn [Py.sub Py.ret session]. split.
    - rewrite lookup_insert_ne by discriminate.
      now rewrite arrive_lookup_ne by discriminate.
    - apply lookup_insert_eq. }
  destruct (Hone w e1 Hstart) as [Hkept Hfirst].
  split; [assumption|]. split; [assumption|].
  simpl. now apply Hone.
Qed.

(** ** Records exist only for ids with a consent on file *)

Lemma arrive_id (e : env) (a : action) (w : world) :
  id_typed (session w) ->
  exists s, session (arrive e a w) !! "participant_id" = Some (Py.VStr s)
            /\ s <> "".
Proof.
  intros Hw. unfold arrive. cbn [session].
  set (ss := widget_update a (session w)).
  assert (Hss : id_typed ss).
  { unfold ss, id_typed in *. destruct a; cbn [widget_update]; try assumption.
    - now rewrite lookup_insert_eq.
    - now rewrite lookup_insert_ne by discriminate. }
  assert (Hens : exists s, ensure_participant e ss !! "participant_id"
                           = Some (Py.VStr s) /\ s <> "").
  { unfold ensure_participant, id_typed in *.
    destruct (ss !! "participant_id") as [v|] eqn:Hv.
    - destruct v as [| | | |s|]; try contradiction.
      destruct s as [|c s]; cbn [Py.truthy String.eqb negb].
      + rewrite lookup_insert_eq. eexists. split; [reflexivity|discriminate].
      + exists (String c s). split; [assumption|discriminate].
    - rewrite lookup_insert_eq. eexists. split; [reflexivity|discriminate]. }
  destruct Hens as (s & Hs & Hne). exists s. split; [|assumption].
  unfold sidebar. destruct (ensure_participant e ss !! "observer_mode");
    [assumption|]. now rewrite lookup_insert_ne by discriminate.
Qed.

Lemma step_id_lookup (w : world) (e : env) (a : action) :
  session (step w (e, a)) !! "participant_id"
  = session (arrive e a w) !! "participant_id".
Proof.
  destruct a as [text|on|f|f| | |f|f].
  - reflexivity.
  - reflexivity.
  - destruct (step_consent w e f) as (pid & _ & ->).
    now destruct (ConsentPage.consent_given f).
  - destruct (step_demographics w e f) as (pid & n & _ & _ & ->).
    now destruct (consent_missing _ _).
  - rewrite step_start. cbn [session]. now rewrite !lookup_insert_ne by discriminate.
  - rewrite step_stop.
    destruct (session _ !! "task_start_time") as [t0|]; [|reflexivity].
    destruct (Py.truthy t0); [|reflexivity].
    destruct (Py.sub _ t0); [|reflexivity].
    cbn [session]. now rewrite lookup_insert_ne by discriminate.
  - destruct (step_save w e f) as (pid & d & s & _ & _ & _ & ->).
    destruct (consent_missing _ _); [reflexivity|].
    destruct (TaskPage.duration_seconds _); [|reflexivity].
    cbn [session]. now rewrite !lookup_delete_ne by discriminate.
  - destruct (step_exit w e f) as (pid & n1 & n2 & n3 & n4 & n5 & _ & _ & ->).
    now destruct (consent_missing _ _).
Qed.

Lemma step_id_typed (w : world) (ea : env * action) :
  id_typed (session w) -> id_typed (session (step w ea)).
Proof.
  destruct ea as [e a]. intros Hw.
  destruct (arrive_id e a w Hw) as (s & Hs & _).
  unfold id_typed. now rewrite step_id_lookup, Hs.
Qed.

Lemma run_id_typed (trace : list (env * action)) (w : world) :
  id_typed (session w) -> id_typed (session (run w trace)).
Proof.
  revert w. induction trace as [|ea trace IH]; intros w Hw; [exact Hw|].
  simpl. apply IH. now apply step_id_typed.
Qed.

Lemma eqb_VStr (s : string) (v : Py.value) :
  Py.eqb (Py.VStr s) v = true -> v = Py.VStr s.
Proof.
  destruct v; simpl; try discriminate. intros H. apply String.eqb_eq in H. congruence.
Qed.

(** A string in a loaded column is the text of one of its fields. *)
Lemma infer_column_text (fields : list string) (s : string) :
  In (Py.VStr s) (Csv.infer_column fields) -> In s fields.
Proof.
  unfold Csv.infer_column. cbv zeta.
  repeat (match goal with |- context [if forallb ?p ?l then _ else _] =>
                            destruct (forallb p l) end);
    intros Hin; apply in_map_iff in Hin as (x & Hx & Hin).
  - destruct (Csv.parse_int x); discriminate.
  - destruct (Csv.is_na x); [discriminate|]. destruct (Csv.parse_float x); discriminate.
  - destruct (Csv.is_na x); [discriminate|]. destruct (Csv.parse_bool x); discriminate.
  - destruct (Csv.is_na x); [discriminate|]. now injection Hx as <-.
Qed.

(** Who passes the consent check has a consent row on file under that id. *)
Lemma passes_check_on_file (fs : filesystem) (s : string) :
  consent_header_made fs ->
  consent_missing (load_from_csv CONSENT_CSV fs) (Py.VStr s) = false ->
  In s (consented_ids fs).
Proof.
  unfold consent_header_made, consent_missing, load_from_csv, consented_ids,
    dataset_rows.
  intros Hheader Hpass. apply orb_false_iff in Hpass as [_ Hin].
  apply negb_false_iff, in_set_true in Hin as (v & Hv & Heq).
  apply eqb_VStr in Heq. subst v.
  destruct (fs !! CONSENT_CSV) as [t|]; [|contradiction].
  unfold read_csv in Hv. rewrite Hheader in Hv.
  now apply infer_column_text in Hv.
Qed.

Lemma consented_ids_save_other (d : Py.dict Py.value) (p : string) (fs : filesystem) :
  p <> CONSENT_CSV -> consented_ids (save_to_csv d p fs) = consented_ids fs.
Proof. intros Hp. unfold consented_ids. now rewrite dataset_rows_save_ne. Qed.

Lemma consent_header_save (d : Py.dict Py.value) (p : string) (fs : filesystem) :
  (p = CONSENT_CSV ->
   Py.keys d = ["timestamp"; "participant_id"; "consent_given"; "display_name"]) ->
  consent_header_made fs -> consent_header_made (save_to_csv d p fs).
Proof.
  intros Hd Hfs. unfold consent_header_made in *.
  destruct (decide (p = CONSENT_CSV)) as [->|Hne].
  - unfold save_to_csv. destruct (fs !! CONSENT_CSV) as [t|];
      rewrite lookup_insert_eq; cbn [Csv.header]; auto.
  - now rewrite save_to_csv_lookup_ne.
Qed.

Lemma checked_save_integrity (w : world) (d : Py.dict Py.value) (p s : string)
    (ss : session_state) :
  integrity w ->
  In p checked_datasets ->
  nth 1 (map Csv.field (Py.values d)) "" = s ->
  consent_missing (load_from_csv CONSENT_CSV (files w)) (Py.VStr s) = false ->
  id_typed ss ->
  integrity {| session := ss; files := save_to_csv d p (files w) |}.
Proof.
  intros (Hid & Hheader & Hrows) Hp Hfield Hpass Hss.
  assert (Hne : p <> CONSENT_CSV).
  { intros ->. simpl in Hp. destruct Hp as [H|[H|[H|[]]]]; discriminate H. }
  split; [exact Hss|]. cbn [files]. split.
  - apply consent_header_save; [intros ->; congruence | assumption].
  - intros q line Hq Hline. rewrite consented_ids_save_other by assumption.
    destruct (decide (p = q)) as [<-|Hpq].
    + rewrite dataset_rows_save in Hline. apply in_app_or in Hline as [Hold|[<-|[]]].
      * now apply (Hrows p).
      * unfold participant_field. rewrite Hfield.
        now apply passes_check_on_file.
    + rewrite dataset_rows_save_ne in Hline by assumption. now apply (Hrows q).
Qed.

Lemma step_integrity (w : world) (ea : env * action) :
  integrity w -> integrity (step w ea).
Proof.
  intros Hw. pose proof Hw as (Hid & Hheader & Hrows). destruct ea as [e a].
  assert (Hsame : forall w', files w' = files w -> id_typed (session w') ->
                             integrity w').
  { intros w' Hfiles Hid'. split; [assumption|]. now rewrite Hfiles. }
  pose proof (step_id_typed w (e, a) Hid) as Hid'.
  destruct (arrive_id e a w Hid) as (s & Hs & _).
  destruct a as [text|on|f|f| | |f|f].
  - now apply Hsame.
  - now apply Hsame.
  - destruct (step_consent w e f) as (pid & _ & Hstep). rewrite Hstep in *.
    destruct (ConsentPage.consent_given f); [|now apply Hsame].
    split; [exact Hid'|]. cbn [files]. split.
    + now apply consent_header_save.
    + intros q line Hq Hline.
      assert (Hne : CONSENT_CSV <> q).
      { intros <-. simpl in Hq. destruct Hq as [H|[H|[H|[]]]]; discriminate H. }
      rewrite dataset_rows_save_ne in Hline by assumption.
      unfold consented_ids. rewrite dataset_rows_save, map_app.
      apply in_or_app. left. now apply (Hrows q).
  - destruct (step_demographics w e f) as (pid & n & Hpid & _ & Hstep).
    rewrite Hstep in *. rewrite Hs in Hpid. injection Hpid as <-.
    destruct (consent_missing _ _) eqn:Hpass; [now apply Hsame|].
    apply (checked_save_integrity w _ _ s); auto. simpl. auto.
  - now apply Hsame.
  - apply Hsame; [|assumption]. rewrite step_stop.
    destruct (session _ !! "task_start_time") as [t0|]; [|reflexivity].
    destruct (Py.truthy t0); [|reflexivity].
    destruct (Py.sub _ t0); reflexivity.
  - destruct (step_save w e f) as (pid & d & sat & Hpid & _ & _ & Hstep).
    rewrite Hstep in *. rewrite Hs in Hpid. injection Hpid as <-.
    destruct (consent_missing _ _) eqn:Hpass; [now apply Hsame|].
    destruct (TaskPage.duration_seconds _); [|now apply Hsame].
    apply (checked_save_integrity w _ _ s); auto. simpl. auto.
  - destruct (step_exit w e f) as (pid & n1 & n2 & n3 & n4 & n5 & Hpid & _ & Hstep).
    rewrite Hstep in *. rewrite Hs in Hpid. injection Hpid as <-.
    destruct (consent_missing _ _) eqn:Hpass; [now apply Hsame|].
    apply (checked_save_integrity w _ _ s); auto. simpl. auto.
Qed.

Lemma run_integrity (trace : list (env * action)) (w : world) :
  integrity w -> integrity (run w trace).
Proof.
  revert w. induction trace as [|ea trace IH]; intros w Hw; [exact Hw|].
  simpl. apply IH. now apply step_integrity.
Qed.

Lemma integrity_initial : integrity initial_world.
Proof.
  split; [exact I|]. split; [exact I|]. intros p line Hp Hline.
  simpl in Hp. destruct Hp as [<-|[<-|[<-|[]]]]; destruct Hline.
Qed.

(** X6. In a session that starts in an empty data folder, every record
    of the demographic, the task and the exit dataset carries a
    participant id under which a consent row is on file: whatever the
    order of the actions and the edits of the id, no record is written
    for an id that never consented. *)
Theorem records_only_for_consented_ids (trace : list (env * action))
    (p : string) (line : list string) :
  In p checked_datasets ->
  In line (dataset_rows p (files (run initial_world trace))) ->
  In (participant_field line) (consented_ids (files (run initial_world trace))).
Proof.
  intros Hp Hline.
  destruct (run_integrity trace initial_world integrity_initial) as (_ & _ & Hrows).
  now apply (Hrows p).
Qed.

(** ** A participant who consented is let through *)

Lemma arrive_keeps_id (e : env) (a : action) (w : world) :
  (forall text, a <> EditParticipantId text) ->
  participant_set (session w) = true ->
  session (arrive e a w) !! "participant_id" = session w !! "participant_id".
Proof.
  intros Hedit Hset. unfold arrive. cbn [session].
  assert (Hupdate : participant_set (widget_update a (session w)) = true
                    /\ widget_update a (session w) !! "participant_id"
                       = session w !! "participant_id").
  { destruct a; cbn [widget_update]; try (split; [assumption|reflexivity]).
    - now destruct (Hedit text).
    - unfold participant_set.
      rewrite lookup_insert_ne by discriminate. now split. }
  destruct Hupdate as [Hset' <-]. unfold sidebar.
  rewrite ensure_participant_set by assumption.
  destruct (widget_update a (session w) !! "observer_mode"); [reflexivity|].
  now rewrite lookup_insert_ne by discriminate.
Qed.

(** X7. In a session that starts in an empty data folder, once a
    participant has consented under a generated id, the demographic
    form, the task results and the exit questionnaire submitted next are
    each accepted: each appends exactly one row to its dataset. *)
Theorem consented_participant_is_accepted (trace : list (env * action))
    (e1 e2 : env) (f1 : ConsentPage.form) (token : string) :
  ConsentPage.consent_given f1 = true ->
  session (arrive e1 (SubmitConsent f1) (run initial_world trace)) !! "participant_id"
  = Some (Py.VStr ("P-" +:+ token)) ->
  forall w1, w1 = step (run initial_world trace) (e1, SubmitConsent f1) ->
    (forall f, row_count DEMOGRAPHIC_CSV (files (step w1 (e2, SubmitDemographics f)))
               = S (row_count DEMOGRAPHIC_CSV (files w1)))
    /\ (forall f, row_count TASK_CSV (files (step w1 (e2, SaveTaskResults f)))
                  = S (row_count TASK_CSV (files w1)))
    /\ (forall f, row_count EXIT_CSV (files (step w1 (e2, SubmitExit f)))
                  = S (row_count EXIT_CSV (files w1))).
Proof.
  intros Hgiven Hid w1 ->.
  set (w1 := step (run initial_world trace) (e1, SubmitConsent f1)).
  assert (Hseen : consent_missing (load_from_csv CONSENT_CSV (files w1))
                    (Py.VStr ("P-" +:+ token)) = false).
  { apply negb_true_iff. now apply consent_seen_for_generated_id. }
  assert (Hid1 : session w1 !! "participant_id" = Some (Py.VStr ("P-" +:+ token))).
  { unfold w1. now rewrite step_id_lookup. }
  assert (Hset : participant_set (session w1) = true).
  { unfold participant_set. now rewrite Hid1. }
  assert (Htimer : timer_typed (session w1)).
  { apply step_timer_typed, run_timer_typed. split; exact I. }
  assert (Harrive : forall a, (forall text, a <> EditParticipantId text) ->
            session (arrive e2 a w1) !! "participant_id"
            = Some (Py.VStr ("P-" +:+ token))).
  { intros a Ha. now rewrite arrive_keeps_id. }
  split; [|split]; intros f.
  - destruct (step_demographics w1 e2 f) as (pid & n & Hpid & _ & ->).
    rewrite Harrive in Hpid by discriminate. injection Hpid as <-.
    rewrite Hseen. apply row_count_save.
  - destruct (step_save w1 e2 f) as (pid & d & s & Hpid & _ & _ & ->).
    rewrite Harrive in Hpid by discriminate. injection Hpid as <-.
    rewrite Hseen.
    destruct (duration_seconds_typed _
                (timer_typed_arrive e2 (SaveTaskResults f) w1 Htimer))
      as (duration & ->).
    apply row_count_save.
  - destruct (step_exit w1 e2 f) as (pid & n1 & n2 & n3 & n4 & n5 & Hpid & _ & ->).
    rewrite Harrive in Hpid by discriminate. injection Hpid as <-.
    rewrite Hseen. apply row_count_save.
Qed.

(** ** Integers survive the file *)

Lemma digit_of_pretty_N_char (x : N) :
  (x < 10)%N -> Csv.digit_of (pretty_N_char x) = Some (Z.of_N x).
Proof.
  intros Hx.
  assert (Hcases : In x [0; 1; 2; 3; 4; 5; 6; 7; 8; 9]%N) by (simpl; lia).
  simpl in Hcases.
  repeat (destruct Hcases as [<- | Hcases]; [reflexivity|]). contradiction.
Qed.

(** Reading back the digits that [pretty] puts in front of a string. *)
Lemma read_digits_pretty_N_go (x : N) (s : string) :
  exists ds,
    (forall tail rest, Csv.read_digits s = (tail, rest) ->
                       Csv.read_digits (pretty_N_go x s) = (ds ++ tail, rest))
    /\ (forall acc,
          fold_left (fun a d => (a * 10 + d)%Z) ds acc
          = (acc * 10 ^ Z.of_nat (length ds) + Z.of_N x)%Z)
    /\ ((0 < x)%N -> ds <> []).
Proof.
  revert s. induction (N.lt_wf_0 x) as [x _ IH]; intros s.
  assert (x = 0 \/ 0 < x)%N as [->|Hpos] by lia.
  - exists []. rewrite pretty_N_go_0. split; [now intros tail rest ->|].
    split; [intros acc; simpl; lia | lia].
  - rewrite pretty_N_go_step by assumption.
    destruct (IH (x `div` 10)%N (N.div_lt x 10 Hpos eq_refl)
                 (String (pretty_N_char (x `mod` 10)) s))
      as (ds & Hread & Hvalue & _).
    exists (ds ++ [Z.of_N (x `mod` 10)]). split; [|split].
    + intros tail rest Hs. rewrite <- app_assoc. apply Hread.
      cbn [Csv.read_digits].
      rewrite digit_of_pretty_N_char by (apply N.mod_lt; discriminate).
      now rewrite Hs.
    + intros acc. rewrite fold_left_app, Hvalue. cbn [fold_left].
      rewrite length_app, Nat2Z.inj_add. cbn [length].
      rewrite Z.pow_add_r by lia.
      rewrite (N.div_mod x 10) at 3 by discriminate.
      rewrite N2Z.inj_add, N2Z.inj_mul. change (Z.of_N 10) with 10%Z.
      change (10 ^ Z.of_nat 1)%Z with 10%Z. lia.
    + intros _. now destruct ds.
Qed.

Lemma read_sign_digit (s : string) (d : Z) (ds : list Z) (rest : string) :
  Csv.read_digits s = (d :: ds, rest) -> Csv.read_sign s = (false, s).
Proof.
  destruct s as [|c s]; [discriminate|].
  cbn [Csv.read_digits]. destruct (Csv.digit_of c) eqn:Hc; [|discriminate].
  intros _. destruct c as [[] [] [] [] [] [] [] []]; try discriminate Hc; reflexivity.
Qed.

Lemma parse_int_pretty_N (x : N) :
  (0 < x)%N -> Csv.parse_int (pretty_N_go x "") = Some (Z.of_N x).
Proof.
  intros Hpos.
  destruct (read_digits_pretty_N_go x "") as (ds & Hread & Hvalue & Hne).
  specialize (Hread [] "" eq_refl). rewrite app_nil_r in Hread.
  destruct ds as [|d ds]; [now destruct (Hne Hpos)|].
  unfold Csv.parse_int. rewrite (read_sign_digit _ _ _ _ Hread), Hread.
  unfold Csv.digits_value. rewrite Hvalue. cbn [Csv.signed]. f_equal; lia.
Qed.

Lemma parse_int_pretty (z : Z) : Csv.parse_int (pretty z) = Some z.
Proof.
  destruct z as [|p|p]; [reflexivity| |].
  - change (pretty (Z.pos p)) with (pretty_N_go (N.pos p) "").
    now rewrite parse_int_pretty_N.
  - change (pretty (Z.neg p))
      with (String "-"%char (pretty_N_go (N.pos p) "")).
    destruct (read_digits_pretty_N_go (N.pos p) "") as (ds & Hread & Hvalue & Hne).
    specialize (Hread [] "" eq_refl). rewrite app_nil_r in Hread.
    destruct ds as [|d ds]; [now destruct Hne|].
    unfold Csv.parse_int. cbn [Csv.read_sign]. rewrite Hread.
    unfold Csv.digits_value. rewrite Hvalue. cbn [Csv.signed]. f_equal; lia.
Qed.

Lemma infer_column_ints (zs : list Z) :
  Csv.infer_column (map (fun z => Csv.field (Py.VInt z)) zs) = map Py.VInt zs.
Proof.
  unfold Csv.infer_column. cbv zeta.
  assert (Hall : forallb (fun s => Csv.is_some (Csv.parse_int s))
                   (map (fun z => Csv.field (Py.VInt z)) zs) = true).
  { apply forallb_forall. intros s Hs. apply in_map_iff in Hs as (z & <- & _).
    cbn [Csv.field]. now rewrite parse_int_pretty. }
  rewrite Hall, map_map. apply map_ext. intros z. cbn [Csv.field].
  now rewrite parse_int_pretty.
Qed.

(** ** Saving, then loading *)

Lemma save_all_existing (records : list (Py.dict Py.value)) (p : string)
    (fs : filesystem) (t : Csv.table) :
  fs !! p = Some t ->
  save_all records p fs !! p
  = Some {| Csv.header := Csv.header t;
            Csv.rows := Csv.rows t ++ map csv_line records |}.
Proof.
  revert fs t. induction records as [|d records IH]; intros fs t Hp.
  - simpl. rewrite app_nil_r. now destruct t.
  - cbn [save_all fold_left]. fold (save_all records p (save_to_csv d p fs)).
    erewrite IH.
    2:{ unfold save_to_csv. rewrite Hp. apply lookup_insert_eq. }
    cbn [Csv.header Csv.rows map]. now rewrite <- app_assoc.
Qed.

Lemma save_all_new (d : Py.dict Py.value) (records : list (Py.dict Py.value))
    (p : string) (fs : filesystem) :
  fs !! p = None ->
  save_all (d :: records) p fs !! p
  = Some {| Csv.header := Py.keys d; Csv.rows := map csv_line (d :: records) |}.
Proof.
  intros Hp. cbn [save_all fold_left]. fold (save_all records p (save_to_csv d p fs)).
  erewrite save_all_existing.
  2:{ unfold save_to_csv. rewrite Hp. apply lookup_insert_eq. }
  reflexivity.
Qed.

Lemma keys_imap {V} (F : nat -> string -> string * V) (names : list string) :
  (forall i name, fst (F i name) = name) -> map fst (imap F names) = names.
Proof.
  revert F. induction names as [|h hs IH]; intros F HF; [reflexivity|].
  cbn [imap map]. rewrite HF. f_equal. apply IH. intros i name. apply HF.
Qed.

Lemma keys_read_csv (t : Csv.table) : Py.keys (read_csv t) = Csv.header t.
Proof. unfold read_csv, Py.keys. now apply keys_imap. Qed.

Lemma columns_read_csv (t : Csv.table) :
  Forall (fun column => length (snd column) = length (Csv.rows t)) (read_csv t).
Proof.
  unfold read_csv. apply Forall_forall. intros [name col] Hin.
  apply list_elem_of_lookup in Hin as (i & Hi).
  rewrite list_lookup_imap in Hi.
  destruct (Csv.header t !! i); [|discriminate]. injection Hi as <- <-.
  cbn [snd]. now rewrite length_infer_column, length_map.
Qed.

Lemma get_imap (F : nat -> list Py.value) (header : list string) (k : string)
    (i : nat) :
  NoDup header -> header !! i = Some k ->
  Py.get (imap (fun j name => (name, F j)) header) k = Some (F i).
Proof.
  revert F i. induction header as [|h hs IH]; intros F i Hnd Hi; [discriminate|].
  apply NoDup_cons in Hnd as [Hh Hnd]. cbn [imap Py.get].
  destruct i as [|i]; cbn in Hi.
  - injection Hi as ->. now rewrite String.eqb_refl.
  - destruct (String.eqb_spec h k) as [->|Hne].
    + exfalso. apply Hh. now apply list_elem_of_lookup_2 in Hi.
    + apply (IH (fun j => F (S j)) i Hnd Hi).
Qed.


(** Where a record keeps the value of a key, its line keeps the field. *)
Lemma csv_line_field (d : Py.dict Py.value) (k : string) (v : Py.value) (i : nat) :
  NoDup (Py.keys d) -> Py.keys d !! i = Some k -> Py.get d k = Some v ->
  nth i (csv_line d) "" = Csv.field v.
Proof.
  revert i. induction d as [|[k' v'] d IH]; intros i Hnd Hi Hget; [discriminate|].
  cbn [Py.keys map fst] in Hnd, Hi. apply NoDup_cons in Hnd as [Hk Hnd].
  cbn [Py.get] in Hget. destruct i as [|i]; cbn in Hi.
  - injection Hi as ->. rewrite String.eqb_refl in Hget. now injection Hget as ->.
  - destruct (String.eqb_spec k' k) as [->|Hne].
    + exfalso. apply Hk. now apply list_elem_of_lookup_2 in Hi.
    + cbn. now apply IH.
Qed.

Lemma get_Some_key {V} (d : Py.dict V) (k : string) (v : V) :
  Py.get d k = Some v -> exists i, Py.keys d !! i = Some k.
Proof.
  intros Hget. apply list_elem_of_lookup.
  destruct (decide (k ∈ Py.keys d)) as [Hin|Hout]; [assumption|].
  apply get_None in Hout. congruence.
Qed.



(** ** Rounding a duration *)

Lemma round_half_even_error (q : Q) :
  (q - (1 # 2) <= inject_Z (Py.round_half_even q) <= q + (1 # 2))%Q.
Proof.
  unfold Py.round_half_even.
  pose proof (Qfloor_le q) as Hlow. pose proof (Qlt_floor q) as Hhigh.
  rewrite inject_Z_plus in Hhigh. change (inject_Z 1) with 1%Q in Hhigh.
  destruct (q - inject_Z (Qfloor q) ?= 1 # 2)%Q eqn:Hcmp.
  - apply Qeq_alt in Hcmp.
    destruct (Z.even (Qfloor q)); [|rewrite inject_Z_plus; change (inject_Z 1) with 1%Q];
      lra.
  - apply Qlt_alt in Hcmp. lra.
  - apply Qgt_alt in Hcmp. rewrite inject_Z_plus. change (inject_Z 1) with 1%Q. lra.
Qed.

Lemma round_float_3 (q : Q) :
  (Py.round_float q 3 == inject_Z (Py.round_half_even (q * 1000)) * (1 # 1000))%Q.
Proof.
  unfold Py.round_float. rewrite Qred_correct.
  change (inject_Z (10 ^ Z.of_nat 3)) with 1000%Q. field.
Qed.

(** X9. The duration a task record gets, when one was measured and is
    not zero, is the measured one rounded to the millisecond: a multiple
    of 0.001 that is off by at most 0.0005. *)
Theorem stored_duration_rounded (d : Q) :
  ~ (d == 0)%Q ->
  exists r k,
    TaskPage.duration_seconds (Py.VFloat d) = inl (Py.VFloat r)
    /\ (r == inject_Z k * (1 # 1000))%Q
    /\ (d - (1 # 2000) <= r <= d + (1 # 2000))%Q.
Proof.
  intros Hd. exists (Py.round_float d 3), (Py.round_half_even (d * 1000)).
  split; [now apply duration_seconds_measured|].
  split; [apply round_float_3|].
  rewrite round_float_3. pose proof (round_half_even_error (d * 1000)). lra.
Qed.

(** ** Rounded durations survive the file *)

Lemma round_half_even_of_integer (q : Q) (m : Z) :
  (q == inject_Z m)%Q -> Py.round_half_even q = m.
Proof.
  intros Hq. unfold Py.round_half_even.
  rewrite (Qfloor_comp _ _ Hq), Qfloor_Z.
  assert (Hcmp : (q - inject_Z m ?= 1 # 2)%Q = Lt).
  { apply Qlt_alt. rewrite Hq. setoid_replace (inject_Z m - inject_Z m)%Q with 0%Q using relation Qeq by ring.
    reflexivity. }
  now rewrite Hcmp.
Qed.

Lemma pretty_N_go_append (x : N) (s s' : string) :
  pretty_N_go x s +:+ s' = pretty_N_go x (s +:+ s').
Proof.
  revert s. induction (N.lt_wf_0 x) as [x _ IH]; intros s.
  assert (x = 0 \/ 0 < x)%N as [->|Hpos] by lia.
  - now rewrite !pretty_N_go_0.
  - rewrite (pretty_N_go_step x s), (pretty_N_go_step x (s +:+ s')) by assumption.
    rewrite IH by (apply N.div_lt; [assumption|reflexivity]). reflexivity.
Qed.

(** The digits of a natural number in front of something that is no digit. *)
Lemma read_digits_pretty (n : Z) (rest : string) :
  (0 <= n)%Z -> Csv.read_digits rest = ([], rest) ->
  exists ds,
    ds <> []
    /\ Csv.read_digits (pretty n +:+ rest) = (ds, rest)
    /\ forall acc, fold_left (fun a d => (a * 10 + d)%Z) ds acc
                   = (acc * 10 ^ Z.of_nat (length ds) + n)%Z.
Proof.
  intros Hn Hrest. destruct n as [|p|p]; [| |lia].
  - exists [0%Z]. split; [discriminate|]. split.
    + change (pretty 0%Z +:+ rest) with (String "0"%char rest).
      cbn [Csv.read_digits]. change (Csv.digit_of "0") with (Some 0%Z).
      now rewrite Hrest.
    + intros acc. cbn. lia.
  - change (pretty (Z.pos p)) with (pretty_N_go (N.pos p) "").
    rewrite pretty_N_go_append. cbn [String.append].
    destruct (read_digits_pretty_N_go (N.pos p) rest) as (ds & Hread & Hvalue & Hne).
    exists ds. split; [now apply Hne|]. split.
    + change ("" +:+ rest) with rest.
      rewrite (Hread [] rest Hrest). now rewrite app_nil_r.
    + exact Hvalue.
Qed.

Lemma pretty_digit (d : Z) :
  (0 <= d < 10)%Z ->
  exists c, pretty d = String c "" /\ Csv.digit_of c = Some d.
Proof.
  intros Hd.
  assert (Hcases : In d [0; 1; 2; 3; 4; 5; 6; 7; 8; 9]%Z) by (simpl; lia).
  simpl in Hcases.
  repeat (destruct Hcases as [<- | Hcases]; [eexists; split; reflexivity|]).
  contradiction.
Qed.

Lemma Qdiv_integers (x y c d : Z) :
  (0 < c)%Z -> (0 < d)%Z -> (x * d = y * c)%Z ->
  (inject_Z x / inject_Z c == inject_Z y / inject_Z d)%Q.
Proof.
  intros Hc Hd Heq.
  assert (Hc' : ~ (inject_Z c == 0)%Q).
  { intros H. apply (inject_Z_injective c 0) in H. lia. }
  assert (Hd' : ~ (inject_Z d == 0)%Q).
  { intros H. apply (inject_Z_injective d 0) in H. lia. }
  apply (Qmult_inj_r _ _ (inject_Z c * inject_Z d)).
  { intros H. apply Qmult_integral in H. tauto. }
  transitivity (inject_Z (x * d)); [rewrite inject_Z_mult; now field|].
  rewrite Heq, inject_Z_mult. now field.
Qed.

(** How the text of a float with at most three decimals is read: a
    sign, digits, a point, digits, and the value they denote. *)
Lemma repr_float_read (q : Q) :
  exists neg body ip frac fp,
    Csv.read_sign (Csv.repr_float (Py.round_float q 3)) = (neg, body)
    /\ Csv.read_digits body = (ip, String "."%char frac)
    /\ Csv.read_digits frac = (fp, "")
    /\ match ip ++ fp with
       | [] => None
       | _ :: _ =>
           Some (Qred (inject_Z (Csv.signed neg (Csv.digits_value (ip ++ fp)))
                       / inject_Z (10 ^ Z.of_nat (length fp))))
       end = Some (Py.round_float q 3).
Proof.
  set (m := Py.round_half_even (q * 1000)).
  assert (Hm : Py.round_half_even (Py.round_float q 3 * 1000) = m).
  { apply round_half_even_of_integer. rewrite round_float_3. fold m. field. }
  assert (Hr : Py.round_float q 3 = Qred (inject_Z m / inject_Z 1000)) by reflexivity.
  unfold Csv.repr_float. cbv zeta. rewrite Hm, Hr. clear Hm Hr.
  set (a := Z.abs m). set (f := (a mod 1000)%Z).
  set (d1 := (f / 100)%Z). set (d2 := ((f / 10) mod 10)%Z). set (d3 := (f mod 10)%Z).
  assert (Hf : (0 <= f < 1000)%Z) by (apply Z.mod_pos_bound; lia).
  assert (Hd1 : (0 <= d1 < 10)%Z) by (unfold d1; Z.div_mod_to_equations; lia).
  assert (Hd2 : (0 <= d2 < 10)%Z) by (unfold d2; Z.div_mod_to_equations; lia).
  assert (Hd3 : (0 <= d3 < 10)%Z) by (unfold d3; Z.div_mod_to_equations; lia).
  assert (Hsum : (f = 100 * d1 + 10 * d2 + d3)%Z)
    by (unfold d1, d2, d3; Z.div_mod_to_equations; lia).
  assert (Ha : (a = 1000 * (a / 1000) + f)%Z)
    by (unfold f; Z.div_mod_to_equations; lia).
  assert (Hquot : (0 <= a / 1000)%Z) by (apply Z.div_pos; lia).
  destruct (pretty_digit d1 Hd1) as (c1 & -> & Hc1).
  destruct (pretty_digit d2 Hd2) as (c2 & -> & Hc2).
  destruct (pretty_digit d3 Hd3) as (c3 & -> & Hc3).
  set (frac := if negb (d3 =? 0)%Z then String c1 (String c2 (String c3 ""))
               else if negb (d2 =? 0)%Z then String c1 (String c2 "")
               else String c1 "").
  change (if negb (d3 =? 0)%Z
          then String c1 "" +:+ String c2 "" +:+ String c3 ""
          else if negb (d2 =? 0)%Z then String c1 "" +:+ String c2 ""
               else String c1 "") with frac.
  assert (Hfrac : exists fp,
             Csv.read_digits frac = (fp, "") /\ fp <> []
             /\ (fold_left (fun x d => (x * 10 + d)%Z) fp (a / 1000)
                 * 1000 = a * 10 ^ Z.of_nat (length fp))%Z).
  { unfold frac.
    destruct (d3 =? 0)%Z eqn:H3; [destruct (d2 =? 0)%Z eqn:H2|]; cbn [negb].
    - exists [d1]. cbn [Csv.read_digits]. rewrite Hc1.
      split; [reflexivity|]. split; [discriminate|].
      apply Z.eqb_eq in H3, H2. cbn. lia.
    - exists [d1; d2]. cbn [Csv.read_digits]. rewrite Hc1, Hc2.
      split; [reflexivity|]. split; [discriminate|].
      apply Z.eqb_eq in H3. cbn. lia.
    - exists [d1; d2; d3]. cbn [Csv.read_digits]. rewrite Hc1, Hc2, Hc3.
      split; [reflexivity|]. split; [discriminate|]. cbn. lia. }
  destruct Hfrac as (fp & Hfp & Hfpne & Hvalue).
  destruct (read_digits_pretty (a / 1000) ("." +:+ frac) Hquot eq_refl)
    as (ip & Hipne & Hip & Hipvalue).
  assert (Hdigits : (Csv.digits_value (ip ++ fp) * 1000
                     = a * 10 ^ Z.of_nat (length fp))%Z).
  { unfold Csv.digits_value. rewrite fold_left_app, Hipvalue.
    now rewrite Z.mul_0_l, Z.add_0_l. }
  assert (Hpow : (0 < 10 ^ Z.of_nat (length fp))%Z) by (apply Z.pow_pos_nonneg; lia).
  assert (Hresult : forall neg, Csv.signed neg a = m ->
            match ip ++ fp with
            | [] => None
            | _ :: _ =>
                Some (Qred (inject_Z (Csv.signed neg (Csv.digits_value (ip ++ fp)))
                            / inject_Z (10 ^ Z.of_nat (length fp))))
            end = Some (Qred (inject_Z m / inject_Z 1000))).
  { intros neg Hneg. destruct (ip ++ fp) eqn:Hall.
    - apply app_eq_nil in Hall as [-> _]. congruence.
    - f_equal. apply Qred_complete. apply Qdiv_integers; [assumption|lia|].
      rewrite <- Hneg. destruct neg; cbn [Csv.signed]; lia. }
  destruct (m <? 0)%Z eqn:Hsign.
  - apply Z.ltb_lt in Hsign.
    change ("-" +:+ pretty (a / 1000)%Z +:+ "." +:+ frac)
      with (String "-"%char (pretty (a / 1000)%Z +:+ "." +:+ frac)).
    exists true, (pretty (a / 1000)%Z +:+ "." +:+ frac), ip, frac, fp.
    split; [reflexivity|]. split; [exact Hip|]. split; [exact Hfp|].
    apply Hresult. cbn [Csv.signed]. unfold a. lia.
  - apply Z.ltb_ge in Hsign.
    change ("" +:+ pretty (a / 1000)%Z +:+ "." +:+ frac)
      with (pretty (a / 1000)%Z +:+ "." +:+ frac).
    exists false, (pretty (a / 1000)%Z +:+ "." +:+ frac), ip, frac, fp.
    split.
    { destruct ip as [|i0 ip]; [congruence|]. exact (read_sign_digit _ _ _ _ Hip). }
    split; [exact Hip|]. split; [exact Hfp|].
    apply Hresult. cbn [Csv.signed]. unfold a. lia.
Qed.

(** The text of a float with at most three decimals reads back as it,
    and is no integer literal and no missing value. *)
Lemma parse_float_repr (q : Q) :
  Csv.parse_float (Csv.repr_float (Py.round_float q 3)) = Some (Py.round_float q 3).
Proof.
  destruct (repr_float_read q) as (neg & body & ip & frac & fp & Hs & Hip & Hfp & Hv).
  unfold Csv.parse_float. rewrite Hs, Hip. cbn iota. now rewrite Hfp.
Qed.

Lemma parse_int_repr (q : Q) :
  Csv.parse_int (Csv.repr_float (Py.round_float q 3)) = None.
Proof.
  destruct (repr_float_read q) as (neg & body & ip & frac & fp & Hs & Hip & _).
  unfold Csv.parse_int. rewrite Hs, Hip. now destruct ip.
Qed.

Lemma is_na_no_number (s : string) : Csv.is_na s = true -> Csv.parse_float s = None.
Proof.
  unfold Csv.is_na. intros Hna. apply existsb_exists in Hna as (x & Hx & Heq).
  apply String.eqb_eq in Heq. subst x. simpl in Hx.
  repeat (destruct Hx as [<- | Hx]; [reflexivity|]). contradiction.
Qed.

Lemma is_na_repr (q : Q) : Csv.is_na (Csv.repr_float (Py.round_float q 3)) = false.
Proof.
  destruct (Csv.is_na _) eqn:Hna; [|reflexivity].
  apply is_na_no_number in Hna. now rewrite parse_float_repr in Hna.
Qed.

(** ** Columns of a dataset made of records *)

Lemma load_saved_entries {X} (record : X -> Py.dict Py.value) (x : X) (xs : list X)
    (p : string) :
  load_from_csv p (save_all (map record (x :: xs)) p ∅)
  = read_csv {| Csv.header := Py.keys (record x);
                Csv.rows := map csv_line (map record (x :: xs)) |}.
Proof.
  unfold load_from_csv. cbn [map].
  now rewrite save_all_new by apply lookup_empty.
Qed.

Lemma load_saved_nothing (p : string) : load_from_csv p (save_all [] p ∅) = empty_frame.
Proof. unfold load_from_csv. cbn. now rewrite lookup_empty. Qed.

Lemma load_from_csv_lookup (p : string) (fs fs' : filesystem) :
  fs !! p = fs' !! p -> load_from_csv p fs = load_from_csv p fs'.
Proof. unfold load_from_csv. now intros ->. Qed.

Lemma fields_of_records (d : Py.dict Py.value)
    (records : list (Py.dict Py.value)) (k : string) (i : nat) (vs : list Py.value) :
  NoDup (Py.keys d) -> Py.keys d !! i = Some k ->
  Forall (fun d' => Py.keys d' = Py.keys d) records ->
  map (fun d' => Py.get d' k) records = map Some vs ->
  map (fun d' => nth i (csv_line d') "") records = map Csv.field vs.
Proof.
  intros Hnd Hi Hkeys. revert vs.
  induction Hkeys as [|d' records Hd' _ IH]; intros [|v vs] Hvalues;
    try discriminate; [reflexivity|].
  cbn [map] in *. injection Hvalues as Hget Hrest. f_equal; [|now apply IH].
  apply (csv_line_field d' k); [now rewrite Hd' | now rewrite Hd' | assumption].
Qed.

(** The column a key has in the frame loaded from a file of records
    that all have the same keys: the fields of the values under the
    key, typed as a whole. *)
Lemma get_records_column {X} (record : X -> Py.dict Py.value) (value : X -> Py.value)
    (x : X) (xs : list X) (k : string) :
  NoDup (Py.keys (record x)) ->
  (forall y, Py.keys (record y) = Py.keys (record x)) ->
  (forall y, Py.get (record y) k = Some (value y)) ->
  Py.get (read_csv {| Csv.header := Py.keys (record x);
                      Csv.rows := map csv_line (map record (x :: xs)) |}) k
  = Some (Csv.infer_column (map (fun y => Csv.field (value y)) (x :: xs))).
Proof.
  intros Hnd Hkeys Hvalue.
  destruct (get_Some_key (record x) k _ (Hvalue x)) as (i & Hi).
  unfold read_csv. cbn [Csv.header Csv.rows].
  rewrite (get_imap (fun j => Csv.infer_column
                                (map (fun line => nth j line "")
                                   (map csv_line (map record (x :: xs)))))
             _ k i Hnd Hi).
  f_equal. f_equal. rewrite !map_map.
  apply map_ext. intros y.
  apply (csv_line_field (record y) k); rewrite ?Hkeys; auto.
Qed.

Lemma has_column_read_csv (t : Csv.table) (k : string) :
  Sections.has_column (read_csv t) k = existsb (String.eqb k) (Csv.header t).
Proof. unfold Sections.has_column. now rewrite keys_read_csv. Qed.

Lemma df_len_read_csv (t : Csv.table) :
  Csv.header t <> [] -> df_len (read_csv t) = length (Csv.rows t).
Proof.
  intros Hheader. pose proof (keys_read_csv t) as Hk.
  pose proof (columns_read_csv t) as Hcols.
  destruct (read_csv t) as [|[name col] frame].
  - now destruct (Csv.header t).
  - apply Forall_cons in Hcols as [Hcol _]. exact Hcol.
Qed.

Lemma df_empty_read_csv (t : Csv.table) :
  Csv.header t <> [] -> df_empty (read_csv t) = (length (Csv.rows t) =? 0)%nat.
Proof.
  intros Hheader. pose proof (keys_read_csv t) as Hk.
  pose proof (columns_read_csv t) as Hcols.
  destruct (read_csv t) as [|[name col] frame].
  - now destruct (Csv.header t).
  - apply Forall_cons in Hcols as [Hcol _]. cbn in *. now rewrite Hcol.
Qed.

(** ** How columns are typed *)

(** Durations: the empty marker comes back as NaN, a rounded
    measurement as the number it is. *)
Lemma infer_column_durations (os : list (option Q)) :
  Csv.infer_column (map (fun o => Csv.field (saved_duration o)) os)
  = map loaded_duration os.
Proof.
  destruct os as [|o os]; [reflexivity|].
  set (fields := map (fun o => Csv.field (saved_duration o)) (o :: os)).
  assert (Hint : forallb (fun s => Csv.is_some (Csv.parse_int s)) fields = false).
  { unfold fields. cbn [map forallb]. destruct o as [d|]; cbn [saved_duration Csv.field].
    - now rewrite parse_int_repr.
    - reflexivity. }
  assert (Hfloat : forallb (fun s => Csv.is_some (Csv.parse_float s))
                     (filter (fun s => negb (Csv.is_na s)) fields) = true).
  { apply forallb_forall. intros s Hs.
    apply list_elem_of_In, list_elem_of_filter in Hs as [Hna Hs].
    apply list_elem_of_In, in_map_iff in Hs as ([d|] & <- & _);
      cbn [saved_duration Csv.field] in *.
    - now rewrite parse_float_repr.
    - now destruct Hna. }
  unfold Csv.infer_column. cbv zeta. fold fields. rewrite Hint, Hfloat.
  unfold fields. rewrite map_map. apply map_ext. intros [d|];
    cbn [saved_duration loaded_duration Csv.field].
  - now rewrite is_na_repr, parse_float_repr.
  - reflexivity.
Qed.

(** Text: a column of plain text comes back as it is. *)
Lemma infer_column_texts (ss : list string) :
  Forall (fun s => Csv.plain_text s = true) ss ->
  Csv.infer_column ss = map Py.VStr ss.
Proof.
  intros Hplain. destruct ss as [|s ss]; [reflexivity|].
  assert (Hall : forall s', In s' (s :: ss) ->
            Csv.is_na s' = false /\ Csv.parse_int s' = None
            /\ Csv.parse_float s' = None /\ Csv.parse_bool s' = None).
  { intros s' Hin. rewrite Forall_forall in Hplain.
    specialize (Hplain s' (proj2 (list_elem_of_In _ _) Hin)).
    unfold Csv.plain_text in Hplain.
    rewrite !andb_true_iff, !negb_true_iff in Hplain.
    destruct Hplain as [[[Hna Hint] Hfloat] Hbool].
    repeat split; [assumption| | |].
    - now destruct (Csv.parse_int s').
    - now destruct (Csv.parse_float s').
    - now destruct (Csv.parse_bool s'). }
  assert (Hfirst : In s (s :: ss)) by now left.
  destruct (Hall s Hfirst) as (Hna & Hint & Hfloat & Hbool).
  assert (Hpresent : In s (filter (fun s => negb (Csv.is_na s)) (s :: ss))).
  { apply list_elem_of_In, list_elem_of_filter. split.
    - rewrite Hna. exact I.
    - now apply list_elem_of_In. }
  unfold Csv.infer_column. cbv zeta.
  rewrite (forallb_false_In _ s (s :: ss) Hfirst) by now rewrite Hint.
  rewrite (forallb_false_In _ s _ Hpresent) by now rewrite Hfloat.
  rewrite (forallb_false_In _ s _ Hpresent) by now rewrite Hbool.
  apply map_ext_in. intros s' Hin. now destruct (Hall s' Hin) as (-> & _).
Qed.

Lemma selectbox_In (options : list string) (choice : nat) :
  options <> [] -> In (selectbox options choice) options.
Proof.
  intros Hne. unfold selectbox.
  destruct (nth_in_or_default choice options (hd "" options)) as [Hin| ->];
    [assumption|].
  destruct options; [congruence|now left].
Qed.

Lemma task_name_plain (choice : nat) :
  Csv.plain_text (selectbox task_names choice) = true.
Proof.
  pose proof (selectbox_In task_names choice) as Hin.
  destruct Hin as [<-|[<-|[<-|[]]]]; [discriminate|reflexivity..].
Qed.

Lemma outcome_plain (choice : nat) :
  Csv.plain_text (selectbox TASK_SUCCESS_OPTIONS choice) = true.
Proof.
  pose proof (selectbox_In TASK_SUCCESS_OPTIONS choice) as Hin.
  destruct Hin as [<-|[<-|[<-|[<-|[]]]]]; [discriminate|reflexivity..].
Qed.

(** ** What a session leaves in the datasets *)

Lemma save_all_snoc (records : list (Py.dict Py.value)) (d : Py.dict Py.value)
    (p : string) (fs : filesystem) :
  save_all (records ++ [d]) p fs = save_to_csv d p (save_all records p fs).
Proof. unfold save_all. now rewrite fold_left_app. Qed.

Lemma save_to_csv_lookup (d : Py.dict Py.value) (p : string) (fs fs' : filesystem) :
  fs !! p = fs' !! p -> save_to_csv d p fs !! p = save_to_csv d p fs' !! p.
Proof.
  intros Heq. unfold save_to_csv. rewrite Heq.
  destruct (fs' !! p); now rewrite !lookup_insert_eq.
Qed.

Lemma dataset_of_save {X} (record : X -> Py.dict Py.value) (ok : X -> Prop)
    (p : string) (x : X) (fs : filesystem) :
  ok x -> dataset_of record ok p fs ->
  dataset_of record ok p (save_to_csv (record x) p fs).
Proof.
  intros Hx (entries & Hok & Hfile). exists (entries ++ [x]). split.
  - apply Forall_app. split; [assumption|]. now constructor.
  - rewrite map_app. cbn [map]. rewrite save_all_snoc. now apply save_to_csv_lookup.
Qed.

Lemma dataset_of_save_ne {X} (record : X -> Py.dict Py.value) (ok : X -> Prop)
    (p q : string) (d : Py.dict Py.value) (fs : filesystem) :
  q <> p -> dataset_of record ok p fs -> dataset_of record ok p (save_to_csv d q fs).
Proof.
  intros Hne (entries & Hok & Hfile). exists entries. split; [assumption|].
  now rewrite save_to_csv_lookup_ne.
Qed.

Lemma dataset_of_empty {X} (record : X -> Py.dict Py.value) (ok : X -> Prop)
    (p : string) :
  dataset_of record ok p ∅.
Proof. exists []. split; [constructor|reflexivity]. Qed.

(** With a typed timer, the duration of the record is the rounded
    measurement when there is one that is not zero, the empty marker
    otherwise. *)
Lemma duration_seconds_saved (ss : session_state) :
  timer_typed ss ->
  TaskPage.duration_seconds (ss_get ss "task_duration" Py.VNone)
  = inl (saved_duration (measured_in ss)).
Proof.
  intros [_ Hduration]. unfold ss_get, measured_in.
  destruct (ss !! "task_duration") as [[| | |d| |]|]; try contradiction;
    try reflexivity.
  unfold TaskPage.duration_seconds. cbn [Py.truthy].
  now destruct (Qeq_bool d 0).
Qed.

Lemma measured_in_arrive (e : env) (a : action) (w : world) :
  measured_in (session (arrive e a w)) = measured_in (session w).
Proof. unfold measured_in. now rewrite arrive_lookup_ne by discriminate. Qed.

(** What a press on "Save Task Results" leaves in the files, with a
    typed timer. *)
Lemma step_save_files (w : world) (e : env) (f : TaskPage.form) :
  timer_typed (session w) ->
  exists pid difficulty satisfaction,
    session (arrive e (SaveTaskResults f) w) !! "participant_id" = Some pid
    /\ (1 <= difficulty <= 5)%Z /\ (1 <= satisfaction <= 5)%Z
    /\ files (step w (e, SaveTaskResults f))
       = if consent_missing (load_from_csv CONSENT_CSV (files w)) pid
         then files w
         else save_to_csv
                (TaskPage.data_dict e pid f (saved_duration (measured_in (session w)))
                   difficulty satisfaction)
                TASK_CSV (files w).
Proof.
  intros Htimer.
  destruct (step_save w e f) as (pid & d & sat & Hpid & Hd & Hsat & Hstep).
  exists pid, d, sat. repeat (split; [assumption|]).
  rewrite Hstep.
  destruct (consent_missing _ _); [reflexivity|].
  rewrite (duration_seconds_saved _ (timer_typed_arrive e (SaveTaskResults f) w Htimer)).
  now rewrite measured_in_arrive.
Qed.

Lemma step_records_kept (w : world) (ea : env * action) :
  records_kept w -> records_kept (step w ea).
Proof.
  intros Hw. pose proof Hw as (Htimer & Hdemo & Htask & Hexit). destruct ea as [e a].
  pose proof (step_timer_typed w (e, a) Htimer) as Htimer'.
  assert (Hsame : forall w', files w' = files w -> timer_typed (session w') ->
                             records_kept w').
  { intros w' Hfiles Ht. split; [assumption|]. now rewrite Hfiles. }
  destruct a as [text|on|f|f| | |f|f].
  - now apply Hsame.
  - now apply Hsame.
  - destruct (step_consent w e f) as (pid & _ & Hstep). rewrite Hstep in *.
    destruct (ConsentPage.consent_given f); [|now apply Hsame].
    split; [exact Htimer'|]. cbn [files].
    repeat split; apply dataset_of_save_ne; solve [discriminate | assumption].
  - destruct (step_demographics w e f) as (pid & n & _ & Hn & Hstep).
    rewrite Hstep in *.
    destruct (consent_missing _ _); [now apply Hsame|].
    split; [exact Htimer'|]. cbn [files]. split; [|split].
    + apply (dataset_of_save demographic_record demographic_ok _
               {| demographic_env := e; demographic_pid := pid;
                  demographic_form := f; demographic_familiarity := n |});
        assumption.
    + apply dataset_of_save_ne; [discriminate|assumption].
    + apply dataset_of_save_ne; [discriminate|assumption].
  - now apply Hsame.
  - apply Hsame; [|assumption]. rewrite step_stop.
    destruct (session _ !! "task_start_time") as [t0|]; [|reflexivity].
    destruct (Py.truthy t0); [|reflexivity].
    destruct (Py.sub _ t0); reflexivity.
  - destruct (step_save w e f) as (pid & d & sat & _ & Hd & Hsat & Hstep).
    rewrite Hstep in *.
    destruct (consent_missing _ _); [now apply Hsame|].
    rewrite (duration_seconds_saved _
               (timer_typed_arrive e (SaveTaskResults f) w Htimer)) in *.
    split; [exact Htimer'|]. cbn [files]. split; [|split].
    + apply dataset_of_save_ne; [discriminate|assumption].
    + apply (dataset_of_save task_record task_ok _
               {| task_env := e; task_pid := pid; task_form := f;
                  task_measured :=
                    measured_in (session (arrive e (SaveTaskResults f) w));
                  task_difficulty := d;
                  task_satisfaction := sat |}); [|assumption].
      split; assumption.
    + apply dataset_of_save_ne; [discriminate|assumption].
  - destruct (step_exit w e f) as (pid & n1 & n2 & n3 & n4 & n5 & _ & Hn & Hstep).
    rewrite Hstep in *.
    destruct (consent_missing _ _); [now apply Hsame|].
    split; [exact Htimer'|]. cbn [files]. split; [|split].
    + apply dataset_of_save_ne; [discriminate|assumption].
    + apply dataset_of_save_ne; [discriminate|assumption].
    + apply (dataset_of_save exit_record exit_ok _
               {| exit_env := e; exit_pid := pid; exit_form := f;
                  exit_likert := (n1, n2, n3, n4, n5) |}); assumption.
Qed.

Lemma run_records_kept (trace : list (env * action)) (w : world) :
  records_kept w -> records_kept (run w trace).
Proof.
  revert w. induction trace as [|ea trace IH]; intros w Hw; [exact Hw|].
  simpl. apply IH. now apply step_records_kept.
Qed.

Lemma records_kept_initial : records_kept initial_world.
Proof.
  split; [now split|]. repeat split; apply dataset_of_empty.
Qed.

(** X10. In a session that starts in an empty data folder, whatever the
    actions and their order, the demographic, the task and the exit
    dataset are each what saving records of its own page one after the
    other leaves: every line has the fields of the page's record and the
    Likert answers in it are integers from 1 to 5.  And what a press on
    "Save Task Results" writes is tied to the session it is pressed in:
    nothing when the consent check fails; else one task record, whose
    duration is the number under [task_duration] rounded to three
    decimals when there is one that is not zero, and the empty marker
    when there is none or it is zero. *)
Theorem session_datasets_hold_records (trace : list (env * action)) :
  dataset_of demographic_record demographic_ok DEMOGRAPHIC_CSV
    (files (run initial_world trace))
  /\ dataset_of task_record task_ok TASK_CSV (files (run initial_world trace))
  /\ dataset_of exit_record exit_ok EXIT_CSV (files (run initial_world trace))
  /\ (forall e f,
        exists pid difficulty satisfaction,
          session (arrive e (SaveTaskResults f) (run initial_world trace))
            !! "participant_id" = Some pid
          /\ (1 <= difficulty <= 5)%Z /\ (1 <= satisfaction <= 5)%Z
          /\ files (step (run initial_world trace) (e, SaveTaskResults f))
             = if consent_missing
                    (load_from_csv CONSENT_CSV (files (run initial_world trace))) pid
               then files (run initial_world trace)
               else save_to_csv
                      (TaskPage.data_dict e pid f
                         (saved_duration
                            (measured_in (session (run initial_world trace))))
                         difficulty satisfaction)
                      TASK_CSV (files (run initial_world trace))).
Proof.
  destruct (run_records_kept trace initial_world records_kept_initial)
    as (Htimer & Hdemo & Htask & Hexit).
  repeat (split; [assumption|]).
  intros e f. now apply step_save_files.
Qed.

(** ** Report: averages of what was saved *)

Lemma numbers_ints (zs : list Z) :
  Sections.numbers (map Py.VInt zs) = inl (map (fun z => Some (inject_Z z)) zs).
Proof.
  induction zs as [|z zs IH]; [reflexivity|].
  cbn [map Sections.numbers Sections.number Py.bind Py.ret]. now rewrite IH.
Qed.

(** The mean of a column of a file of records under a key that holds
    an integer in every record. *)
Lemma column_mean_ints {X} (record : X -> Py.dict Py.value) (value : X -> Z)
    (x : X) (xs : list X) (k : string) :
  NoDup (Py.keys (record x)) ->
  (forall y, Py.keys (record y) = Py.keys (record x)) ->
  (forall y, Py.get (record y) k = Some (Py.VInt (value y))) ->
  Sections.column_mean
    (read_csv {| Csv.header := Py.keys (record x);
                 Csv.rows := map csv_line (map record (x :: xs)) |}) k
  = inl (Report.mean (map (fun y => inject_Z (value y)) (x :: xs))).
Proof.
  intros Hnd Hkeys Hvalue.
  unfold Sections.column_mean, Report.df_getitem, Py.getitem.
  rewrite (get_records_column record (fun y => Py.VInt (value y)) x xs k)
    by assumption.
  cbn [Py.bind Py.ret].
  rewrite <- (map_map value (fun z => Csv.field (Py.VInt z))).
  rewrite infer_column_ints, numbers_ints. cbn [Py.bind Py.ret].
  now rewrite mean_skipna_map_Some, map_map.
Qed.

Lemma sum_bounds (lo hi : Q) (xs : list Q) :
  Forall (fun x => (lo <= x <= hi)%Q) xs ->
  (inject_Z (Z.of_nat (length xs)) * lo <= Report.sum xs
   <= inject_Z (Z.of_nat (length xs)) * hi)%Q.
Proof.
  induction 1 as [|x xs Hx _ IH].
  - unfold Report.sum. cbn [length foldr].
    change (inject_Z (Z.of_nat 0)) with 0%Q. lra.
  - destruct Hx as [Hlo Hhi]. destruct IH as [IHlo IHhi].
    cbn [length Report.sum foldr]. fold (Report.sum xs).
    rewrite Nat2Z.inj_succ. unfold Z.succ. rewrite inject_Z_plus.
    change (inject_Z 1) with 1%Q. lra.
Qed.

(** A mean lies between the bounds of what it averages. *)
Lemma mean_bounds (lo hi : Q) (xs : list Q) (m : Q) :
  Forall (fun x => (lo <= x <= hi)%Q) xs ->
  Report.mean xs = Some m -> (lo <= m <= hi)%Q.
Proof.
  intros Hxs Hmean. pose proof (sum_bounds lo hi xs Hxs) as Hsum.
  destruct xs as [|x xs]; [discriminate|].
  unfold Report.mean in Hmean. injection Hmean as <-. rewrite Qred_correct.
  set (n := inject_Z (Z.of_nat (length (x :: xs)))) in *.
  assert (Hn : (0 < n)%Q).
  { unfold n. change 0%Q with (inject_Z 0). rewrite <- Zlt_Qlt. cbn [length]. lia. }
  split.
  - apply Qle_shift_div_l; [assumption|].
    change (lo * n <= Report.sum (x :: xs))%Q. clearbody n. lra.
  - apply Qle_shift_div_r; [assumption|].
    change (Report.sum (x :: xs) <= hi * n)%Q. clearbody n. lra.
Qed.

Lemma likert_bounds (n : Z) : (1 <= n <= 5)%Z -> (1 <= inject_Z n <= 5)%Q.
Proof.
  intros [Hlo Hhi]. split.
  - change 1%Q with (inject_Z 1). now rewrite <- Zle_Qle.
  - change 5%Q with (inject_Z 5). now rewrite <- Zle_Qle.
Qed.

Lemma demographic_keys (x : demographic_entry) :
  Py.keys (demographic_record x)
  = [ "timestamp"; "participant_id"; "name"; "age"; "gender"; "occupation";
      "education"; "country"; "familiarity_1to5" ].
Proof. reflexivity. Qed.

Lemma demographic_keys_NoDup (x : demographic_entry) :
  NoDup (Py.keys (demographic_record x)).
Proof. rewrite demographic_keys. apply (bool_decide_unpack _). vm_compute. exact I. Qed.

(** X11. The demographics section of the report, over a dataset that
    is what saving demographic records one after the other leaves:
    nothing but the notice when there is none; else the mean of the
    ages that were submitted (shown with one decimal), the mean of the
    familiarity answers (two decimals) and the number of records.  The
    section does not raise, and with answers from 1 to 5 the familiarity
    average lies between 1 and 5. *)
Theorem demographic_report_of_entries (fs : filesystem)
    (entries : list demographic_entry) :
  fs !! DEMOGRAPHIC_CSV
  = save_all (map demographic_record entries) DEMOGRAPHIC_CSV ∅ !! DEMOGRAPHIC_CSV ->
  Sections.demographic_section (load_from_csv DEMOGRAPHIC_CSV fs)
  = inl match entries with
        | [] => [Sections.info "No demographic data available yet."]
        | _ :: _ =>
            [ Sections.metric "Average Age" (Report.mean (ages entries)) 1;
              Sections.metric "Avg Familiarity (1-5)"
                (Report.mean (familiarities entries)) 2;
              Sections.count "Responses" (length entries) ]
        end
  /\ (Forall demographic_ok entries -> entries <> [] ->
      exists m, Report.mean (familiarities entries) = Some m /\ (1 <= m <= 5)%Q).
Proof.
  intros Hfile. split.
  - rewrite (load_from_csv_lookup _ _ _ Hfile).
    destruct entries as [|x xs]; [now rewrite load_saved_nothing|].
    rewrite load_saved_entries. unfold Sections.demographic_section.
    rewrite df_empty_read_csv by discriminate.
    rewrite !has_column_read_csv, df_len_read_csv by discriminate.
    cbn [Csv.header Csv.rows]. rewrite !length_map.
    change (existsb (String.eqb "age") (Py.keys (demographic_record x))) with true.
    change (existsb (String.eqb "familiarity_1to5") (Py.keys (demographic_record x)))
      with true.
    cbn [length Nat.eqb negb].
    rewrite (column_mean_ints demographic_record
               (fun y => DemographicsPage.age (demographic_form y)) x xs "age");
      [|apply demographic_keys_NoDup|reflexivity|reflexivity].
    rewrite (column_mean_ints demographic_record demographic_familiarity x xs
               "familiarity_1to5");
      [|apply demographic_keys_NoDup|reflexivity|reflexivity].
    reflexivity.
  - intros Hok Hne.
    destruct (Report.mean (familiarities entries)) as [m|] eqn:Hmean.
    + exists m. split; [reflexivity|].
      apply (mean_bounds 1 5 (familiarities entries)); [|assumption].
      unfold familiarities. apply Forall_map.
      eapply Forall_impl; [exact Hok|]. intros x Hx. now apply likert_bounds.
    + apply mean_None in Hmean. unfold familiarities in Hmean.
      apply map_eq_nil in Hmean. contradiction.
Qed.

Lemma exit_keys (x : exit_entry) :
  Py.keys (exit_record x)
  = [ "timestamp"; "participant_id"; "satisfaction_1to5"; "ease_of_use_1to5";
      "efficiency_1to5"; "learnability_1to5"; "error_prevention_1to5";
      "nps_0to10"; "likes"; "dislikes"; "suggestions" ].
Proof. unfold exit_record. now destruct (exit_likert x) as [[[[? ?] ?] ?] ?]. Qed.

Lemma exit_keys_NoDup (x : exit_entry) : NoDup (Py.keys (exit_record x)).
Proof. rewrite exit_keys. apply (bool_decide_unpack _). vm_compute. exact I. Qed.

Lemma exit_answer_column (question : nat) (k : string) (x : exit_entry) :
  nth_error Sections.metrics_cols question = Some k ->
  Py.get (exit_record x) k = Some (Py.VInt (nth question (likert_answers x) 0%Z)).
Proof.
  unfold exit_record, likert_answers.
  destruct (exit_likert x) as [[[[n1 n2] n3] n4] n5].
  do 5 (destruct question as [|question]; [now intros [= <-]|]).
  now destruct question.
Qed.

Lemma exit_columns_present (x : exit_entry) (rows : list (list string)) :
  List.filter
    (Sections.has_column
       (read_csv {| Csv.header := Py.keys (exit_record x); Csv.rows := rows |}))
    Sections.metrics_cols = Sections.metrics_cols
  /\ Sections.has_column
       (read_csv {| Csv.header := Py.keys (exit_record x); Csv.rows := rows |})
       "nps_0to10" = true.
Proof.
  unfold Sections.has_column. rewrite keys_read_csv. cbn [Csv.header].
  rewrite exit_keys. now split.
Qed.

Lemma exit_answers_bounds (x : exit_entry) (question : nat) :
  exit_ok x -> (question < 5)%nat ->
  (1 <= nth question (likert_answers x) 0 <= 5)%Z.
Proof.
  unfold exit_ok, likert_answers.
  destruct (exit_likert x) as [[[[n1 n2] n3] n4] n5].
  intros Hok Hq. now apply Forall_nth.
Qed.

(** X12. The exit section of the report, over a dataset that is what
    saving exit records one after the other leaves: nothing but the
    notice when there is none; else one metric for each of the five
    Likert questions, labelled with the column name in title case
    ("Satisfaction 1To5", ...), that holds the mean of the answers that
    were submitted, and the mean of the NPS scores.  The section does
    not raise, and with answers from 1 to 5 every Likert average lies
    between 1 and 5. *)
Theorem exit_report_of_entries (fs : filesystem) (entries : list exit_entry) :
  fs !! EXIT_CSV = save_all (map exit_record entries) EXIT_CSV ∅ !! EXIT_CSV ->
  Sections.exit_section (load_from_csv EXIT_CSV fs)
  = inl match entries with
        | [] => [Sections.info "No exit questionnaire data available yet."]
        | _ :: _ =>
            [ Sections.metric "Satisfaction 1To5" (Report.mean (answers 0 entries)) 2;
              Sections.metric "Ease Of Use 1To5" (Report.mean (answers 1 entries)) 2;
              Sections.metric "Efficiency 1To5" (Report.mean (answers 2 entries)) 2;
              Sections.metric "Learnability 1To5" (Report.mean (answers 3 entries)) 2;
              Sections.metric "Error Prevention 1To5"
                (Report.mean (answers 4 entries)) 2;
              Sections.metric "Average NPS" (Report.mean (nps_scores entries)) 1 ]
        end
  /\ (Forall exit_ok entries -> entries <> [] ->
      forall question, (question < 5)%nat ->
        exists m, Report.mean (answers question entries) = Some m
                  /\ (1 <= m <= 5)%Q).
Proof.
  intros Hfile. split.
  - rewrite (load_from_csv_lookup _ _ _ Hfile).
    destruct entries as [|x xs]; [now rewrite load_saved_nothing|].
    rewrite load_saved_entries. unfold Sections.exit_section.
    rewrite df_empty_read_csv by (rewrite exit_keys; discriminate).
    destruct (exit_columns_present x (map csv_line (map exit_record (x :: xs))))
      as [-> ->].
    cbn [Csv.rows]. rewrite !length_map. cbn [length Nat.eqb negb].
    assert (Hkeys : forall y, Py.keys (exit_record y) = Py.keys (exit_record x))
      by (intros y; now rewrite !exit_keys).
    assert (Hmean : forall question k,
              nth_error Sections.metrics_cols question = Some k ->
              Sections.column_mean
                (read_csv {| Csv.header := Py.keys (exit_record x);
                             Csv.rows := map csv_line (map exit_record (x :: xs)) |}) k
              = inl (Report.mean (answers question (x :: xs)))).
    { intros question k Hk.
      apply (column_mean_ints exit_record
               (fun y => nth question (likert_answers y) 0%Z) x xs k);
        [apply exit_keys_NoDup | exact Hkeys |].
      intros y. now apply exit_answer_column. }
    cbn [Sections.metrics_cols Sections.metric_means].
    rewrite (Hmean 0%nat), (Hmean 1%nat), (Hmean 2%nat), (Hmean 3%nat), (Hmean 4%nat)
      by reflexivity.
    rewrite (column_mean_ints exit_record (fun y => ExitPage.nps (exit_form y)) x xs
               "nps_0to10");
      [|apply exit_keys_NoDup | exact Hkeys |].
    + reflexivity.
    + intros y. unfold exit_record.
      now destruct (exit_likert y) as [[[[? ?] ?] ?] ?].
  - intros Hok Hne question Hq.
    destruct (Report.mean (answers question entries)) as [m|] eqn:Hmean.
    + exists m. split; [reflexivity|].
      apply (mean_bounds 1 5 (answers question entries)); [|assumption].
      unfold answers. apply Forall_map.
      eapply Forall_impl; [exact Hok|]. intros x Hx.
      now apply likert_bounds, exit_answers_bounds.
    + apply mean_None in Hmean. unfold answers in Hmean.
      apply map_eq_nil in Hmean. contradiction.
Qed.

(** ** Report: the task aggregates of what was saved *)

Lemma success_by_task_spec (task_df : DataFrame) (names outcomes : list Py.value) :
  Py.get task_df "task_name" = Some names ->
  Py.get task_df "success" = Some outcomes ->
  length names = length outcomes ->
  exists rates : list (string * Q),
    Report.success_by_task task_df
    = inl (map (fun kv => (fst kv, Some (snd kv))) rates)
    /\ (forall task,
          Py.get rates task = Report.spec_success_rate (zip names outcomes) task)
    /\ StronglySorted (fun a b => (snd b <= snd a)%Q) rates.
Proof.
  intros Hnames Houtcomes Hlen.
  unfold Report.success_by_task, Report.df_getitem, Py.getitem.
  rewrite Houtcomes, Hnames. cbn [Py.bind Py.ret].
  rewrite success_scores_column.
  set (scores := map (fun v => Some (Report.spec_success_score v)) outcomes).
  set (s := Report.groupby_mean names scores).
  assert (Hperm : Report.sort_values_descending s ≡ₚ s)
    by apply merge_sort_Permutation.
  assert (Hnd : NoDup (Py.keys s)).
  { unfold s. rewrite keys_groupby_mean. apply NoDup_group_keys. }
  assert (Hnd' : NoDup (Py.keys (Report.sort_values_descending s))).
  { unfold Py.keys. now rewrite Hperm. }
  assert (Hsome : Forall (fun kv => is_Some (snd kv)) (Report.sort_values_descending s)).
  { rewrite Hperm. now apply success_rates_no_nan. }
  exists (Report.dropna (Report.sort_values_descending s)).
  split; [|split].
  - now rewrite dropna_all_Some.
  - intros task. rewrite get_dropna by assumption.
    rewrite (get_Permutation _ s) by assumption.
    unfold s. rewrite get_groupby_mean.
    destruct (decide (Py.VStr task ∈ names)) as [Hin|Hout].
    + unfold scores. rewrite groupby_mean_scores.
      now destruct (Report.spec_success_rate (zip names outcomes) task).
    + symmetry. unfold Report.spec_success_rate.
      rewrite rows_of_task_nil; [reflexivity|].
      now rewrite map_fst_zip.
  - apply dropna_sorted. apply StronglySorted_merge_sort; apply _.
Qed.

(** Where the duration column holds no text, what reads numbers in
    text plays no part. *)
Lemma average_duration_no_text (p p' : string -> option Q) (task_df : DataFrame)
    (durations : list Py.value) :
  Py.get task_df "duration_seconds" = Some durations ->
  Forall (fun v => forall s, v <> Py.VStr s) durations ->
  Report.average_duration_by_task p task_df
  = Report.average_duration_by_task p' task_df.
Proof.
  intros Hget Hnum.
  unfold Report.average_duration_by_task, Report.df_getitem, Py.getitem.
  rewrite Hget. cbn [Py.bind Py.ret].
  destruct (Py.get task_df "task_name") as [names|]; [|reflexivity].
  cbn [Py.bind Py.ret]. do 3 f_equal.
  apply map_ext_in. intros [name v] Hin. cbn [snd].
  apply list_elem_of_In, list_elem_of_filter in Hin as [_ Hin].
  apply elem_of_zip_r in Hin. rewrite List.Forall_forall in Hnum.
  specialize (Hnum v (proj1 (list_elem_of_In _ _) Hin)).
  destruct v; try reflexivity. now destruct (Hnum s).
Qed.

Lemma rows_of_task_entries {A} (g : task_entry -> A) (task : string)
    (entries : list task_entry) :
  Report.rows_of_task task
    (zip (map (fun x => Py.VStr (task_of x)) entries) (map g entries))
  = map g (entries_of_task task entries).
Proof.
  unfold Report.rows_of_task, entries_of_task.
  induction entries as [|x xs IH]; [reflexivity|].
  cbn [map List.filter]. generalize (task_of x) as t. intros t.
  cbn. destruct (String.eqb t task); cbn; [f_equal|]; exact IH.
Qed.

Lemma numbers_of_durations (p : string -> option Q) (entries : list task_entry) :
  omap (Report.to_numeric p) (map (fun x => loaded_duration (task_measured x)) entries)
  = measurements entries.
Proof.
  unfold measurements. induction entries as [|x xs IH]; [reflexivity|].
  cbn [map]. destruct (task_measured x) as [d|] eqn:Hd.
  - cbn. rewrite Hd. f_equal. exact IH.
  - cbn. rewrite Hd. exact IH.
Qed.

Lemma task_keys (x : task_entry) :
  Py.keys (task_record x)
  = [ "timestamp"; "participant_id"; "task_name"; "success"; "duration_seconds";
      "errors"; "perceived_difficulty_1to5"; "task_satisfaction_1to5"; "notes" ].
Proof. reflexivity. Qed.

Lemma task_keys_NoDup (x : task_entry) : NoDup (Py.keys (task_record x)).
Proof. rewrite task_keys. apply (bool_decide_unpack _). vm_compute. exact I. Qed.

(** The three columns of the task dataset the report reads. *)
Lemma task_columns (x : task_entry) (xs : list task_entry) :
  let frame := read_csv {| Csv.header := Py.keys (task_record x);
                           Csv.rows := map csv_line (map task_record (x :: xs)) |} in
  Py.get frame "task_name" = Some (map (fun y => Py.VStr (task_of y)) (x :: xs))
  /\ Py.get frame "success" = Some (map (fun y => Py.VStr (outcome_of y)) (x :: xs))
  /\ Py.get frame "duration_seconds"
     = Some (map (fun y => loaded_duration (task_measured y)) (x :: xs)).
Proof.
  cbv zeta. split; [|split].
  - rewrite (get_records_column task_record (fun y => Py.VStr (task_of y)) x xs);
      [|apply task_keys_NoDup|reflexivity|reflexivity].
    f_equal. change (fun y => Csv.field (Py.VStr (task_of y))) with task_of.
    rewrite infer_column_texts; [now rewrite map_map|].
    apply Forall_map, Forall_true. intros y. apply task_name_plain.
  - rewrite (get_records_column task_record (fun y => Py.VStr (outcome_of y)) x xs);
      [|apply task_keys_NoDup|reflexivity|reflexivity].
    f_equal. change (fun y => Csv.field (Py.VStr (outcome_of y))) with outcome_of.
    rewrite infer_column_texts; [now rewrite map_map|].
    apply Forall_map, Forall_true. intros y. apply outcome_plain.
  - rewrite (get_records_column task_record
               (fun y => saved_duration (task_measured y)) x xs);
      [|apply task_keys_NoDup|reflexivity|reflexivity].
    f_equal.
    rewrite <- (map_map task_measured (fun o => Csv.field (saved_duration o))).
    now rewrite infer_column_durations, map_map.
Qed.

(** X13. The task section of the report, over a dataset that is what
    saving task records one after the other leaves: nothing when there
    is none; else, for every task, the success rate is the mean of the
    scores of the outcomes saved for the task, and the average duration
    is the mean of the rounded measurements saved for it.  A record
    saved without a measurement (the empty marker, which the file gives
    back as a missing value) takes no part in the average, and a task
    with no measurement at all has no average.  The section does not
    raise. *)
Theorem task_report_of_entries (str_to_float : string -> option Q)
    (fs : filesystem) (entries : list task_entry) :
  fs !! TASK_CSV = save_all (map task_record entries) TASK_CSV ∅ !! TASK_CSV ->
  match entries with
  | [] => Report.task_report str_to_float (load_from_csv TASK_CSV fs) = inl None
  | _ :: _ =>
      exists (rates avg_dur : list (string * Q)),
        Report.task_report str_to_float (load_from_csv TASK_CSV fs)
        = inl (Some (map (fun kv => (fst kv, Some (snd kv))) rates, Some avg_dur))
        /\ (forall task,
              Py.get rates task = Report.mean (scores (entries_of_task task entries)))
        /\ (forall task,
              Py.get avg_dur task
              = Report.mean (measurements (entries_of_task task entries)))
  end.
Proof.
  intros Hfile. rewrite (load_from_csv_lookup _ _ _ Hfile).
  destruct entries as [|x xs]; [now rewrite load_saved_nothing|].
  rewrite load_saved_entries.
  destruct (task_columns x xs) as (Hnames & Houtcomes & Hdurations).
  set (frame := read_csv _) in *.
  destruct (success_by_task_spec frame _ _ Hnames Houtcomes) as (rates & Hrates & Hrate & _);
    [now rewrite !length_map|].
  destruct (average_duration_spec Csv.parse_float parse_float_blank frame _ _
              Hnames Hdurations) as (avg_dur & Havg & Hmean & _).
  exists rates, avg_dur. split; [|split].
  - unfold Report.task_report.
    assert (Hempty : df_empty frame = false).
    { unfold frame. now rewrite df_empty_read_csv by discriminate. }
    assert (Hcolumn : existsb (String.eqb "duration_seconds") (Py.keys frame) = true).
    { unfold frame. now rewrite keys_read_csv. }
    rewrite Hempty, Hrates, Hcolumn. cbn [negb Py.bind Py.ret].
    rewrite (average_duration_no_text str_to_float Csv.parse_float frame _ Hdurations).
    + now rewrite Havg.
    + apply Forall_map, Forall_true. intros y s. now destruct (task_measured y).
  - intros task. rewrite Hrate. unfold Report.spec_success_rate.
    now rewrite rows_of_task_entries, map_map.
  - intros task. rewrite Hmean. unfold Report.spec_mean_duration.
    now rewrite rows_of_task_entries, numbers_of_durations.
Qed.

(** ** Report: the consents *)

(** X14. In a session that starts in an empty data folder, the consent
    section of the report shows as "Total Consents" the number of
    presses on "Submit Consent" with the box checked (a participant who
    consents twice counts twice), and the notice as long as there was
    none. *)
Theorem consent_report_counts_consents (trace : list (env * action)) :
  Sections.consent_section
    (load_from_csv CONSENT_CSV (files (run initial_world trace)))
  = match consents_given trace with
    | O => [Sections.info "No consent data available yet."]
    | S _ => [Sections.count "Total Consents" (consents_given trace)]
    end.
Proof.
  pose proof (run_consent_count initial_world trace) as Hcount.
  destruct (run_integrity trace initial_world integrity_initial) as (_ & Hheader & _).
  change (row_count CONSENT_CSV (files initial_world)) with 0%nat in Hcount.
  cbn [Nat.add] in Hcount.
  unfold row_count, dataset_rows in Hcount.
  unfold consent_header_made in Hheader. unfold load_from_csv.
  destruct (files (run initial_world trace) !! CONSENT_CSV) as [t|].
  - unfold Sections.consent_section.
    rewrite df_empty_read_csv, df_len_read_csv by now rewrite Hheader.
    rewrite Hcount. now destruct (consents_given trace).
  - cbn in Hcount. now rewrite <- Hcount.
Qed.

(** ** The participant id of a session *)

Lemma run_snoc (w : world) (trace : list (env * action)) (ea : env * action) :
  run w (trace ++ [ea]) = step (run w trace) ea.
Proof. unfold run. now rewrite fold_left_app. Qed.

Lemma step_has_id (w : world) (ea : env * action) :
  id_typed (session w) -> participant_set (session (step w ea)) = true.
Proof.
  destruct ea as [e a]. intros Hw.
  destruct (arrive_id e a w Hw) as (s & Hs & Hne).
  unfold participant_set. rewrite step_id_lookup, Hs.
  destruct s; [congruence|reflexivity].
Qed.

Lemma run_has_id (trace : list (env * action)) :
  trace <> [] -> participant_set (session (run initial_world trace)) = true.
Proof.
  intros Htrace. destruct (exists_last Htrace) as (trace' & ea & ->).
  rewrite run_snoc. apply step_has_id, run_id_typed. exact I.
Qed.

Lemma arrive_edit_id (e : env) (text : string) (w : world) :
  session (arrive e (EditParticipantId text) w) !! "participant_id"
  = ensure_participant e (<["participant_id" := Py.VStr text]> (session w))
    !! "participant_id".
Proof.
  unfold arrive, sidebar. cbn [session widget_update].
  destruct (ensure_participant e _ !! "observer_mode"); [reflexivity|].
  rewrite lookup_insert_ne by discriminate. reflexivity.
Qed.

(** What the id is after a run, by the action that triggered it. *)
Lemma arrive_id_cases (e : env) (a : action) (w : world) (s : string) :
  session (arrive e a w) !! "participant_id" = Some (Py.VStr s) ->
  match a with
  | EditParticipantId "" =>
      exists token,
        String.length token = 8 /\ Uuid.all_hex token = true
        /\ s = "P-" +:+ token
  | EditParticipantId text => s = text
  | _ =>
      participant_set (session w) = true ->
      session w !! "participant_id" = Some (Py.VStr s)
  end.
Proof.
  intros Hs.
  assert (Hkept : (forall text, a <> EditParticipantId text) ->
                  participant_set (session w) = true ->
                  session w !! "participant_id" = Some (Py.VStr s)).
  { intros Ha Hset. rewrite <- (arrive_keeps_id e a w Ha Hset). exact Hs. }
  destruct a as [text|on|f|f| | |f|f].
  - clear Hkept. rewrite arrive_edit_id in Hs. destruct text as [|c text].
    + rewrite ensure_participant_unset in Hs.
      2:{ unfold participant_set. rewrite lookup_insert_eq. reflexivity. }
      rewrite lookup_insert_eq in Hs. injection Hs as <-.
      destruct (uuid_token_shape (uuid4 e)) as [Hlen Hhex].
      exists (String.substring 0 8 (Uuid.str (uuid4 e))).
      split; [exact Hlen|]. split; [exact Hhex|reflexivity].
    + rewrite ensure_participant_set in Hs.
      2:{ unfold participant_set. rewrite lookup_insert_eq. reflexivity. }
      rewrite lookup_insert_eq in Hs. injection Hs as <-. reflexivity.
  - apply Hkept. intros text. discriminate.
  - apply Hkept. intros text. discriminate.
  - apply Hkept. intros text. discriminate.
  - apply Hkept. intros text. discriminate.
  - apply Hkept. intros text. discriminate.
  - apply Hkept. intros text. discriminate.
  - apply Hkept. intros text. discriminate.
Qed.

(** X15. In a session that starts in an empty data folder, the session
    holds a participant id after every run, a string that is not empty.
    A text typed into the sidebar is the id from then on; clearing the
    field makes the same run generate a new id, "P-" and eight
    hexadecimal digits; and any other action, after the first run, keeps
    the id that was there. *)
Theorem participant_id_after_a_run (trace : list (env * action)) (e : env)
    (a : action) :
  exists s,
    session (step (run initial_world trace) (e, a)) !! "participant_id"
    = Some (Py.VStr s)
    /\ s <> ""
    /\ match a with
       | EditParticipantId "" =>
           exists token,
             String.length token = 8 /\ Uuid.all_hex token = true
             /\ s = "P-" +:+ token
       | EditParticipantId text => s = text
       | _ =>
           trace <> [] ->
           session (run initial_world trace) !! "participant_id" = Some (Py.VStr s)
       end.
Proof.
  pose proof (run_id_typed trace initial_world I) as Hw.
  pose proof (run_has_id trace) as Hset.
  revert Hw Hset. generalize (run initial_world trace). intros w Hw Hset.
  destruct (arrive_id e a w Hw) as (s & Hs & Hne).
  exists s. rewrite step_id_lookup. split; [exact Hs|]. split; [exact Hne|].
  pose proof (arrive_id_cases e a w s Hs) as Hcases.
  destruct a as [text|on|f|f| | |f|f]; try exact Hcases;
    intros Htrace; apply Hcases, Hset, Htrace.
Qed.

(** ** Instances of the further properties *)

(** The consented participant saves the task measured at 5.5 seconds:
    the task dataset gets its first row and the timer is reset. *)
Lemma save_resets_timer_when_accepted_witness :
  row_count TASK_CSV (files (step Demo.measured (Demo.later, SaveTaskResults Demo.task)))
  = 1%nat
  /\ session (step Demo.measured (Demo.later, SaveTaskResults Demo.task))
     !! "task_start_time" = None
  /\ session (step Demo.measured (Demo.later, SaveTaskResults Demo.task))
     !! "task_duration" = None.
Proof.
  destruct (save_resets_timer_when_accepted Demo.measured Demo.later Demo.task
              ltac:(vm_compute; split; exact I) _ eq_refl)
    as (pid & Hpid & Hsaved).
  vm_compute in Hpid. injection Hpid as <-.
  replace (consent_missing (load_from_csv CONSENT_CSV (files Demo.measured))
             (Py.VStr "P-12345678")) with false in Hsaved
    by (vm_compute; reflexivity).
  destruct Hsaved as (Hrows & Hstart & Hduration & _).
  split; [|split; assumption].
  rewrite Hrows. vm_compute. reflexivity.
Defined.

(** Started at 1700000000, stopped at 1700000005.5 and stopped again:
    each stop measures 5.5 seconds from the same start. *)
Lemma stop_again_measures_from_same_start_witness :
  session (step Demo.consented_and_started (Demo.later, StopTaskTimer))
    !! "task_start_time" = Some (Py.VFloat 1700000000)
  /\ session (step Demo.consented_and_started (Demo.later, StopTaskTimer))
       !! "task_duration" = Some (Py.VFloat (time_time Demo.later - 1700000000))
  /\ session (run Demo.consented_and_started
                [(Demo.later, StopTaskTimer); (Demo.later, StopTaskTimer)])
       !! "task_duration" = Some (Py.VFloat (time_time Demo.later - 1700000000)).
Proof.
  apply (stop_again_measures_from_same_start Demo.consented_and_started
           Demo.later Demo.later 1700000000).
  - vm_compute. reflexivity.
  - intros Hzero. vm_compute in Hzero. discriminate Hzero.
Defined.

(** The demographic record of the sample session carries the id that
    consented. *)
Lemma records_only_for_consented_ids_witness :
  In "P-12345678"
     (consented_ids (files (run initial_world Sample.consent_then_demographics))).
Proof.
  apply (records_only_for_consented_ids Sample.consent_then_demographics
           DEMOGRAPHIC_CSV
           [ "2023-11-14 22:13:25"; "P-12345678"; ""; "25"; "Prefer not to say";
             "Student"; "Bachelor"; ""; "3" ]).
  - vm_compute. auto.
  - vm_compute. left. reflexivity.
Defined.

(** After the consent of the sample session, each of the three
    submissions adds a row. *)
Lemma consented_participant_is_accepted_witness :
  (forall f,
     row_count DEMOGRAPHIC_CSV
       (files (step (step initial_world (Demo.at_start, SubmitConsent Demo.consent))
                 (Demo.later, SubmitDemographics f)))
     = S (row_count DEMOGRAPHIC_CSV
            (files (step initial_world (Demo.at_start, SubmitConsent Demo.consent)))))
  /\ (forall f,
        row_count TASK_CSV
          (files (step (step initial_world (Demo.at_start, SubmitConsent Demo.consent))
                    (Demo.later, SaveTaskResults f)))
        = S (row_count TASK_CSV
               (files (step initial_world (Demo.at_start, SubmitConsent Demo.consent)))))
  /\ (forall f,
        row_count EXIT_CSV
          (files (step (step initial_world (Demo.at_start, SubmitConsent Demo.consent))
                    (Demo.later, SubmitExit f)))
        = S (row_count EXIT_CSV
               (files (step initial_world (Demo.at_start, SubmitConsent Demo.consent))))).
Proof.
  apply (consented_participant_is_accepted [] Demo.at_start Demo.later Demo.consent
           "12345678").
  - reflexivity.
  - vm_compute. reflexivity.
  - reflexivity.
Defined.


(** A measurement of 1.23456 seconds. *)
Lemma stored_duration_rounded_witness :
  exists r k,
    TaskPage.duration_seconds (Py.VFloat (123456 # 100000)) = inl (Py.VFloat r)
    /\ (r == inject_Z k * (1 # 1000))%Q
    /\ ((123456 # 100000) - (1 # 2000) <= r <= (123456 # 100000) + (1 # 2000))%Q.
Proof.
  apply (stored_duration_rounded (123456 # 100000)).
  intros Hzero. vm_compute in Hzero. discriminate Hzero.
Defined.

(** The two sample demographic records: an average age of 32.5 and an
    average familiarity of 4, over two responses. *)
Lemma demographic_report_of_entries_witness :
  Sections.demographic_section
    (load_from_csv DEMOGRAPHIC_CSV
       (save_all (map demographic_record [Sample.younger; Sample.older])
          DEMOGRAPHIC_CSV ∅))
  = inl [ Sections.metric "Average Age" (Some (65 # 2)%Q) 1;
          Sections.metric "Avg Familiarity (1-5)" (Some 4%Q) 2;
          Sections.count "Responses" 2 ].
Proof.
  rewrite (proj1 (demographic_report_of_entries
                    (save_all (map demographic_record [Sample.younger; Sample.older])
                       DEMOGRAPHIC_CSV ∅)
                    [Sample.younger; Sample.older] eq_refl)).
  vm_compute. reflexivity.
Defined.

(** The two sample exit records. *)
Lemma exit_report_of_entries_witness :
  Sections.exit_section
    (load_from_csv EXIT_CSV
       (save_all (map exit_record [Sample.pleased; Sample.displeased]) EXIT_CSV ∅))
  = inl [ Sections.metric "Satisfaction 1To5" (Some 3%Q) 2;
          Sections.metric "Ease Of Use 1To5" (Some (5 # 2)%Q) 2;
          Sections.metric "Efficiency 1To5" (Some 3%Q) 2;
          Sections.metric "Learnability 1To5" (Some (7 # 2)%Q) 2;
          Sections.metric "Error Prevention 1To5" (Some 2%Q) 2;
          Sections.metric "Average NPS" (Some (9 # 2)%Q) 1 ].
Proof.
  rewrite (proj1 (exit_report_of_entries
                    (save_all (map exit_record [Sample.pleased; Sample.displeased])
                       EXIT_CSV ∅)
                    [Sample.pleased; Sample.displeased] eq_refl)).
  vm_compute. reflexivity.
Defined.

(** The three sample task records: task 1 has a success rate of 3/4 and
    an average duration of 5.5 seconds over its one timed record; task 2
    has a rate of 0 and no average duration. *)
Lemma task_report_of_entries_witness :
  exists rates avg_dur,
    Report.task_report Csv.parse_float
      (load_from_csv TASK_CSV
         (save_all (map task_record [Sample.timed; Sample.untimed; Sample.failed])
            TASK_CSV ∅))
    = inl (Some (map (fun kv => (fst kv, Some (snd kv))) rates, Some avg_dur))
    /\ Py.get rates "Task 1: Find an item" = Some (3 # 4)%Q
    /\ Py.get rates "Task 2: Create an account" = Some 0%Q
    /\ Py.get avg_dur "Task 1: Find an item" = Some (11 # 2)%Q
    /\ Py.get avg_dur "Task 2: Create an account" = None.
Proof.
  destruct (task_report_of_entries Csv.parse_float
              (save_all (map task_record [Sample.timed; Sample.untimed; Sample.failed])
                 TASK_CSV ∅)
              [Sample.timed; Sample.untimed; Sample.failed] eq_refl)
    as (rates & avg_dur & Hreport & Hrate & Hmean).
  exists rates, avg_dur. split; [exact Hreport|].
  repeat split; rewrite ?Hrate, ?Hmean; vm_compute; reflexivity.
Defined.
